(** * Swift-Alliance message codecs: MT text, pain.001 XML and formal output

    A shallow embedding of the message-building code of the repository
    ([swift_messages.py], [swift_alliance_streamlit.py],
    [streamlit_client.py]) together with the part of Python's [decimal],
    [datetime] and [str] semantics these functions rely on, and of the
    code around it: the user store and the configuration files
    ([add_user.py], [fetch_logo.py], [config_manager.py]) and the form
    of [swift_alliance_gui.py].

    Conventions.
    - Python [str] values are [string]s (ASCII range; the regular
      expressions and [str.strip] of Python also know non-ASCII digits and
      blanks, which are outside this model).
    - A function that may raise returns a [result]; the exception classes
      that occur are the constructors of [exn].
    - The wall clock and the UUID generator are read from an explicit
      [World], threaded through every call by the monad [M].
    - Two library functions whose behaviour depends on the interpreter
      are parameters of the generators: the XML serializer
      ([ET.tostring], [minidom.parseString], [toprettyxml]) and
      [datetime.date.fromisoformat].  [MiniDom.toprettyxml] and
      [PyTime.fromisoformat_ymd] are instances to compute with. *)

From Stdlib Require Import String Ascii List ZArith NArith Lia Bool.
Import ListNotations.
Local Open Scope string_scope.

(** ** Exceptions and results *)

Inductive exn : Type :=
| InvalidOperation   (* decimal.InvalidOperation *)
| KeyError           (* payment['amount'] on a dict without that key *)
| AttributeError     (* .quantize on a value that is not a Decimal *)
| ExpatError         (* minidom.parseString on text that is not XML *)
| StopExecution.     (* st.stop() after st.error(...) *)

Inductive result (A : Type) : Type :=
| Ok (a : A)
| Err (e : exn).
Arguments Ok {A} a.
Arguments Err {A} e.

Definition rbind {A B} (r : result A) (k : A -> result B) : result B :=
  match r with
  | Ok a => k a
  | Err e => Err e
  end.

(** ** Python string helpers *)

Module PyStr.

Definition nl : string := String (ascii_of_nat 10) "".

(** [sep.join(lines)] *)
Definition join (sep : string) (parts : list string) : string :=
  String.concat sep parts.

Fixpoint map_chars (f : ascii -> ascii) (s : string) : string :=
  match s with
  | "" => ""
  | String c r => String (f c) (map_chars f r)
  end.

Fixpoint filter_chars (f : ascii -> bool) (s : string) : string :=
  match s with
  | "" => ""
  | String c r => if f c then String c (filter_chars f r) else filter_chars f r
  end.

Fixpoint forallb_chars (f : ascii -> bool) (s : string) : bool :=
  match s with
  | "" => true
  | String c r => f c && forallb_chars f r
  end.

Definition in_range (lo hi : nat) (c : ascii) : bool :=
  let n := nat_of_ascii c in (lo <=? n)%nat && (n <=? hi)%nat.

Definition is_digit (c : ascii) : bool := in_range 48 57 c.

(** [s.replace(a, b)] for one-character [a] and [b]. *)
Definition replace_char (a b : ascii) (s : string) : string :=
  map_chars (fun c => if Ascii.eqb c a then b else c) s.

Definition upper_char (c : ascii) : ascii :=
  if in_range 97 122 c then ascii_of_nat (nat_of_ascii c - 32) else c.
Definition lower_char (c : ascii) : ascii :=
  if in_range 65 90 c then ascii_of_nat (nat_of_ascii c + 32) else c.

Definition upper (s : string) : string := map_chars upper_char s.
Definition lower (s : string) : string := map_chars lower_char s.

(** [s[:n]] and [s[n:]] for [n >= 0]. *)
Fixpoint take (n : nat) (s : string) : string :=
  match n, s with
  | S m, String c r => String c (take m r)
  | _, _ => ""
  end.

Fixpoint drop (n : nat) (s : string) : string :=
  match n, s with
  | S m, String _ r => drop m r
  | _, _ => s
  end.

(** ['0' * n] *)
Fixpoint zeros (n : nat) : string :=
  match n with
  | O => ""
  | S m => String "0" (zeros m)
  end.

Definition is_empty (s : string) : bool :=
  match s with "" => true | _ => false end.

(** ASCII characters for which [str.isspace] holds. *)
Definition is_space (c : ascii) : bool :=
  in_range 9 13 c || in_range 28 32 c.

Fixpoint lstrip (s : string) : string :=
  match s with
  | String c r => if is_space c then lstrip r else s
  | "" => ""
  end.

(** [rstrip] keeps a character when it is not a blank or when something
    that is kept follows it. *)
Fixpoint rstrip (s : string) : string :=
  match s with
  | "" => ""
  | String c r =>
      let r' := rstrip r in
      if is_space c && is_empty r' then "" else String c r'
  end.

Definition strip (s : string) : string := rstrip (lstrip s).

(** [s.lstrip('0')] *)
Fixpoint lstrip_zeros (s : string) : string :=
  match s with
  | String c r => if Ascii.eqb c "0" then lstrip_zeros r else s
  | "" => ""
  end.

(** [s.split("\n")]: the pieces between line feeds, at least one piece. *)
Fixpoint split_nl (s : string) : list string :=
  match s with
  | "" => [""]
  | String c r =>
      if Ascii.eqb c (ascii_of_nat 10) then "" :: split_nl r
      else match split_nl r with
           | [] => [String c ""]
           | l :: ls => String c l :: ls
           end
  end.

End PyStr.

(** ** Decimal digits of a natural number: [str(n)] and [int(s)] *)

Module Digits.
Import PyStr.
Local Open Scope N_scope.

Definition digit_char (d : N) : ascii := ascii_of_N (48 + d).
Definition digit_val (c : ascii) : N := N_of_ascii c - 48.

(** [str(n)]: most significant digit first, no leading zero.  The fuel
    is the binary logarithm of [n], an upper bound on the number of
    decimal digits after the first. *)
Fixpoint str_N_fuel (fuel : nat) (n : N) : string :=
  match fuel with
  | O => String (digit_char n) ""
  | S f =>
      if n <? 10 then String (digit_char n) ""
      else (str_N_fuel f (n / 10) ++ String (digit_char (n mod 10)) "")%string
  end.

Definition str_N (n : N) : string := str_N_fuel (N.to_nat (N.log2 n)) n.

(** [int(s)] for a string of digits (0 for the empty string). *)
Fixpoint int_acc (acc : N) (s : string) : N :=
  match s with
  | "" => acc
  | String c r => int_acc (acc * 10 + digit_val c) r
  end.

Definition int_of (s : string) : N := int_acc 0 s.

(** [len(str(n))] *)
Definition ndigits (n : N) : nat := String.length (str_N n).

(** Leading run of digits and the rest. *)
Fixpoint span_digits (s : string) : string * string :=
  match s with
  | String c r =>
      if is_digit c then
        let '(d, t) := span_digits r in (String c d, t)
      else ("", s)
  | "" => ("", "")
  end.

Definition all_digits (s : string) : bool := forallb_chars is_digit s.

End Digits.

(** ** The part of Python's [decimal] module the code uses

    [Decimal] values as the triple (sign, coefficient, exponent) of the
    library, the special values, construction from text, [quantize] with
    [ROUND_HALF_UP] in the default context (precision 28, Emax 999999,
    Emin -999999, InvalidOperation trapped) and [format(d, 'f')]. *)

Inductive Decimal : Type :=
| Finite (sign : bool) (coeff : N) (exp : Z)
| Infinite (sign : bool)
| NaN (sign : bool) (signaling : bool) (payload : string).

Module PyDecimal.
Import PyStr Digits.
Local Open Scope Z_scope.

Definition prec : Z := 28.
Definition Emax : Z := 999999.
Definition Emin : Z := -999999.
Definition Etiny : Z := Emin - prec + 1.

(** *** [Decimal(text)] *)

Definition is_e (c : ascii) : bool := Ascii.eqb c "e" || Ascii.eqb c "E".

(** The numeric alternative of the library's pattern: digits, an
    optional fraction, an optional exponent, at least one digit before
    the exponent. *)
Definition parse_number (body : string) : option (N * Z) :=
  let '(ip, r1) := span_digits body in
  let '(fp, r2) :=
    match r1 with
    | String "." r => span_digits r
    | _ => ("", r1)
    end in
  if is_empty ip && is_empty fp then None
  else
    let coeff := int_of (ip ++ fp) in
    let shift := Z.of_nat (String.length fp) in
    match r2 with
    | "" => Some (coeff, - shift)
    | String c r3 =>
        if is_e c then
          let '(neg, r4) :=
            match r3 with
            | String "-" r => (true, r)
            | String "+" r => (false, r)
            | _ => (false, r3)
            end in
          let '(ed, r5) := span_digits r4 in
          if is_empty ed || negb (is_empty r5) then None
          else
            let e := Z.of_N (int_of ed) in
            Some (coeff, (if neg then - e else e) - shift)
        else None
    end.

(** The special alternatives: [Inf], [Infinity], [NaN<digits>] and
    [sNaN<digits>], in any letter case. *)
Definition parse_special (sign : bool) (body : string) : option Decimal :=
  let l := lower body in
  if String.eqb l "inf" || String.eqb l "infinity" then Some (Infinite sign)
  else
    let '(signaling, r) :=
      match l with
      | String "s" r => (true, r)
      | _ => (false, l)
      end in
    if String.prefix "nan" r then
      let diag := drop 3 r in
      if all_digits diag
      then Some (NaN sign signaling (lstrip_zeros (str_N (int_of diag))))
      else None
    else None.

(** [self.adjusted()] of a finite value *)
Definition adjusted (coeff : N) (exp : Z) : Z :=
  exp + Z.of_nat (ndigits coeff) - 1.

(** The constructor takes a literal exactly or not at all.  The decimal
    module the interpreter loads (the C implementation, on a 64-bit
    build) holds a finite value whose adjusted exponent is at most
    [decimal.MAX_EMAX] and whose exponent is at least
    [decimal.MIN_ETINY]; a literal outside these limits is refused with
    InvalidOperation. *)
Definition MAX_EMAX : Z := 999999999999999999.
Definition MIN_ETINY : Z := -1999999999999999997.

Definition representable (coeff : N) (exp : Z) : bool :=
  (adjusted coeff exp <=? MAX_EMAX) && (MIN_ETINY <=? exp).

Definition of_string (text : string) : result Decimal :=
  let s := filter_chars (fun c => negb (Ascii.eqb c "_")) (strip text) in
  let '(sign, body) :=
    match s with
    | String "-" r => (true, r)
    | String "+" r => (false, r)
    | _ => (false, s)
    end in
  match parse_number body with
  | Some (c, e) =>
      if representable c e then Ok (Finite sign c e) else Err InvalidOperation
  | None =>
      match parse_special sign body with
      | Some d => Ok d
      | None => Err InvalidOperation
      end
  end.

(** *** [quantize] *)

(** [_round_half_up]: the first of the [k] digits that are dropped is 5
    or more. *)
Definition _round_half_up (coeff : N) (k : N) : bool :=
  (5 <=? (coeff / 10 ^ (k - 1)) mod 10)%N.

(** [_rescale(exp, ROUND_HALF_UP)] on the coefficient of a non-zero
    finite value. *)
Definition _rescale (coeff : N) (exp target : Z) : N :=
  if target <=? exp then (coeff * 10 ^ Z.to_N (exp - target))%N
  else
    let k := Z.to_N (target - exp) in
    let q := (coeff / 10 ^ k)%N in
    if _round_half_up coeff k then (q + 1)%N else q.

(** [_fix_nan]: a payload longer than the precision keeps its last
    [prec] digits. *)
Definition _fix_nan (d : Decimal) : Decimal :=
  match d with
  | NaN s sig pl =>
      let n := String.length pl in
      if (Z.to_nat prec <? n)%nat
      then NaN s sig (lstrip_zeros (drop (n - Z.to_nat prec) pl))
      else d
  | _ => d
  end.

(** [self.quantize(exp, rounding=ROUND_HALF_UP)] *)
Definition quantize (self exp : Decimal) : result Decimal :=
  match self, exp with
  | NaN _ true _, _ => Err InvalidOperation
  | _, NaN _ true _ => Err InvalidOperation
  | NaN _ false _, _ => Ok (_fix_nan self)
  | _, NaN _ false _ => Ok (_fix_nan exp)
  | Infinite _, Infinite _ => Ok self
  | Infinite _, Finite _ _ _ => Err InvalidOperation
  | Finite _ _ _, Infinite _ => Err InvalidOperation
  | Finite s c e, Finite _ _ te =>
      if negb ((Etiny <=? te) && (te <=? Emax)) then Err InvalidOperation
      else if (c =? 0)%N then Ok (Finite s 0 te)
      else
        let adj := adjusted c e in
        if Emax <? adj then Err InvalidOperation
        else if prec <? adj - te + 1 then Err InvalidOperation
        else
          let c' := _rescale c e te in
          if Emax <? adjusted c' te then Err InvalidOperation
          else if prec <? Z.of_nat (ndigits c') then Err InvalidOperation
          else Ok (Finite s c' te)
  end.

(** *** [format(d, 'f')] *)

Definition sign_str (sign : bool) : string := if sign then "-" else "".

Definition format_f (d : Decimal) : string :=
  match d with
  | Infinite s => sign_str s ++ "Infinity"
  | NaN s sig pl => sign_str s ++ (if sig then "sNaN" else "NaN") ++ pl
  | Finite s c e =>
      let e := if (c =? 0)%N && (0 <? e) then 0 else e in
      let ds := str_N c in
      let n := Z.of_nat (String.length ds) in
      let dotplace := e + n in
      let '(intpart, fracpart) :=
        if dotplace <? 0 then ("0", zeros (Z.to_nat (- dotplace)) ++ ds)
        else if n <? dotplace then (ds ++ zeros (Z.to_nat (dotplace - n)), "")
        else
          let i := take (Z.to_nat dotplace) ds in
          (if is_empty i then "0" else i, drop (Z.to_nat dotplace) ds) in
      sign_str s ++ intpart
        ++ (if is_empty fracpart then "" else "." ++ fracpart)
  end.

(** [Decimal('0.01')] *)
Definition cent : Decimal := Finite false 1 (-2).

End PyDecimal.

(** ** The amount formatter *)

(** [swift_messages.format_amount]: the currency is accepted and not
    used. *)
Definition format_amount (amount : Decimal) (currency : string) : result string :=
  rbind (PyDecimal.quantize amount PyDecimal.cent)
        (fun q => Ok (PyDecimal.format_f q)).

(** [swift_alliance_streamlit.format_decimal] *)
Definition format_decimal (value : Decimal) : result string :=
  rbind (PyDecimal.quantize value PyDecimal.cent)
        (fun q => Ok (PyDecimal.format_f q)).

(** ** Dates, the wall clock and the UUID source *)

Record date : Type := { year : nat; month : nat; day : nat }.

Record datetime : Type :=
  { on : date; hour : nat; minute : nat; second : nat; microsecond : nat }.

Module PyTime.
Import PyStr Digits.

(** Decimal rendering of [n], zero-filled on the left to [width]. *)
Definition zfill (width : nat) (n : nat) : string :=
  let s := str_N (N.of_nat n) in
  zeros (width - String.length s) ++ s.

(** [d.strftime("%y%m%d")] *)
Definition strftime_yymmdd (d : date) : string :=
  zfill 2 (year d mod 100) ++ zfill 2 (month d) ++ zfill 2 (day d).

(** [d.isoformat()] *)
Definition date_isoformat (d : date) : string :=
  zfill 4 (year d) ++ "-" ++ zfill 2 (month d) ++ "-" ++ zfill 2 (day d).

(** [t.strftime("%Y%m%d%H%M%S")] *)
Definition strftime_compact (t : datetime) : string :=
  zfill 4 (year (on t)) ++ zfill 2 (month (on t)) ++ zfill 2 (day (on t))
    ++ zfill 2 (hour t) ++ zfill 2 (minute t) ++ zfill 2 (second t).

(** [t.isoformat()]: the fraction is printed unless it is zero. *)
Definition datetime_isoformat (t : datetime) : string :=
  date_isoformat (on t) ++ "T" ++ zfill 2 (hour t) ++ ":" ++ zfill 2 (minute t)
    ++ ":" ++ zfill 2 (second t)
    ++ (if (microsecond t =? 0)%nat then "" else "." ++ zfill 6 (microsecond t)).

(** [t.replace(microsecond=0)] *)
Definition truncate_seconds (t : datetime) : datetime :=
  {| on := on t; hour := hour t; minute := minute t; second := second t;
     microsecond := 0 |}.

Definition is_leap (y : nat) : bool :=
  ((y mod 4 =? 0) && (negb (y mod 100 =? 0) || (y mod 400 =? 0)))%nat.

Definition days_in_month (y m : nat) : nat :=
  match m with
  | 2 => if is_leap y then 29 else 28
  | 4 | 6 | 9 | 11 => 30
  | _ => 31
  end.

(** [datetime.date.fromisoformat(s)] as it reads the format the
    docstring of [generate_mt103] names, [YYYY-MM-DD]; [None] stands for
    the [ValueError] the caller catches.  Interpreters from 3.11 on read
    the basic and the week formats of ISO 8601 as well, which is why the
    generators below take the parser as a parameter and this one is
    only an instance. *)
Definition fromisoformat_ymd (s : string) : option date :=
  let y := take 4 s in
  let m := take 2 (drop 5 s) in
  let d := drop 8 s in
  if (String.length s =? 10)%nat
     && all_digits y && all_digits m && all_digits d
     && String.eqb (take 1 (drop 4 s)) "-"
     && String.eqb (take 1 (drop 7 s)) "-"
  then
    let yn := N.to_nat (int_of y) in
    let mn := N.to_nat (int_of m) in
    let dn := N.to_nat (int_of d) in
    if ((1 <=? yn) && (1 <=? mn) && (mn <=? 12)
        && (1 <=? dn) && (dn <=? days_in_month yn mn))%nat
    then Some {| year := yn; month := mn; day := dn |}
    else None
  else None.

End PyTime.

(** The environment of a call: what successive readings of the clock
    return, how many readings were made, and the same for
    [str(uuid.uuid4())]. *)
Record World : Type :=
  { utc_at : nat -> datetime;      (* datetime.datetime.utcnow() *)
    today_at : nat -> date;        (* datetime.date.today() *)
    clock_reads : nat;
    uuid_at : nat -> string;       (* str(uuid.uuid4()) *)
    uuid_draws : nat }.

Definition M (A : Type) : Type := World -> result A * World.

Definition ret {A} (a : A) : M A := fun w => (Ok a, w).

Definition bind {A B} (c : M A) (k : A -> M B) : M B :=
  fun w =>
    match c w with
    | (Ok a, w') => k a w'
    | (Err e, w') => (Err e, w')
    end.

Definition lift {A} (r : result A) : M A := fun w => (r, w).

Declare Scope py_scope.
Delimit Scope py_scope with py.
Notation "x <- c ;; k" := (bind c (fun x => k))
  (at level 61, c at next level, right associativity) : py_scope.
Local Open Scope py_scope.

Definition tick (w : World) : World :=
  {| utc_at := utc_at w; today_at := today_at w;
     clock_reads := S (clock_reads w);
     uuid_at := uuid_at w; uuid_draws := uuid_draws w |}.

Definition draw (w : World) : World :=
  {| utc_at := utc_at w; today_at := today_at w;
     clock_reads := clock_reads w;
     uuid_at := uuid_at w; uuid_draws := S (uuid_draws w) |}.

Definition utcnow : M datetime :=
  fun w => (Ok (utc_at w (clock_reads w)), tick w).

Definition date_today : M date :=
  fun w => (Ok (today_at w (clock_reads w)), tick w).

Definition uuid4_str : M string :=
  fun w => (Ok (uuid_at w (uuid_draws w)), draw w).

Definition run {A} (c : M A) (w : World) : result A := fst (c w).

(** ** Payment records *)

(** The value under ['amount']: the GUI stores a [Decimal], and
    [Decimal(...)] in the generators also accepts text. *)
Inductive amount_value : Type :=
| AmountText (text : string)
| AmountDecimal (d : Decimal).

(** The payment dict.  [None] is an absent key (for ['beneficiary_bic']
    also the [None] that [payment_from_transaction] stores); every other
    value is a [str]. *)
Record Payment : Type :=
  { ordering_account : option string;
    ordering_name : option string;
    beneficiary_account : option string;
    beneficiary_name : option string;
    amount : option amount_value;
    currency : option string;
    value_date : option string;
    remittance_info : option string;
    beneficiary_bic : option string;
    reference : option string }.

(** [payment.get(key, default)] *)
Definition get_or (field : option string) (default : string) : string :=
  match field with Some s => s | None => default end.

(** Truth value of [payment.get(key)] *)
Definition truthy (field : option string) : bool :=
  match field with Some s => negb (PyStr.is_empty s) | None => false end.

(** [a or b] on optional strings *)
Definition or_else (field : option string) (default : string) : string :=
  if truthy field then get_or field "" else default.

(** [payment['amount']] *)
Definition amount_item (p : Payment) : result amount_value :=
  match amount p with Some v => Ok v | None => Err KeyError end.

(** [Decimal(v)] *)
Definition to_Decimal (v : amount_value) : result Decimal :=
  match v with
  | AmountText s => PyDecimal.of_string s
  | AmountDecimal d => Ok d
  end.

(** ** XML documents

    The element tree the generators build with [ET.Element] and
    [ET.SubElement]: tag, attributes, text, children in insertion order. *)

#[warnings="-register-all"]
Inductive Element : Type :=
| Node (tag : string) (attrib : list (string * string))
       (text : option string) (children : list Element).

Module Xml.

Definition text_of (e : Element) : option string :=
  match e with Node _ _ x _ => x end.

(** An element that only carries text: [ET.SubElement(parent, tag).text = text] *)
Definition leaf (tag text : string) : Element := Node tag [] (Some text) [].

(** All elements of the tree with the given tag, in document order
    ([root.iter(tag)]). *)
Fixpoint iter (tag : string) (e : Element) : list Element :=
  match e with
  | Node t _ _ cs =>
      app (if String.eqb t tag then [e] else [])
          (flat_map (iter tag) cs)
  end.

(** The texts of the elements with the given tag. *)
Definition texts (tag : string) (e : Element) : list (option string) :=
  map text_of (iter tag e).

(** The different values among a list of texts, in order of first
    occurrence. *)
Definition opt_eqb (a b : option string) : bool :=
  match a, b with
  | Some x, Some y => String.eqb x y
  | None, None => true
  | _, _ => false
  end.

Fixpoint distinct (l : list (option string)) : list (option string) :=
  match l with
  | [] => []
  | x :: r => x :: filter (fun y => negb (opt_eqb x y)) (distinct r)
  end.

End Xml.

(** ** Sender data and tag maps *)

(** The [sender_info] dict; [None] is an absent key. *)
Record SenderInfo : Type :=
  { bic : option string;
    bank_name : option string;
    bank_address : option string;
    account_name : option string;
    account_iban : option string }.

(** [f"{d.get(key)}"]: an absent key prints as [None]. *)
Definition fstr (field : option string) : string :=
  match field with Some s => s | None => "None" end.

(** A [dict] from tags to values, in insertion order. *)
Definition pydict : Type := list (string * string).

Module Dict.

Fixpoint get (k : string) (d : pydict) : option string :=
  match d with
  | [] => None
  | (k', v) :: r => if String.eqb k' k then Some v else get k r
  end.

Definition keys (d : pydict) : list string := map fst d.

(** [d[k] = v]: an existing key keeps its place, a new key goes last. *)
Fixpoint set (k v : string) (d : pydict) : pydict :=
  match d with
  | [] => [(k, v)]
  | (k', v') :: r =>
      if String.eqb k' k then (k, v) :: r else (k', v') :: set k v r
  end.

(** [d.update(other)] *)
Definition update (d other : pydict) : pydict :=
  fold_left (fun acc kv => set (fst kv) (snd kv) acc) other d.

(** [d or default] *)
Definition or_default (d default : pydict) : pydict :=
  match d with [] => default | _ => d end.

End Dict.

(** ** The form of the Streamlit page

    The values the compose handler reads: the widgets, the tag lines
    parsed into [mt_fields], and the start time kept in the session. *)

Module Ui.

Record Form : Type :=
  { msg_type : string;
    ordering_name : string;
    ordering_account : string;
    beneficiary_name : string;
    beneficiary_account : string;
    amount_text : string;
    currency : string;
    remittance : string;
    reference : string;
    mt_fields : pydict;
    sender_bic : string;
    sender_bank : string;
    sender_addr : string;
    sender_acct_name : string;
    sender_iban : string;
    selected_account : string;
    message_start_ts : option string }.

(** [line.split(":", 1)]: the text before the first colon and the text
    after it; no second part without a colon. *)
Fixpoint split_colon (s : string) : string * option string :=
  match s with
  | "" => ("", None)
  | String c r =>
      if Ascii.eqb c ":" then ("", Some r)
      else let '(a, b) := split_colon r in (String c a, b)
  end.

(** [":" in s] *)
Fixpoint has_colon (s : string) : bool :=
  match s with
  | "" => false
  | String c r => Ascii.eqb c ":" || has_colon r
  end.

(** The loop of the page that fills [mt_fields] from the lines of the
    text area ([mt_fields_raw.splitlines()]). *)
Definition parse_mt_fields (lines : list string) : pydict :=
  fold_left
    (fun acc raw =>
       let line := PyStr.strip raw in
       if PyStr.is_empty line then acc
       else if String.prefix ":" line && has_colon (PyStr.drop 1 line) then
         match split_colon line with
         | (tag, Some val) => Dict.set (tag ++ ":") (PyStr.strip val) acc
         | (_, None) => acc
         end
       else acc)
    lines [].

End Ui.

(** ** The generators

    [ET.tostring], [minidom.parseString] and [toprettyxml] belong to the
    interpreter's library; the generators hand them the tree, and what
    they return is a parameter here: a text, or the exception of the
    parser. *)

Section Generators.
Import PyStr PyTime Xml.

Variable toprettyxml :
  forall (indent : string) (encoding : option string), Element -> result string.

(** [datetime.date.fromisoformat]; [None] is the exception the caller
    catches. *)
Variable fromisoformat : string -> option date.

Definition NS : string := "urn:iso:std:iso:20022:tech:xsd:pain.001.001.03".

(** *** swift_messages.generate_mt103 *)

(** The lines [generate_mt103] collects before joining them. *)
Definition mt103_lines (payment : Payment) : M (list string) :=
  amount <- lift (rbind (amount_item payment) to_Decimal) ;;
  let currency := get_or (currency payment) "USD" in
  today <- date_today ;;
  let value_date := get_or (value_date payment) (date_isoformat today) in
  u <- uuid4_str ;;
  let ref := get_or (reference payment) (take 12 (upper u)) in
  let remittance := get_or (remittance_info payment) "" in
  vd <- match fromisoformat value_date with
        | Some d => ret (strftime_yymmdd d)
        | None => t <- date_today ;; ret (strftime_yymmdd t)
        end ;;
  amt <- lift (format_amount amount currency) ;;
  ret (app
         [ "{1:F01SWIFTSIMULATORXXXX0000000000}";
           "{2:O1031200SWIFTSIMULATORXXXX0000000000}";
           "{4:";
           ":20:" ++ ref;
           ":23B:CRED";
           ":32A:" ++ vd ++ currency ++ amt;
           ":50K:" ++ get_or (ordering_name payment) "" ++ " /"
                   ++ get_or (ordering_account payment) "";
           ":59:" ++ get_or (beneficiary_name payment) "" ++ " /"
                  ++ get_or (beneficiary_account payment) "" ]
         (app
            (if is_empty remittance then []
             else [ ":70:" ++ replace_char (ascii_of_nat 10) " " remittance ])
            [ ":71A:SHA"; "-}" ])).

Definition generate_mt103 (payment : Payment) : M string :=
  lines <- mt103_lines payment ;;
  ret (join nl lines).

(** *** swift_messages.generate_pain001 *)

Definition amount_text_of (payment : Payment) : result string :=
  rbind (rbind (amount_item payment) to_Decimal)
        (fun d => format_amount d (get_or (currency payment) "USD")).

Definition optional_block (present : bool) (e : Element) : list Element :=
  if present then [e] else [].

(** The tree at the point where it is serialized. *)
Definition pain001_tree (payment : Payment) : M Element :=
  u1 <- uuid4_str ;;
  let msg_id := get_or (reference payment) u1 in
  now1 <- utcnow ;;
  let cre_dt_tm := datetime_isoformat (truncate_seconds now1) ++ "Z" in
  ctrl_sum_hdr <- lift (amount_text_of payment) ;;
  now2 <- utcnow ;;
  let pmt_inf_id := "PMT-" ++ strftime_compact now2 in
  ctrl_sum_pmt <- lift (amount_text_of payment) ;;
  u2 <- uuid4_str ;;
  let end_to_end_id := get_or (reference payment) u2 in
  instd_amt <- lift (amount_text_of payment) ;;
  ret (Node "CstmrCdtTrfInitn" [("xmlns", NS)] None
        [ Node "GrpHdr" [] None
            [ leaf "MsgId" msg_id;
              leaf "CreDtTm" cre_dt_tm;
              leaf "NbOfTxs" "1";
              leaf "CtrlSum" ctrl_sum_hdr ];
          Node "PmtInf" [] None
            [ leaf "PmtInfId" pmt_inf_id;
              leaf "PmtMtd" "TRF";
              leaf "NbOfTxs" "1";
              leaf "CtrlSum" ctrl_sum_pmt;
              Node "CdtTrfTxInf" [] None
                (app
                   [ Node "PmtId" [] None [ leaf "EndToEndId" end_to_end_id ];
                     Node "Amt" [] None
                       [ Node "InstdAmt"
                           [("Ccy", get_or (currency payment) "USD")]
                           (Some instd_amt) [] ] ]
                (app
                   (optional_block (truthy (beneficiary_bic payment))
                      (Node "CdtrAgt" [] None
                         [ Node "FinInstnId" [] None
                             [ leaf "BIC" (get_or (beneficiary_bic payment) "") ] ]))
                (app
                   [ Node "Cdtr" [] None
                       [ leaf "Nm" (get_or (beneficiary_name payment) "") ];
                     Node "CdtrAcct" [] None
                       [ Node "Id" [] None
                           [ leaf "IBAN" (get_or (beneficiary_account payment) "") ] ];
                     Node "Dbtr" [] None
                       [ leaf "Nm" (get_or (ordering_name payment) "") ];
                     Node "DbtrAcct" [] None
                       [ Node "Id" [] None
                           [ leaf "IBAN" (get_or (ordering_account payment) "") ] ] ]
                   (optional_block (truthy (remittance_info payment))
                      (Node "RmtInf" [] None
                         [ leaf "Ustrd" (get_or (remittance_info payment) "") ]))))) ] ]).

Definition generate_pain001 (payment : Payment) : M string :=
  tree <- pain001_tree payment ;;
  lift (toprettyxml "  " (Some "utf-8") tree).

(** *** swift_messages.payment_from_transaction *)

(** The optional arguments default to [None]; [a or b] evaluates [b]
    only when [a] is [None] or empty. *)
Definition payment_from_transaction
    (account_number account_name beneficiary_account beneficiary_name : string)
    (amount : Decimal) (currency : string)
    (value_date remittance_info beneficiary_bic reference : option string)
    : M Payment :=
  vd <- (if truthy value_date then ret (get_or value_date "")
         else today <- date_today ;; ret (date_isoformat today)) ;;
  ref <- (if truthy reference then ret (get_or reference "")
          else u <- uuid4_str ;; ret (take 12 (upper u))) ;;
  ret {| ordering_account := Some account_number;
         ordering_name := Some account_name;
         beneficiary_account := Some beneficiary_account;
         beneficiary_name := Some beneficiary_name;
         amount := Some (AmountDecimal amount);
         currency := Some currency;
         value_date := Some vd;
         remittance_info := Some (or_else remittance_info "");
         beneficiary_bic := beneficiary_bic;
         reference := Some ref |}.

(** *** swift_alliance_streamlit.generate_pain001_xml *)

(** [format_decimal(payment['amount'])]: no conversion, the value has
    to be a [Decimal] already. *)
Definition amount_text_xml (payment : Payment) : result string :=
  rbind (amount_item payment)
        (fun v => match v with
                  | AmountDecimal d => format_decimal d
                  | AmountText _ => Err AttributeError
                  end).

Definition pain001_xml_tree (payment : Payment) : M Element :=
  u1 <- uuid4_str ;;
  let msg_id := get_or (reference payment) u1 in
  now1 <- utcnow ;;
  let cre_dt_tm := datetime_isoformat (truncate_seconds now1) ++ "Z" in
  ctrl_sum_hdr <- lift (amount_text_xml payment) ;;
  now2 <- utcnow ;;
  let pmt_inf_id := "PMT-" ++ strftime_compact now2 in
  ctrl_sum_pmt <- lift (amount_text_xml payment) ;;
  u2 <- uuid4_str ;;
  let end_to_end_id := get_or (reference payment) u2 in
  instd_amt <- lift (amount_text_xml payment) ;;
  ret (Node "CstmrCdtTrfInitn" [("xmlns", NS)] None
        [ Node "GrpHdr" [] None
            [ leaf "MsgId" msg_id;
              leaf "CreDtTm" cre_dt_tm;
              leaf "NbOfTxs" "1";
              leaf "CtrlSum" ctrl_sum_hdr ];
          Node "PmtInf" [] None
            [ leaf "PmtInfId" pmt_inf_id;
              leaf "PmtMtd" "TRF";
              leaf "NbOfTxs" "1";
              leaf "CtrlSum" ctrl_sum_pmt;
              Node "CdtTrfTxInf" [] None
                (app
                   [ Node "PmtId" [] None [ leaf "EndToEndId" end_to_end_id ];
                     Node "Amt" [] None
                       [ Node "InstdAmt"
                           [("Ccy", get_or (currency payment) "USD")]
                           (Some instd_amt) [] ];
                     Node "Cdtr" [] None
                       [ leaf "Nm" (get_or (beneficiary_name payment) "") ];
                     Node "CdtrAcct" [] None
                       [ Node "Id" [] None
                           [ leaf "IBAN" (get_or (beneficiary_account payment) "") ] ];
                     Node "Dbtr" [] None
                       [ leaf "Nm" (get_or (ordering_name payment) "") ];
                     Node "DbtrAcct" [] None
                       [ Node "Id" [] None
                           [ leaf "IBAN" (get_or (ordering_account payment) "") ] ] ]
                   (optional_block (truthy (remittance_info payment))
                      (Node "RmtInf" [] None
                         [ leaf "Ustrd" (get_or (remittance_info payment) "") ]))) ] ]).

Definition generate_pain001_xml (payment : Payment) : M string :=
  tree <- pain001_xml_tree payment ;;
  lift (toprettyxml "  " None tree).

(** *** swift_alliance_streamlit.build_mt_message *)

Definition MT_TEMPLATES : list (string * list string) :=
  [ ("MT103", [":20:"; ":32A:"; ":50K:"; ":59:"; ":71A:"]);
    ("MT199", [":20:"; ":21:"; ":79:"]);
    ("MT700", [":20:"; ":40A:"; ":31D:"; ":50:"; ":59:"; ":44A:"; ":77B:"]);
    ("MT760", [":20:"; ":21:"; ":32B:"; ":50:"; ":59:"; ":77U:"]);
    ("MT799", [":20:"; ":21:"; ":79:"]) ].

(** One line per entry of [fields]: key and value, nothing between. *)
Definition tag_lines (fields : pydict) : list string :=
  map (fun kv => fst kv ++ snd kv) fields.

Definition sender_trailer (sender_info : SenderInfo) : list string :=
  [ ":86:Sender Details";
    " /BANK/" ++ fstr (bank_name sender_info);
    " /ADDR/" ++ fstr (bank_address sender_info);
    " /ACCTNAME/" ++ fstr (account_name sender_info);
    " /ACCTIBAN/" ++ fstr (account_iban sender_info);
    "-}" ].

Definition mt_message_lines (msg_type : string) (fields : pydict)
    (sender_info : SenderInfo) (reference : option string) : M (list string) :=
  ref <- (if truthy reference then ret (get_or reference "")
          else now <- utcnow ;; ret (take 3 msg_type ++ strftime_compact now)) ;;
  let sender_bic := get_or (bic sender_info) "UNKNOWN" in
  ret (app
         [ "{1:F01" ++ sender_bic ++ "XXXX0000000000}";
           "{2:O" ++ msg_type ++ "1200" ++ sender_bic ++ "XXXX0000000000}";
           "{4:";
           ":20:" ++ ref ]
         (app (tag_lines fields) (sender_trailer sender_info))).

Definition build_mt_message (msg_type : string) (fields : pydict)
    (sender_info : SenderInfo) (reference : option string) : M string :=
  lines <- mt_message_lines msg_type fields sender_info reference ;;
  ret (join nl lines).

(** *** swift_alliance_streamlit.build_formal_output *)

Definition build_formal_output (message_type message_body : string)
    (sender_info : SenderInfo) (start_ts end_ts account_number : string) : M string :=
  now <- utcnow ;;
  let header_lines :=
    [ "INSTANT TYPE AND TRANSMISSION: INSTANT";
      "";
      "MESSAGE HEADER";
      "Message Type: " ++ message_type;
      "Reference: " ++ strftime_compact now;
      "Sender BIC: " ++ get_or (bic sender_info) "";
      "Sender Bank: " ++ get_or (bank_name sender_info) "";
      "Sender Address: " ++ get_or (bank_address sender_info) "";
      "Account Name: " ++ get_or (account_name sender_info) "";
      "Account IBAN: " ++ get_or (account_iban sender_info) "";
      "Selected Account (from system): " ++ account_number;
      "";
      "MESSAGE TEXT";
      message_body;
      "";
      "MESSAGE HAS BEEN TRANSMITTED SUCCESSFULLY";
      "CONFIRMED & RECEIVED";
      "";
      "Start Time: " ++ start_ts;
      "End Time:   " ++ end_ts ] in
  ret (join nl header_lines).

(** *** streamlit_client.build_formal_text *)

Definition build_formal_text (message_type message_body : string)
    (sender_info : SenderInfo) (start_ts end_ts account_number : string) : M string :=
  now <- utcnow ;;
  let parts :=
    [ "INSTANT TYPE AND TRANSMISSION: INSTANT";
      "";
      "MESSAGE HEADER";
      "Message Type: " ++ message_type;
      "Reference: " ++ strftime_compact now;
      "Sender BIC: " ++ get_or (bic sender_info) "";
      "Sender Bank: " ++ get_or (bank_name sender_info) "";
      "Sender Address: " ++ get_or (bank_address sender_info) "";
      "Account Name: " ++ get_or (account_name sender_info) "";
      "Account IBAN: " ++ get_or (account_iban sender_info) "";
      "Selected Account: " ++ account_number;
      "";
      "MESSAGE TEXT";
      message_body;
      "";
      "MESSAGE HAS BEEN TRANSMITTED SUCCESSFULLY";
      "CONFIRMED & RECEIVED";
      "";
      "Start Time: " ++ start_ts;
      "End Time:   " ++ end_ts ] in
  ret (join nl parts).

(** *** The compose handler of swift_alliance_streamlit.py *)

Definition compose_sender_info (ui : Ui.Form) : SenderInfo :=
  {| bic := Some (Ui.sender_bic ui);
     bank_name := Some (Ui.sender_bank ui);
     bank_address := Some (Ui.sender_addr ui);
     account_name := Some (Ui.sender_acct_name ui);
     account_iban := Some (Ui.sender_iban ui) |}.

(** [try: ... except Exception: st.error(...); st.stop()] *)
Definition or_stop {A} (c : M A) : M A :=
  fun w =>
    match c w with
    | (Ok a, w') => (Ok a, w')
    | (Err _, w') => (Err StopExecution, w')
    end.

(** [msg_type.replace("MT", "")] *)
Fixpoint remove_MT (s : string) : string :=
  match s with
  | String "M" (String "T" r) => remove_MT r
  | String c r => String c (remove_MT r)
  | "" => ""
  end.

(** From the parse of the amount to the value of [message_body]. *)
Definition compose_message_body (ui : Ui.Form) : M string :=
  amount <- or_stop (lift (PyDecimal.of_string (strip (Ui.amount_text ui)))) ;;
  let sender_info := compose_sender_info ui in
  let msg_type := Ui.msg_type ui in
  if String.eqb msg_type "MT103" then
    today <- date_today ;;
    amt <- lift (format_decimal amount) ;;
    let fields_map :=
      Dict.update
        [ (":32A:", strftime_yymmdd today ++ Ui.currency ui ++ amt);
          (":50K:", Ui.ordering_name ui ++ " /" ++ Ui.ordering_account ui);
          (":59:", Ui.beneficiary_name ui ++ " /" ++ Ui.beneficiary_account ui);
          (":70:", Ui.remittance ui) ]
        (Ui.mt_fields ui) in
    build_mt_message "103" fields_map sender_info (Some (Ui.reference ui))
  else if String.eqb msg_type "MT199" || String.eqb msg_type "MT799" then
    let fields_map :=
      Dict.or_default (Ui.mt_fields ui) [ (":79:", Ui.remittance ui) ] in
    build_mt_message (remove_MT msg_type) fields_map sender_info
      (Some (Ui.reference ui))
  else if String.eqb msg_type "MT700" then
    let fields_map :=
      Dict.or_default (Ui.mt_fields ui) [ (":77B:", Ui.remittance ui) ] in
    build_mt_message "700" fields_map sender_info (Some (Ui.reference ui))
  else if String.eqb msg_type "MT760" then
    let fields_map :=
      Dict.or_default (Ui.mt_fields ui) [ (":77U:", Ui.remittance ui) ] in
    build_mt_message "760" fields_map sender_info (Some (Ui.reference ui))
  else
    today <- date_today ;;
    let payment :=
      {| ordering_account := Some (Ui.ordering_account ui);
         ordering_name := Some (Ui.ordering_name ui);
         beneficiary_account := Some (Ui.beneficiary_account ui);
         beneficiary_name := Some (Ui.beneficiary_name ui);
         amount := Some (AmountDecimal amount);
         currency := Some (Ui.currency ui);
         value_date := Some (date_isoformat today);
         remittance_info := Some (Ui.remittance ui);
         beneficiary_bic := None;
         reference := Some (Ui.reference ui) |} in
    or_stop (generate_pain001_xml payment).

(** The whole handler: the text stored as [formal_text]. *)
Definition compose (ui : Ui.Form) : M string :=
  start_ts <- (if truthy (Ui.message_start_ts ui)
               then ret (get_or (Ui.message_start_ts ui) "")
               else now <- utcnow ;; ret (datetime_isoformat now)) ;;
  message_body <- compose_message_body ui ;;
  end_now <- utcnow ;;
  build_formal_output (Ui.msg_type ui) message_body (compose_sender_info ui)
    start_ts (datetime_isoformat end_now)
    (or_else (Some (Ui.selected_account ui)) "").

End Generators.

(** ** A serializer to run the generators with

    One instance of the serializer parameter: the layout [minidom] prints
    for a tree whose texts hold no control characters, with the four
    standard escapes.  The theorems below hold for every instance. *)

Module MiniDom.
Import PyStr.

Definition quote : string := String (ascii_of_nat 34) "".

Fixpoint escape (s : string) : string :=
  match s with
  | "" => ""
  | String c r =>
      (if Ascii.eqb c "&" then "&amp;"
       else if Ascii.eqb c "<" then "&lt;"
       else if Ascii.eqb c ">" then "&gt;"
       else if Ascii.eqb c (ascii_of_nat 34) then "&quot;"
       else String c "") ++ escape r
  end.

Definition write_attrs (attrib : list (string * string)) : string :=
  String.concat ""
    (map (fun kv => " " ++ fst kv ++ "=" ++ quote ++ escape (snd kv) ++ quote) attrib).

Fixpoint writexml (indent addindent : string) (e : Element) : string :=
  match e with
  | Node tag attrib text children =>
      let head := indent ++ "<" ++ tag ++ write_attrs attrib in
      match children with
      | [] =>
          if is_empty (get_or text "") then head ++ "/>" ++ nl
          else head ++ ">" ++ escape (get_or text "") ++ "</" ++ tag ++ ">" ++ nl
      | _ =>
          head ++ ">" ++ nl
            ++ String.concat "" (map (writexml (indent ++ addindent) addindent) children)
            ++ indent ++ "</" ++ tag ++ ">" ++ nl
      end
  end.

Definition toprettyxml (indent : string) (encoding : option string)
    (root : Element) : result string :=
  let declaration :=
    match encoding with
    | Some enc => "<?xml version=" ++ quote ++ "1.0" ++ quote
                    ++ " encoding=" ++ quote ++ enc ++ quote ++ "?>"
    | None => "<?xml version=" ++ quote ++ "1.0" ++ quote ++ " ?>"
    end in
  Ok (declaration ++ nl ++ writexml "" indent root).

End MiniDom.

(** ** Sample inputs *)

Module Sample.

Definition noon : datetime :=
  {| on := {| year := 2025; month := 3; day := 7 |};
     hour := 12; minute := 0; second := 5; microsecond := 250 |}.

(** A clock that stands still and a fixed UUID. *)
Definition world : World :=
  {| utc_at := fun _ => noon;
     today_at := fun _ => on noon;
     clock_reads := 0;
     uuid_at := fun _ => "3f2b8c1e-9a4d-4e7b-8c2a-1d5e6f7a8b9c";
     uuid_draws := 0 |}.

(** The same clock in a process that has read it before and draws other
    UUIDs. *)
Definition later_world : World :=
  {| utc_at := fun _ => noon;
     today_at := fun _ => on noon;
     clock_reads := 7;
     uuid_at := fun _ => "0a1b2c3d-0000-4000-8000-99887766aabb";
     uuid_draws := 3 |}.

(** The payment of the MT103 scenario of the specification. *)
Definition payment (amount_text remittance : string) : Payment :=
  {| ordering_account := Some "CH970020620625170160K";
     ordering_name := Some "ANDRO AG";
     beneficiary_account := Some "DE89370400440532013000";
     beneficiary_name := Some "ACME CORP";
     amount := Some (AmountText amount_text);
     currency := Some "USD";
     value_date := Some "2025-03-10";
     remittance_info := Some remittance;
     beneficiary_bic := None;
     reference := Some "REF001" |}.

(** The same payment with its amount held as a [Decimal]. *)
Definition decimal_payment (d : Decimal) (remittance : string) : Payment :=
  {| ordering_account := Some "CH970020620625170160K";
     ordering_name := Some "ANDRO AG";
     beneficiary_account := Some "DE89370400440532013000";
     beneficiary_name := Some "ACME CORP";
     amount := Some (AmountDecimal d);
     currency := Some "USD";
     value_date := Some "2025-03-10";
     remittance_info := Some remittance;
     beneficiary_bic := None;
     reference := Some "REF001" |}.

(** The same payment under another ordering name. *)
Definition named_payment (name amount_text remittance : string) : Payment :=
  {| ordering_account := Some "CH970020620625170160K";
     ordering_name := Some name;
     beneficiary_account := Some "DE89370400440532013000";
     beneficiary_name := Some "ACME CORP";
     amount := Some (AmountText amount_text);
     currency := Some "USD";
     value_date := Some "2025-03-10";
     remittance_info := Some remittance;
     beneficiary_bic := None;
     reference := Some "REF001" |}.

Definition sender : SenderInfo :=
  {| bic := Some "UBSWCHZH80A";
     bank_name := Some "UBS SWITZERLAND AG";
     bank_address := Some "PARADEPLATZ 6, 8098, ZURICH, SWITZERLAND";
     account_name := Some "ANDRO AG";
     account_iban := Some "CH970020620625170160K" |}.

(** The same scenario typed into the Streamlit form. *)
Definition form (msg_type : string) (mt_fields : pydict) (remittance : string) : Ui.Form :=
  {| Ui.msg_type := msg_type;
     Ui.ordering_name := "ANDRO AG";
     Ui.ordering_account := "CH970020620625170160K";
     Ui.beneficiary_name := "ACME CORP";
     Ui.beneficiary_account := "DE89370400440532013000";
     Ui.amount_text := "1500.5";
     Ui.currency := "USD";
     Ui.remittance := remittance;
     Ui.reference := "REF001";
     Ui.mt_fields := mt_fields;
     Ui.sender_bic := "UBSWCHZH80A";
     Ui.sender_bank := "UBS SWITZERLAND AG";
     Ui.sender_addr := "PARADEPLATZ 6, 8098, ZURICH, SWITZERLAND";
     Ui.sender_acct_name := "ANDRO AG";
     Ui.sender_iban := "CH970020620625170160K";
     Ui.selected_account := "-- none --";
     Ui.message_start_ts := Some "2025-03-07T11:59:58.000100" |}.

End Sample.

(** ** The amount text the specification describes *)

Module AmountSpec.
Import PyStr Digits PyDecimal.
Local Open Scope N_scope.

(** The magnitude [c * 10^e] in hundredths, rounded to the nearest
    integer, a tie going up. *)
Definition half_up_cents (c : N) (e : Z) : N :=
  if (-2 <=? e)%Z then c * 10 ^ Z.to_N (e + 2)
  else
    let k := Z.to_N (-2 - e) in
    (2 * c + 10 ^ k) / (2 * 10 ^ k).

(** The text of [q] hundredths: sign, integer part without padding, a
    point, two digits. *)
Definition render_cents (sign : bool) (q : N) : string :=
  (sign_str sign ++ str_N (q / 100) ++ "."
     ++ String (digit_char ((q / 10) mod 10)) (String (digit_char (q mod 10)) ""))%string.

(** Shape of an amount text: an optional minus, at least one digit, one
    point, exactly two digits, and nothing else (no blank, no grouping
    character, no exponent). *)
Definition plain_two_decimals (s : string) : bool :=
  let body :=
    match s with
    | String c r => if Ascii.eqb c "-" then r else s
    | "" => s
    end in
  let '(ip, rest) := span_digits body in
  negb (is_empty ip)
  && match rest with
     | String p (String a (String b "")) =>
         Ascii.eqb p "." && is_digit a && is_digit b
     | _ => false
     end.

(** Number of occurrences of a character. *)
Fixpoint count_char (c : ascii) (s : string) : nat :=
  match s with
  | "" => 0
  | String x r => (if Ascii.eqb x c then 1 else 0) + count_char c r
  end.

End AmountSpec.

(** ** The MT103 body the specification describes *)

Module MtSpec.
Import PyStr.

Definition LF : ascii := ascii_of_nat 10.

(** The default tags after [:20:], in order; [:70:] only for a
    remittance text that is not empty, its line feeds turned into
    blanks. *)
Definition mt103_default_tags
    (yymmdd ccy amount_text ordering_name ordering_account
     beneficiary_name beneficiary_account remittance : string) : list string :=
  app [ ":23B:CRED";
        ":32A:" ++ yymmdd ++ ccy ++ amount_text;
        ":50K:" ++ ordering_name ++ " /" ++ ordering_account;
        ":59:" ++ beneficiary_name ++ " /" ++ beneficiary_account ]
      (app (if is_empty remittance then []
            else [ ":70:" ++ replace_char LF " " remittance ])
           [ ":71A:SHA" ]).

(** A line that carries the given tag. *)
Definition has_tag (tag : string) (line : string) : bool := String.prefix tag line.

(** The text has no line feed in it. *)
Definition single_line (s : string) : bool :=
  forallb_chars (fun c => negb (Ascii.eqb c LF)) s.

(** [s.endswith(suffix)] *)
Definition endswith (suffix s : string) : bool :=
  String.eqb (drop (String.length s - String.length suffix) s) suffix
  && (String.length suffix <=? String.length s)%nat.

(** The free-text tag a message type gets when the caller supplies no
    tags. *)
Definition free_text_tags : pydict :=
  [ ("MT199", ":79:"); ("MT799", ":79:"); ("MT700", ":77B:"); ("MT760", ":77U:") ].

(** The tags the compose handler prepares for MT103 before the caller's
    tags are merged in. *)
Definition streamlit_mt103_defaults
    (yymmdd ccy amount_text ordering_name ordering_account
     beneficiary_name beneficiary_account remittance : string) : pydict :=
  [ (":32A:", yymmdd ++ ccy ++ amount_text);
    (":50K:", ordering_name ++ " /" ++ ordering_account);
    (":59:", beneficiary_name ++ " /" ++ beneficiary_account);
    (":70:", remittance) ].

(** A NaN carries digits as its payload (what every constructor of the
    library ensures). *)
Definition well_formed (d : Decimal) : bool :=
  match d with
  | NaN _ _ payload => Digits.all_digits payload
  | _ => true
  end.

(** The amount of the record, when it is given as a [Decimal], is well
    formed. *)
Definition amount_well_formed (payment : Payment) : bool :=
  match amount payment with
  | Some (AmountDecimal d) => well_formed d
  | _ => true
  end.

(** The one-line fields of the record hold no line feed. *)
Definition single_line_fields (payment : Payment) : bool :=
  single_line (get_or (currency payment) "USD")
  && single_line (get_or (ordering_name payment) "")
  && single_line (get_or (ordering_account payment) "")
  && single_line (get_or (beneficiary_name payment) "")
  && single_line (get_or (beneficiary_account payment) "").

End MtSpec.

(** ** The formal output the specification describes *)

Module FormalSpec.






End FormalSpec.

(** ** Injected timestamps *)

Module ClockSpec.

(** Two environments whose clocks give the same readings from now on;
    the UUIDs they draw and the number of earlier readings are free. *)
Definition same_clock (w1 w2 : World) : Prop :=
  forall i : nat,
    utc_at w1 (i + clock_reads w1) = utc_at w2 (i + clock_reads w2)
    /\ today_at w1 (i + clock_reads w1) = today_at w2 (i + clock_reads w2).

(** A clock that stands still. *)
Definition frozen (w : World) : Prop :=
  forall i j : nat, utc_at w i = utc_at w j /\ today_at w i = today_at w j.

End ClockSpec.

(** ** What a call reads from its environment *)

Module Readings.
Import PyStr PyTime.

(** The date on the [:32A:] line of [generate_mt103]: the value date
    when it reads as one, the second reading of the clock otherwise. *)
Definition mt103_date (fromisoformat : string -> option date)
    (payment : Payment) (w : World) : date :=
  let today := today_at w (clock_reads w) in
  match fromisoformat (get_or (value_date payment) (date_isoformat today)) with
  | Some d => d
  | None => today_at w (S (clock_reads w))
  end.

(** The reference on the [:20:] line of [generate_mt103]. *)
Definition mt103_ref (payment : Payment) (w : World) : string :=
  get_or (reference payment) (take 12 (upper (uuid_at w (uuid_draws w)))).

(** The reference on the [:20:] line of [build_mt_message]. *)
Definition mt_ref (msg_type : string) (reference : option string) (w : World) : string :=
  if truthy reference then get_or reference ""
  else take 3 msg_type ++ strftime_compact (utc_at w (clock_reads w)).

(** A computation that only moves the counters of the environment. *)
Definition keeps_clock {A} (c : M A) : Prop :=
  forall w : World,
    utc_at (snd (c w)) = utc_at w /\ today_at (snd (c w)) = today_at w.

End Readings.

(** * The code around the message builders

    The rest of the repository that can be read as functions: the text
    the PDF export draws, the extension given to a downloaded logo, the
    request address of the client, the user store behind the login form,
    the configuration files, and the desktop form that feeds
    [payment_from_transaction]. *)

(** ** More of [str] *)

Module PyText.
Import PyStr.

(** [sub in s] *)
Fixpoint contains (sub s : string) : bool :=
  String.prefix sub s
  || match s with
     | "" => false
     | String _ r => contains sub r
     end.

(** [s.endswith(suffix)] *)
Definition endswith (suffix s : string) : bool :=
  (String.length suffix <=? String.length s)%nat
  && String.eqb (drop (String.length s - String.length suffix) s) suffix.



(** The ASCII characters at which [str.splitlines] breaks a line. *)
Definition is_linebreak (c : ascii) : bool :=
  in_range 10 13 c || in_range 28 30 c.

(** [s.splitlines()]: a carriage return and the line feed after it are
    one break; a break at the very end opens no further line. *)
Fixpoint splitlines (s : string) : list string :=
  match s with
  | "" => []
  | String c r =>
      if is_linebreak c then
        "" :: match r with
              | String c' r' =>
                  if Ascii.eqb c (ascii_of_nat 13) && Ascii.eqb c' (ascii_of_nat 10)
                  then splitlines r'
                  else splitlines r
              | "" => []
              end
      else
        match splitlines r with
        | [] => [String c ""]
        | l :: ls => String c l :: ls
        end
  end.

End PyText.

(** ** The characters of an amount text *)

Module AmountText.
Import PyStr.

(** A digit, the minus sign or the point. *)
Definition amount_char (c : ascii) : bool :=
  is_digit c || Ascii.eqb c "-" || Ascii.eqb c ".".

End AmountText.

(** ** The text on the PDF

    With reportlab installed, [generate_pdf_bytes] draws the title and
    then the lines of the formal text.  What is kept here is the
    sequence of strings handed to [drawString], in the order of the
    calls; where on the page they go, the page breaks and the logo are
    left out. *)

Module Pdf.
Import PyStr PyText.

(** The loop of swift_alliance_streamlit.py over one line: pieces of
    [max_chars] characters are drawn while more than [max_chars] are
    left, then the rest.  The fuel is the length of the line. *)
Fixpoint wrap (fuel max_chars : nat) (line : string) : list string :=
  match fuel with
  | O => [line]
  | S f =>
      if (max_chars <? String.length line)%nat
      then take max_chars line :: wrap f max_chars (drop max_chars line)
      else [line]
  end.

Definition max_chars : nat := 95.

Definition line_pieces (line : string) : list string :=
  wrap (String.length line) max_chars line.

(** swift_alliance_streamlit.generate_pdf_bytes *)
Definition drawn_strings (formal_text : string) : list string :=
  "SWIFT ALLIANCE - MESSAGE OUTPUT"
    :: flat_map line_pieces (splitlines formal_text).

(** streamlit_client.generate_pdf_bytes: [line[:120]] *)
Definition client_drawn_strings (formal_text : string) : list string :=
  "SWIFT ALLIANCE - MESSAGE OUTPUT"
    :: map (take 120) (splitlines formal_text).

End Pdf.

(** ** The tag lines of the page, from the text area *)

Module TagLines.
Import PyStr PyText.

(** [mt_fields] as the page computes it from [mt_fields_raw]. *)
Definition mt_fields_of (mt_fields_raw : string) : pydict :=
  Ui.parse_mt_fields (splitlines mt_fields_raw).

(** A line the loop stores: not blank, a colon first and another colon
    later. *)
Definition accepted (raw : string) : bool :=
  let line := strip raw in
  negb (is_empty line) && String.prefix ":" line && Ui.has_colon (drop 1 line).

(** What the loop stores for an accepted line: the text after the first
    colon, without the blanks around it. *)
Definition stored (raw : string) : string := strip (drop 1 (strip raw)).

(** Two forms that differ at most in the fields of the payment: the
    ordering and the beneficiary party, the amount and the currency. *)
Definition same_but_payment (ui1 ui2 : Ui.Form) : Prop :=
  Ui.msg_type ui1 = Ui.msg_type ui2
  /\ Ui.remittance ui1 = Ui.remittance ui2
  /\ Ui.reference ui1 = Ui.reference ui2
  /\ Ui.mt_fields ui1 = Ui.mt_fields ui2
  /\ Ui.sender_bic ui1 = Ui.sender_bic ui2
  /\ Ui.sender_bank ui1 = Ui.sender_bank ui2
  /\ Ui.sender_addr ui1 = Ui.sender_addr ui2
  /\ Ui.sender_acct_name ui1 = Ui.sender_acct_name ui2
  /\ Ui.sender_iban ui1 = Ui.sender_iban ui2
  /\ Ui.selected_account ui1 = Ui.selected_account ui2
  /\ Ui.message_start_ts ui1 = Ui.message_start_ts ui2.

End TagLines.

(** ** Reading a formal text

    The formal text has thirteen lines before the message body and six
    after it. *)

Module FormalText.
Import PyStr.

(** The lines of the formal text between its first thirteen and its
    last six, joined again. *)
Definition message_body_of (formal_text : string) : string :=
  let lines := split_nl formal_text in
  join nl (firstn (List.length lines - 19) (skipn 13 lines)).

(** None of the texts that go on a line of their own holds a line
    feed. *)
Definition one_line_fields (message_type : string) (sender_info : SenderInfo)
    (start_ts end_ts account_number : string) : bool :=
  forallb MtSpec.single_line
    [ message_type;
      get_or (bic sender_info) "";
      get_or (bank_name sender_info) "";
      get_or (bank_address sender_info) "";
      get_or (account_name sender_info) "";
      get_or (account_iban sender_info) "";
      account_number; start_ts; end_ts ].

End FormalText.

(** ** The extension of a downloaded logo *)

Module Logo.
Import PyStr PyText.

(** swift_alliance_streamlit._choose_extension *)
Definition _choose_extension (url : string) (content_type : option string) : string :=
  let content_type := lower (or_else content_type "") in
  if contains "svg" content_type || endswith ".svg" (lower url) then ".svg"
  else if contains "png" content_type || endswith ".png" (lower url) then ".png"
  else if contains "jpeg" content_type || contains "jpg" content_type
          || endswith ".jpg" (lower url) || endswith ".jpeg" (lower url)
  then ".jpg"
  else ".png".

(** fetch_logo.choose_extension *)
Definition choose_extension (url : string) (content_type : option string) : string :=
  let content_type := lower (or_else content_type "") in
  if contains "svg" content_type || endswith ".svg" (lower url) then ".svg"
  else if contains "png" content_type || endswith ".png" (lower url) then ".png"
  else if contains "jpeg" content_type || contains "jpg" content_type
          || endswith ".jpg" (lower url) || endswith ".jpeg" (lower url)
  then ".jpg"
  else ".png".

End Logo.

(** ** The client of streamlit_client.py *)

Module Client.
Import PyStr PyText.


End Client.

(** ** JSON files

    [users.json] and [config.json] are written by [json.dump] and read
    by [json.load].  A file is taken by what [json.load] makes of it:
    the value it returns, or the fact that it raises. *)

Module Json.

#[warnings="-register-all"]
Inductive value : Type :=
| JNull
| JBool (b : bool)
| JNumber (literal : string)
| JString (s : string)
| JArray (items : list value)
| JObject (members : list (string * value)).

Inductive file : Type :=
| Missing                 (* os.path.exists is False *)
| Unreadable              (* the text is not JSON: json.load raises *)
| Holds (v : value).

Inductive error : Type :=
| JSONDecodeError
| NoAttribute             (* AttributeError: .get, .append, .update, .setdefault *)
| NotSupported.           (* TypeError: iteration, item assignment *)

Inductive outcome (A : Type) : Type :=
| Returns (a : A)
| Raises (e : error).
Arguments Returns {A} a.
Arguments Raises {A} e.

(** [d.get(k)] on the members of a dict *)
Fixpoint get (k : string) (d : list (string * value)) : option value :=
  match d with
  | [] => None
  | (k', v) :: r => if String.eqb k' k then Some v else get k r
  end.

(** [d.get(k, default)] *)
Definition get_default (k : string) (d : list (string * value)) (default : value)
    : value :=
  match get k d with Some v => v | None => default end.

(** [d[k] = v]: an existing key keeps its place, a new key goes last. *)
Fixpoint set (k : string) (v : value) (d : list (string * value))
    : list (string * value) :=
  match d with
  | [] => [(k, v)]
  | (k', v') :: r =>
      if String.eqb k' k then (k, v) :: r else (k', v') :: set k v r
  end.

(** [d.update(other)] *)
Definition update (d other : list (string * value)) : list (string * value) :=
  fold_left (fun acc kv => set (fst kv) (snd kv) acc) other d.

(** [v == s] for a [str] [s]; [None] is what [.get] gives for an absent
    key. *)
Definition is_str (v : option value) (s : string) : bool :=
  match v with
  | Some (JString t) => String.eqb t s
  | _ => false
  end.

(** [for u in v]: the items of a list, the keys of a dict, the
    characters of a string; nothing else can be iterated. *)
Definition iterate (v : value) : outcome (list value) :=
  match v with
  | JArray items => Returns items
  | JObject members => Returns (map (fun kv => JString (fst kv)) members)
  | JString s => Returns (map (fun c => JString (String c "")) (list_ascii_of_string s))
  | JNull | JBool _ | JNumber _ => Raises NotSupported
  end.

End Json.

(** ** The user store of the Streamlit page

    [hashlib.sha256(b).hexdigest()] is a parameter. *)

Module Login.
Import Json.

Section Hash.
Variable sha256_hexdigest : string -> string.

(** swift_alliance_streamlit.hash_password *)
Definition hash_password (password : string) : string :=
  let salt := "swift_alliance_app_salt_2025" in
  sha256_hexdigest (password ++ salt).

(** [{"username": username, "password": hash_password(password)}] *)
Definition entry (username password : string) : value :=
  JObject [ ("username", JString username);
            ("password", JString (hash_password password)) ].

(** swift_alliance_streamlit.ensure_default_user *)
Definition ensure_default_user (users_file : file) : file :=
  match users_file with
  | Missing => Holds (JObject [ ("users", JArray [ entry "admin" "admin" ]) ])
  | _ => users_file
  end.

(** The loop of [validate_user]: the first entry that matches ends it;
    an entry that is no dict has no [.get]. *)
Fixpoint find_login (username hashed : string) (users : list value) : outcome bool :=
  match users with
  | [] => Returns false
  | JObject u :: rest =>
      if is_str (get "username" u) username && is_str (get "password" u) hashed
      then Returns true
      else find_login username hashed rest
  | _ :: _ => Raises NoAttribute
  end.

(** swift_alliance_streamlit.validate_user *)
Definition validate_user (username password : string) (users_file : file)
    : outcome bool :=
  match users_file with
  | Missing => Returns false
  | Unreadable => Raises JSONDecodeError
  | Holds (JObject data) =>
      match iterate (get_default "users" data (JArray [])) with
      | Returns users => find_login username (hash_password password) users
      | Raises e => Raises e
      end
  | Holds _ => Raises NoAttribute
  end.

(** swift_alliance_streamlit.add_user: what it raises or returns, and
    the file afterwards (untouched when it raises: the file is opened
    for writing last). *)
Definition add_user (username password : string) (users_file : file)
    : outcome unit * file :=
  let loaded :=
    match users_file with
    | Missing => Returns (JObject [ ("users", JArray []) ])
    | Unreadable => Raises JSONDecodeError
    | Holds v => Returns v
    end in
  match loaded with
  | Raises e => (Raises e, users_file)
  | Returns (JObject data) =>
      match get "users" data with
      | None =>
          (Returns tt,
           Holds (JObject (set "users" (JArray [ entry username password ]) data)))
      | Some (JArray users) =>
          (Returns tt,
           Holds (JObject (set "users"
                             (JArray (app users [ entry username password ])) data)))
      | Some _ => (Raises NoAttribute, users_file)
      end
  | Returns _ => (Raises NoAttribute, users_file)
  end.

(** What the page keeps of a login in [st.session_state]. *)
Record Session : Type := { logged_in : bool; username : string }.

(** The Login button of the page. *)
Definition login_click (input_uname input_pwd : string) (session : Session)
    (users_file : file) : outcome Session :=
  match validate_user input_uname input_pwd users_file with
  | Returns true => Returns {| logged_in := true; username := input_uname |}
  | Returns false => Returns session
  | Raises e => Raises e
  end.

(** The Register button of the page: the session and the file
    afterwards. *)
Definition register_click (input_uname input_pwd : string) (session : Session)
    (users_file : file) : outcome Session * file :=
  if PyStr.is_empty input_uname || PyStr.is_empty input_pwd
  then (Returns session, users_file)
  else
    match add_user input_uname input_pwd users_file with
    | (Returns _, after) =>
        (Returns {| logged_in := true; username := input_uname |}, after)
    | (Raises e, after) => (Raises e, after)
    end.

End Hash.

End Login.

(** ** The user store of add_user.py *)

Module AddUser.
Import Json.

Section Hash.
Variable sha256_hexdigest : string -> string.

Definition SALT : string := "swift_alliance_app_salt_2025".

(** add_user.hash_password *)
Definition hash_password (password : string) : string :=
  sha256_hexdigest (password ++ SALT).

Definition entry (username password : string) : value :=
  JObject [ ("username", JString username);
            ("password", JString (hash_password password)) ].

(** add_user.load_users: a file that cannot be read counts as empty. *)
Definition load_users (users_file : file) : value :=
  match users_file with
  | Holds v => v
  | Missing | Unreadable => JObject [ ("users", JArray []) ]
  end.

(** add_user.save_users *)
Definition save_users (data : value) : file := Holds data.

Fixpoint find_user (username : string) (users : list value) : outcome bool :=
  match users with
  | [] => Returns false
  | JObject u :: rest =>
      if is_str (get "username" u) username then Returns true
      else find_user username rest
  | _ :: _ => Raises NoAttribute
  end.

(** add_user.user_exists *)
Definition user_exists (data : value) (username : string) : outcome bool :=
  match data with
  | JObject members =>
      match iterate (get_default "users" members (JArray [])) with
      | Returns users => find_user username users
      | Raises e => Raises e
      end
  | _ => Raises NoAttribute
  end.

(** add_user.add_user: the exit code, and the file afterwards. *)
Definition add_user (username password : string) (users_file : file)
    : outcome nat * file :=
  let data := load_users users_file in
  match user_exists data username with
  | Raises e => (Raises e, users_file)
  | Returns true => (Returns 1, users_file)
  | Returns false =>
      match data with
      | JObject members =>
          match get "users" members with
          | None =>
              (Returns 0,
               save_users
                 (JObject (set "users" (JArray [ entry username password ]) members)))
          | Some (JArray users) =>
              (Returns 0,
               save_users
                 (JObject (set "users"
                             (JArray (app users [ entry username password ]))
                             members)))
          | Some _ => (Raises NoAttribute, users_file)
          end
      | _ => (Raises NoAttribute, users_file)
      end
  end.

(** [[u for u in users if u.get("username") != username]] *)
Fixpoint others (username : string) (users : list value) : outcome (list value) :=
  match users with
  | [] => Returns []
  | JObject u :: rest =>
      match others username rest with
      | Returns kept =>
          Returns (if is_str (get "username" u) username then kept
                   else JObject u :: kept)
      | Raises e => Raises e
      end
  | _ :: _ => Raises NoAttribute
  end.

(** add_user.overwrite_user *)
Definition overwrite_user (username password : string) (users_file : file)
    : outcome nat * file :=
  match load_users users_file with
  | JObject members =>
      match iterate (get_default "users" members (JArray [])) with
      | Raises e => (Raises e, users_file)
      | Returns users =>
          match others username users with
          | Raises e => (Raises e, users_file)
          | Returns new_users =>
              (Returns 0,
               save_users
                 (JObject (set "users"
                             (JArray (app new_users [ entry username password ]))
                             members)))
          end
      end
  | _ => (Raises NoAttribute, users_file)
  end.

End Hash.

End AddUser.

(** ** What the user store holds *)

Module UserStore.
Import Json.

Definition is_object (v : value) : bool :=
  match v with JObject _ => true | _ => false end.

(** The entries of a store: none in a file that is not there. *)
Definition entries (users_file : file) : list value :=
  match users_file with
  | Holds (JObject data) =>
      match get "users" data with
      | Some (JArray users) => users
      | _ => []
      end
  | _ => []
  end.

(** A store as the two programs write it: no file yet, or a dict whose
    ["users"], where present, is a list of dicts. *)
Definition well_formed (users_file : file) : bool :=
  match users_file with
  | Missing => true
  | Unreadable => false
  | Holds (JObject data) =>
      match get "users" data with
      | None => true
      | Some (JArray users) => forallb is_object users
      | Some _ => false
      end
  | Holds _ => false
  end.

(** The entry is a dict that carries the user name. *)
Definition names (username : string) (u : value) : bool :=
  match u with
  | JObject m => is_str (get "username" m) username
  | _ => false
  end.

(** How many entries carry the user name. *)
Definition count_user (username : string) (users_file : file) : nat :=
  List.length (filter (names username) (entries users_file)).

End UserStore.

(** ** The configuration files *)

(** swift_alliance_streamlit.py *)
Module Config.
Import Json.

(** swift_alliance_streamlit.load_config *)
Definition load_config (config_file : file) : value :=
  match config_file with
  | Holds v => v
  | Missing | Unreadable => JObject []
  end.

(** swift_alliance_streamlit.save_config: the file afterwards; a file
    that holds something else than a dict has no [.update]. *)
Definition save_config (data : list (string * value)) (config_file : file)
    : outcome unit * file :=
  let cfg :=
    match config_file with
    | Holds v => v
    | Missing | Unreadable => JObject []
    end in
  match cfg with
  | JObject members => (Returns tt, Holds (JObject (update members data)))
  | _ => (Raises NoAttribute, config_file)
  end.

End Config.

(** fetch_logo.py *)
Module FetchLogo.
Import Json.

(** fetch_logo.update_config_with_logo *)
Definition update_config_with_logo (path : string) (config_file : file)
    : outcome unit * file :=
  let cfg :=
    match config_file with
    | Holds v => v
    | Missing | Unreadable => JObject []
    end in
  match cfg with
  | JObject members =>
      (Returns tt, Holds (JObject (set "logo_path" (JString path) members)))
  | _ => (Raises NotSupported, config_file)
  end.

End FetchLogo.

(** config_manager.py *)
Module ConfigManager.
Import Json.

(** config_manager._default_config *)
Definition _default_config : list (string * value) :=
  [ ("schema_path", JNull); ("logo_path", JNull) ].

(** [{k: data.get(k, cfg[k]) for k in cfg.keys()}] *)
Definition known_keys (data cfg : list (string * value)) : list (string * value) :=
  map (fun kv => (fst kv, get_default (fst kv) data (snd kv))) cfg.

(** config_manager.load_config *)
Definition load_config (config_file : file) : value :=
  match config_file with
  | Missing => JObject _default_config
  | Unreadable => JObject _default_config
  | Holds (JObject data) =>
      let cfg := _default_config in
      JObject (update cfg (known_keys data cfg))
  | Holds _ => JObject _default_config
  end.

(** config_manager.save_config, for an argument that is a dict: the
    file afterwards. *)
Definition save_config (data : list (string * value)) : file :=
  let cfg := _default_config in
  Holds (JObject (update cfg (known_keys data cfg))).

End ConfigManager.

(** ** The desktop form

    swift_alliance_gui.py takes [payment_from_transaction] and
    [generate_mt103] from the package [swift_alliance]; they are read
    here as the functions of swift_messages.py. *)

Module Gui.
Import PyStr PyTime.

Record Form : Type :=
  { ordering_name : string;
    ordering_account : string;
    beneficiary_name : string;
    beneficiary_account : string;
    beneficiary_bic : string;
    amount_edit : string;
    currency_edit : string;
    value_date : string;
    remittance : string;
    reference_edit : string }.

Inductive failure : Type :=
| ValueError (message : string)
| Raised (e : exn).

Inductive attempt (A : Type) : Type :=
| Got (a : A)
| Failed (f : failure).
Arguments Got {A} a.
Arguments Failed {A} f.

(** [text or None] *)
Definition or_none (text : string) : option string :=
  if is_empty text then None else Some text.

(** SwiftGUI._collect_payment *)
Definition _collect_payment (ui : Form) (w : World) : attempt Payment * World :=
  match PyDecimal.of_string (strip (amount_edit ui)) with
  | Err _ => (Failed (ValueError "Invalid amount"), w)
  | Ok amount =>
      match
        payment_from_transaction
          (strip (ordering_account ui))
          (strip (ordering_name ui))
          (strip (beneficiary_account ui))
          (strip (beneficiary_name ui))
          amount
          (or_else (Some (strip (currency_edit ui))) "USD")
          (or_none (strip (value_date ui)))
          (or_none (strip (remittance ui)))
          (or_none (strip (beneficiary_bic ui)))
          (or_none (strip (reference_edit ui)))
          w
      with
      | (Ok payment, w') => (Got payment, w')
      | (Err e, w') => (Failed (Raised e), w')
      end
  end.

Section Preview.
Variable fromisoformat : string -> option date.

(** SwiftGUI.on_generate with the MT103 button checked, up to
    [self.preview.setPlainText(mt)]: the text of the preview, or the
    exception the message box reports. *)
Definition on_generate_mt103 (ui : Form) (w : World) : attempt string * World :=
  match _collect_payment ui w with
  | (Got payment, w1) =>
      match generate_mt103 fromisoformat payment w1 with
      | (Ok mt, w2) => (Got mt, w2)
      | (Err e, w2) => (Failed (Raised e), w2)
      end
  | (Failed f, w1) => (Failed f, w1)
  end.

End Preview.

End Gui.

(** ** More sample inputs *)

Module Sample2.
Import Json.

(** A stand-in for the digest, to compute with. *)
Definition digest (bytes : string) : string := "#" ++ bytes.

(** A store with one user. *)
Definition store : file :=
  Holds (JObject [ ("users", JArray [ Login.entry digest "admin" "admin" ]) ]).

Definition config : file :=
  Holds (JObject [ ("schema_path", JString "assets/schemas/pain.001.xsd");
                   ("theme", JString "dark") ]).

(** The form of the Streamlit page with another payment typed in. *)
Definition other_payment (msg_type amount_text : string) : Ui.Form :=
  {| Ui.msg_type := msg_type;
     Ui.ordering_name := "SOMEONE ELSE";
     Ui.ordering_account := "GB00";
     Ui.beneficiary_name := "";
     Ui.beneficiary_account := "";
     Ui.amount_text := amount_text;
     Ui.currency := "EUR";
     Ui.remittance := "NOTE";
     Ui.reference := "REF001";
     Ui.mt_fields := [];
     Ui.sender_bic := "UBSWCHZH80A";
     Ui.sender_bank := "UBS SWITZERLAND AG";
     Ui.sender_addr := "PARADEPLATZ 6, 8098, ZURICH, SWITZERLAND";
     Ui.sender_acct_name := "ANDRO AG";
     Ui.sender_iban := "CH970020620625170160K";
     Ui.selected_account := "-- none --";
     Ui.message_start_ts := Some "2025-03-07T11:59:58.000100" |}.

Definition gui_form (remittance reference : string) : Gui.Form :=
  {| Gui.ordering_name := " ANDRO AG ";
     Gui.ordering_account := "CH970020620625170160K";
     Gui.beneficiary_name := "ACME CORP";
     Gui.beneficiary_account := "DE89370400440532013000";
     Gui.beneficiary_bic := "";
     Gui.amount_edit := " 1500.5 ";
     Gui.currency_edit := "";
     Gui.value_date := "2025-03-10";
     Gui.remittance := remittance;
     Gui.reference_edit := reference |}.

End Sample2.

(** * Properties *)

(** ** Strings *)

Module PyStrFacts.
Import PyStr.

Lemma append_assoc (a b c : string) : (a ++ b) ++ c = a ++ (b ++ c).
Proof. induction a as [|x a IH]; simpl; [reflexivity | now rewrite IH]. Qed.

Lemma length_append (a b : string) :
  String.length (a ++ b) = String.length a + String.length b.
Proof. induction a as [|x a IH]; simpl; [reflexivity | now rewrite IH]. Qed.

Lemma take_append (a b : string) : take (String.length a) (a ++ b) = a.
Proof. induction a as [|x a IH]; simpl; [now destruct b | now rewrite IH]. Qed.

Lemma drop_append (a b : string) : drop (String.length a) (a ++ b) = b.
Proof. induction a as [|x a IH]; simpl; [reflexivity | exact IH]. Qed.

Lemma forallb_chars_append f (a b : string) :
  forallb_chars f (a ++ b) = forallb_chars f a && forallb_chars f b.
Proof.
  induction a as [|x a IH]; simpl; [reflexivity |].
  now rewrite IH, andb_assoc.
Qed.

End PyStrFacts.

(** ** Decimal digits *)

Module DigitsFacts.
Import PyStr Digits PyStrFacts.
Local Open Scope N_scope.

Lemma small_cases (d : N) :
  d < 10 ->
  d = 0 \/ d = 1 \/ d = 2 \/ d = 3 \/ d = 4 \/
  d = 5 \/ d = 6 \/ d = 7 \/ d = 8 \/ d = 9.
Proof. lia. Qed.

Ltac each_digit d H :=
  destruct (small_cases d H)
    as [->|[->|[->|[->|[->|[->|[->|[->|[->| ->]]]]]]]]].

Lemma digit_char_is_digit (d : N) : d < 10 -> is_digit (digit_char d) = true.
Proof. intros H. each_digit d H; reflexivity. Qed.

Lemma digit_val_char (d : N) : d < 10 -> digit_val (digit_char d) = d.
Proof. intros H. each_digit d H; reflexivity. Qed.

(** Any fuel that bounds the number of digits gives the same text. *)
Lemma str_N_fuel_irrel (f1 : nat) :
  forall (f2 : nat) (n : N),
    n < 10 ^ N.of_nat (S f1) -> n < 10 ^ N.of_nat (S f2) ->
    str_N_fuel f1 n = str_N_fuel f2 n.
Proof.
  induction f1 as [|f1 IH]; intros f2 n H1 H2.
  - change (10 ^ N.of_nat 1) with 10 in H1.
    destruct f2; simpl; [reflexivity |].
    apply N.ltb_lt in H1. now rewrite H1.
  - simpl. destruct (n <? 10) eqn:E.
    + destruct f2; simpl; [reflexivity | now rewrite E].
    + apply N.ltb_ge in E.
      destruct f2 as [|f2].
      * change (10 ^ N.of_nat 1) with 10 in H2. lia.
      * simpl. apply N.ltb_ge in E. rewrite E. f_equal.
        apply IH.
        -- apply N.Div0.div_lt_upper_bound.
           rewrite <- N.pow_succ_r'. now rewrite <- Nnat.Nat2N.inj_succ.
        -- apply N.Div0.div_lt_upper_bound.
           rewrite <- N.pow_succ_r'. now rewrite <- Nnat.Nat2N.inj_succ.
Qed.

Lemma lt_pow10_log2 (n : N) : n < 10 ^ N.of_nat (S (N.to_nat (N.log2 n))).
Proof.
  rewrite Nnat.Nat2N.inj_succ, Nnat.N2Nat.id.
  destruct (N.eq_dec n 0) as [->|Hn]; [reflexivity |].
  assert (H : n < 2 ^ N.succ (N.log2 n)) by (apply N.log2_spec; lia).
  eapply N.lt_le_trans; [exact H |].
  apply N.pow_le_mono_l. lia.
Qed.

(** The defining equation of [str]. *)
Lemma str_N_unfold (n : N) :
  str_N n =
    if n <? 10 then String (digit_char n) ""
    else (str_N (n / 10) ++ String (digit_char (n mod 10)) "")%string.
Proof.
  unfold str_N at 1.
  destruct (n <? 10) eqn:E.
  - destruct (N.to_nat (N.log2 n)); simpl; [reflexivity | now rewrite E].
  - pose proof (lt_pow10_log2 n) as Hn.
    destruct (N.to_nat (N.log2 n)) as [|f] eqn:Ef.
    + apply N.ltb_ge in E. change (10 ^ N.of_nat 1) with 10 in Hn. lia.
    + simpl. rewrite E. f_equal.
      apply str_N_fuel_irrel; [| apply lt_pow10_log2].
      apply N.Div0.div_lt_upper_bound.
      rewrite <- N.pow_succ_r'. now rewrite <- Nnat.Nat2N.inj_succ.
Qed.

Lemma str_N_small (n : N) : n < 10 -> str_N n = String (digit_char n) "".
Proof. intros H. rewrite str_N_unfold. apply N.ltb_lt in H. now rewrite H. Qed.

Lemma str_N_big (n : N) :
  10 <= n -> str_N n = (str_N (n / 10) ++ String (digit_char (n mod 10)) "")%string.
Proof. intros H. rewrite str_N_unfold. apply N.ltb_ge in H. now rewrite H. Qed.

(** Induction along the digits of a number. *)
Lemma digits_ind (P : N -> Prop) :
  (forall n, n < 10 -> P n) ->
  (forall n, 10 <= n -> P (n / 10) -> P n) ->
  forall n, P n.
Proof.
  intros Hs Hb n.
  induction n as [n IH] using (well_founded_induction N.lt_wf_0).
  destruct (N.lt_ge_cases n 10) as [H|H]; [now apply Hs |].
  apply Hb; [exact H |]. apply IH.
  apply N.div_lt; lia.
Qed.

Lemma str_N_all_digits (n : N) : all_digits (str_N n) = true.
Proof.
  induction n as [n H | n H IH] using digits_ind.
  - rewrite str_N_small by exact H. unfold all_digits. simpl.
    now rewrite digit_char_is_digit.
  - rewrite str_N_big by exact H. unfold all_digits in *.
    rewrite forallb_chars_append, IH. simpl.
    rewrite digit_char_is_digit; [reflexivity |].
    apply N.mod_lt. lia.
Qed.

Lemma int_acc_append (a b : string) :
  forall acc, int_acc acc (a ++ b) = int_acc (int_acc acc a) b.
Proof. induction a as [|x a IH]; intros acc; simpl; [reflexivity | apply IH]. Qed.

(** [int(str(n)) = n] *)
Lemma int_of_str_N (n : N) : int_of (str_N n) = n.
Proof.
  unfold int_of.
  induction n as [n H | n H IH] using digits_ind.
  - rewrite str_N_small by exact H. simpl. now rewrite digit_val_char.
  - rewrite str_N_big by exact H. rewrite int_acc_append, IH. simpl.
    rewrite digit_val_char by (apply N.mod_lt; lia).
    pose proof (N.div_mod n 10). lia.
Qed.

Lemma ndigits_small (n : N) : n < 10 -> ndigits n = 1%nat.
Proof. intros H. unfold ndigits. now rewrite str_N_small. Qed.

Lemma ndigits_big (n : N) : 10 <= n -> ndigits n = S (ndigits (n / 10)).
Proof.
  intros H. unfold ndigits. rewrite str_N_big by exact H.
  rewrite length_append. simpl. lia.
Qed.

Lemma ndigits_pos (n : N) : (1 <= ndigits n)%nat.
Proof.
  destruct (N.lt_ge_cases n 10) as [H|H].
  - rewrite ndigits_small by exact H. lia.
  - rewrite ndigits_big by exact H. lia.
Qed.

(** A number is below the power of ten of its digit count ... *)
Lemma lt_pow10_ndigits (n : N) : n < 10 ^ N.of_nat (ndigits n).
Proof.
  induction n as [n H | n H IH] using digits_ind.
  - rewrite ndigits_small by exact H. exact H.
  - rewrite ndigits_big by exact H.
    rewrite Nnat.Nat2N.inj_succ, N.pow_succ_r'.
    pose proof (N.div_mod n 10). pose proof (N.mod_lt n 10). lia.
Qed.

(** ... and, unless it is zero, not below the one before. *)
Lemma pow10_ndigits_le (n : N) :
  0 < n -> 10 ^ N.of_nat (ndigits n - 1) <= n.
Proof.
  induction n as [n H | n H IH] using digits_ind; intros Hpos.
  - rewrite ndigits_small by exact H. simpl. lia.
  - rewrite ndigits_big by exact H.
    assert (Hq : 0 < n / 10) by (apply N.div_str_pos; lia).
    specialize (IH Hq).
    pose proof (ndigits_pos (n / 10)) as Hd.
    replace (S (ndigits (n / 10)) - 1)%nat with (S (ndigits (n / 10) - 1)) by lia.
    rewrite Nnat.Nat2N.inj_succ, N.pow_succ_r'.
    set (p := 10 ^ N.of_nat (ndigits (n / 10) - 1)) in *. clearbody p.
    pose proof (N.Div0.mul_div_le n 10). lia.
Qed.

(** The digit count compared with a bound. *)
Lemma ndigits_le_iff (n : N) (k : nat) :
  (1 <= k)%nat -> ((ndigits n <= k)%nat <-> n < 10 ^ N.of_nat k).
Proof.
  intros Hk. split; intros H.
  - eapply N.lt_le_trans; [apply lt_pow10_ndigits |].
    apply N.pow_le_mono_r; lia.
  - destruct (N.eq_dec n 0) as [->|Hn].
    + rewrite ndigits_small by lia. exact Hk.
    + destruct (Nat.le_gt_cases (ndigits n) k) as [Hle|Hgt]; [exact Hle |].
      exfalso.
      assert (H1 : 10 ^ N.of_nat k <= 10 ^ N.of_nat (ndigits n - 1))
        by (apply N.pow_le_mono_r; lia).
      pose proof (pow10_ndigits_le n ltac:(lia)). lia.
Qed.

(** The last two digits split off: what [format] does at exponent -2. *)
Lemma str_N_hundreds (n : N) :
  100 <= n ->
  str_N n =
    (str_N (n / 100)
       ++ String (digit_char ((n / 10) mod 10)) (String (digit_char (n mod 10)) ""))%string.
Proof.
  intros H.
  rewrite (str_N_big n) by lia.
  assert (H10 : 10 <= n / 10) by (apply N.div_le_lower_bound; lia).
  rewrite (str_N_big (n / 10)) by exact H10.
  rewrite N.Div0.div_div. change (10 * 10) with 100.
  now rewrite append_assoc.
Qed.

End DigitsFacts.

(** ** The decimal arithmetic behind the formatter *)

Module PyDecimalFacts.
Import PyStr Digits PyDecimal AmountSpec PyStrFacts DigitsFacts.
Local Open Scope N_scope.

Lemma pow10_pos (k : N) : 0 < 10 ^ k.
Proof. apply N.neq_0_lt_0, N.pow_nonzero. discriminate. Qed.

(** Rounding half up is rounding to the nearest, ties upwards:
    [q - 1/2 <= c / 10^k < q + 1/2]. *)
Lemma half_up_cents_nearest (c : N) (e : Z) :
  (e < -2)%Z ->
  let k := Z.to_N (-2 - e) in
  let q := half_up_cents c e in
  2 * q * 10 ^ k <= 2 * c + 10 ^ k /\ 2 * c + 10 ^ k < 2 * (q + 1) * 10 ^ k.
Proof.
  intros He k q. unfold q, half_up_cents.
  apply Z.leb_gt in He. rewrite He. fold k.
  pose proof (pow10_pos k) as Hp.
  set (p := 10 ^ k) in *. clearbody p.
  pose proof (N.div_mod (2 * c + p) (2 * p) ltac:(lia)) as Hd.
  pose proof (N.mod_lt (2 * c + p) (2 * p) ltac:(lia)) as Hm.
  set (d := (2 * c + p) / (2 * p)) in *. clearbody d.
  set (m := (2 * c + p) mod (2 * p)) in *. clearbody m.
  nia.
Qed.

Lemma half_up_cents_exact (c : N) (e : Z) :
  (-2 <= e)%Z -> half_up_cents c e = c * 10 ^ Z.to_N (e + 2).
Proof. intros He. unfold half_up_cents. apply Z.leb_le in He. now rewrite He. Qed.

(** What the library computes digit by digit is that rounding. *)
Lemma rescale_half_up (c : N) (e : Z) :
  _rescale c e (-2) = half_up_cents c e.
Proof.
  unfold _rescale, half_up_cents.
  destruct (-2 <=? e)%Z eqn:He.
  - now replace (e - -2)%Z with (e + 2)%Z by lia.
  - apply Z.leb_gt in He.
    set (k := Z.to_N (-2 - e)).
    assert (Hk : 1 <= k) by (unfold k; lia).
    unfold _round_half_up.
    set (P := 10 ^ (k - 1)).
    assert (HP : 0 < P) by apply pow10_pos.
    assert (Hpow : 10 ^ k = 10 * P).
    { unfold P. rewrite <- N.pow_succ_r'. f_equal. lia. }
    rewrite Hpow.
    assert (Hq0 : c / (10 * P) = c / P / 10).
    { rewrite N.Div0.div_div. f_equal. lia. }
    rewrite Hq0.
    pose proof (N.div_mod c P ltac:(lia)) as Hc.
    pose proof (N.mod_lt c P ltac:(lia)) as Hr.
    set (x := c / P) in *. set (r0 := c mod P) in *.
    pose proof (N.div_mod x 10 ltac:(lia)) as Hx.
    pose proof (N.mod_lt x 10 ltac:(lia)) as Hd.
    set (q0 := x / 10) in *. set (d := x mod 10) in *.
    clearbody q0 d r0 x P.
    destruct (5 <=? d) eqn:E5.
    + apply N.leb_le in E5.
      apply N.div_unique with (r := 2 * P * (d - 5) + 2 * r0); nia.
    + apply N.leb_gt in E5.
      apply N.div_unique with (r := 2 * P * d + 2 * r0 + 10 * P); nia.
Qed.

Lemma half_up_cents_zero (e : Z) : half_up_cents 0 e = 0.
Proof.
  unfold half_up_cents. destruct (-2 <=? e)%Z; [reflexivity |].
  apply N.div_small. pose proof (pow10_pos (Z.to_N (-2 - e))). lia.
Qed.

(** A value of 27 or more integer digits rounds to 29 or more digits. *)
Lemma half_up_cents_large (c : N) (e : Z) :
  0 < c -> (27 <= e + Z.of_nat (ndigits c))%Z ->
  10 ^ 28 <= half_up_cents c e.
Proof.
  intros Hc Hbig.
  pose proof (pow10_ndigits_le c Hc) as Hlow.
  pose proof (ndigits_pos c) as Hnd.
  unfold half_up_cents. destruct (-2 <=? e)%Z eqn:He.
  - apply Z.leb_le in He.
    assert (H : 10 ^ 28 <= 10 ^ (N.of_nat (ndigits c - 1) + Z.to_N (e + 2)))
      by (apply N.pow_le_mono_r; lia).
    rewrite N.pow_add_r in H.
    eapply N.le_trans; [exact H |].
    apply N.mul_le_mono_r. exact Hlow.
  - apply Z.leb_gt in He.
    set (k := Z.to_N (-2 - e)).
    assert (H : 10 ^ (28 + k) <= 10 ^ N.of_nat (ndigits c - 1))
      by (apply N.pow_le_mono_r; unfold k; lia).
    rewrite N.pow_add_r in H.
    pose proof (pow10_pos k) as Hp.
    apply N.div_le_lower_bound; [lia |].
    set (p := 10 ^ k) in *. set (t := 10 ^ 28) in *.
    set (u := 10 ^ N.of_nat (ndigits c - 1)) in *.
    clearbody p t u. nia.
Qed.

(** [quantize] to hundredths on a finite value: the rounded amount when
    it has at most 28 digits, InvalidOperation otherwise. *)
Lemma quantize_cent_finite (s : bool) (c : N) (e : Z) :
  quantize (Finite s c e) cent =
    if half_up_cents c e <? 10 ^ 28
    then Ok (Finite s (half_up_cents c e) (-2))
    else Err InvalidOperation.
Proof.
  unfold quantize, cent.
  change (negb ((Etiny <=? -2)%Z && (-2 <=? Emax)%Z)) with false. cbv iota.
  destruct (c =? 0) eqn:Ec.
  - apply N.eqb_eq in Ec. subst c. now rewrite half_up_cents_zero.
  - apply N.eqb_neq in Ec.
    rewrite rescale_half_up.
    set (q := half_up_cents c e).
    pose proof (ndigits_le_iff q 28 ltac:(lia)) as Hq.
    change (N.of_nat 28) with 28 in Hq.
    unfold adjusted, Emax, prec.
    destruct (Z.le_gt_cases 27 (e + Z.of_nat (ndigits c))) as [Hbig|Hsmall].
    + pose proof (half_up_cents_large c e ltac:(lia) Hbig) as Hl. fold q in Hl.
      assert (Eq : (q <? 10 ^ 28) = false) by (apply N.ltb_ge; exact Hl).
      rewrite Eq.
      destruct (999999 <? e + Z.of_nat (ndigits c) - 1)%Z; [reflexivity |].
      assert (E2 : (28 <? e + Z.of_nat (ndigits c) - 1 - -2 + 1)%Z = true)
        by (apply Z.ltb_lt; lia).
      now rewrite E2.
    + assert (E1 : (999999 <? e + Z.of_nat (ndigits c) - 1)%Z = false)
        by (apply Z.ltb_ge; lia).
      assert (E2 : (28 <? e + Z.of_nat (ndigits c) - 1 - -2 + 1)%Z = false)
        by (apply Z.ltb_ge; lia).
      rewrite E1, E2.
      destruct (q <? 10 ^ 28) eqn:Eq.
      * apply N.ltb_lt in Eq. apply Hq in Eq.
        assert (E3 : (999999 <? -2 + Z.of_nat (ndigits q) - 1)%Z = false)
          by (apply Z.ltb_ge; lia).
        assert (E4 : (28 <? Z.of_nat (ndigits q))%Z = false)
          by (apply Z.ltb_ge; lia).
        now rewrite E3, E4.
      * apply N.ltb_ge in Eq.
        destruct (999999 <? -2 + Z.of_nat (ndigits q) - 1)%Z; [reflexivity |].
        assert (E4 : (28 <? Z.of_nat (ndigits q))%Z = true).
        { apply Z.ltb_lt.
          destruct (Nat.le_gt_cases (ndigits q) 28) as [Hle|Hgt]; [| lia].
          apply Hq in Hle. lia. }
        now rewrite E4.
Qed.

(** [format(d, 'f')] of a value with exponent -2. *)
Lemma format_f_cents (s : bool) (q : N) :
  format_f (Finite s q (-2)) = render_cents s q.
Proof.
  unfold format_f, render_cents.
  replace ((q =? 0) && (0 <? -2)%Z)%bool with false by now rewrite andb_false_r.
  f_equal.
  destruct (N.lt_ge_cases q 10) as [H1|H1].
  - rewrite (str_N_small q H1).
    rewrite (N.div_small q 100) by lia.
    rewrite (N.div_small q 10) by lia.
    rewrite (N.mod_small q 10) by lia.
    reflexivity.
  - destruct (N.lt_ge_cases q 100) as [H2|H2].
    + rewrite (str_N_big q H1).
      assert (Hq : q / 10 < 10) by (apply N.Div0.div_lt_upper_bound; lia).
      rewrite (str_N_small _ Hq).
      rewrite (N.div_small q 100) by lia.
      rewrite (N.mod_small (q / 10) 10) by exact Hq.
      reflexivity.
    + rewrite (str_N_hundreds q H2).
      set (A := str_N (q / 100)).
      set (F := String (digit_char ((q / 10) mod 10))
                  (String (digit_char (q mod 10)) "")).
      rewrite length_append.
      change (String.length F) with 2%nat.
      assert (HA : (1 <= String.length A)%nat) by apply ndigits_pos.
      replace ((-2 + Z.of_nat (String.length A + 2) <? 0)%Z) with false
        by (symmetry; apply Z.ltb_ge; lia).
      replace ((Z.of_nat (String.length A + 2)
                  <? -2 + Z.of_nat (String.length A + 2))%Z) with false
        by (symmetry; apply Z.ltb_ge; lia).
      replace (Z.to_nat (-2 + Z.of_nat (String.length A + 2)))
        with (String.length A) by lia.
      rewrite take_append, drop_append.
      destruct A; [simpl in HA; lia | reflexivity].
Qed.

Lemma is_digit_not_minus (c : ascii) :
  is_digit c = true -> Ascii.eqb c "-" = false.
Proof.
  intros H. destruct (Ascii.eqb_spec c "-") as [->|]; [discriminate | reflexivity].
Qed.

Lemma is_digit_not_point (c : ascii) :
  is_digit c = true -> Ascii.eqb c "." = false.
Proof.
  intros H. destruct (Ascii.eqb_spec c ".") as [->|]; [discriminate | reflexivity].
Qed.

Lemma span_digits_stop (ds rest : string) :
  all_digits ds = true ->
  match rest with String c _ => is_digit c = false | "" => True end ->
  span_digits (ds ++ rest) = (ds, rest).
Proof.
  unfold all_digits. intros Hd Hr.
  induction ds as [|x ds IH].
  - destruct rest as [|c r]; [reflexivity |].
    cbn [append span_digits]. now rewrite Hr.
  - cbn [append span_digits forallb_chars] in *.
    apply andb_true_iff in Hd as [Hx Hd]. now rewrite Hx, IH.
Qed.

(** The rendered text has the plain two-decimals shape ... *)
Lemma render_cents_shape (s : bool) (q : N) :
  plain_two_decimals (render_cents s q) = true.
Proof.
  unfold plain_two_decimals, render_cents.
  set (A := str_N (q / 100)).
  set (d1 := digit_char ((q / 10) mod 10)).
  set (d0 := digit_char (q mod 10)).
  assert (HA : all_digits A = true) by apply str_N_all_digits.
  assert (Hne : is_empty A = false).
  { pose proof (ndigits_pos (q / 100)) as Hn. unfold ndigits in Hn. fold A in Hn.
    destruct A; [simpl in Hn; lia | reflexivity]. }
  assert (H1 : is_digit d1 = true)
    by (apply digit_char_is_digit, N.mod_lt; lia).
  assert (H0 : is_digit d0 = true)
    by (apply digit_char_is_digit, N.mod_lt; lia).
  assert (Hbody :
    match (sign_str s ++ A ++ "." ++ String d1 (String d0 ""))%string with
    | String c r => if Ascii.eqb c "-" then r
                    else (sign_str s ++ A ++ "." ++ String d1 (String d0 ""))%string
    | "" => (sign_str s ++ A ++ "." ++ String d1 (String d0 ""))%string
    end = (A ++ "." ++ String d1 (String d0 ""))%string).
  { destruct s; simpl; [reflexivity |].
    destruct A as [|c A']; [discriminate |]. simpl.
    unfold all_digits in HA. simpl in HA. apply andb_true_iff in HA as [Hc _].
    now rewrite (is_digit_not_minus c Hc). }
  rewrite Hbody.
  rewrite span_digits_stop; [| exact HA | reflexivity].
  rewrite Hne. simpl. now rewrite H1, H0.
Qed.

Lemma count_char_append (c : ascii) (a b : string) :
  count_char c (a ++ b) = (count_char c a + count_char c b)%nat.
Proof. induction a as [|x a IH]; simpl; [reflexivity | rewrite IH; lia]. Qed.

Lemma count_point_digits (ds : string) :
  all_digits ds = true -> count_char "." ds = 0%nat.
Proof.
  unfold all_digits. induction ds as [|x ds IH]; simpl; [reflexivity |].
  intros H. apply andb_true_iff in H as [Hx Hd].
  now rewrite (is_digit_not_point x Hx), IH.
Qed.

(** ... with a single point. *)
Lemma render_cents_one_point (s : bool) (q : N) :
  count_char "." (render_cents s q) = 1%nat.
Proof.
  unfold render_cents.
  rewrite !count_char_append.
  rewrite (count_point_digits (str_N (q / 100))) by apply str_N_all_digits.
  assert (H1 : is_digit (digit_char ((q / 10) mod 10)) = true)
    by (apply digit_char_is_digit, N.mod_lt; lia).
  assert (H0 : is_digit (digit_char (q mod 10)) = true)
    by (apply digit_char_is_digit, N.mod_lt; lia).
  cbn [count_char].
  rewrite (is_digit_not_point _ H1), (is_digit_not_point _ H0).
  destruct s; reflexivity.
Qed.

(** The digits of the rendered text read back as the rounded amount. *)
Lemma render_cents_value (q : N) :
  int_of (str_N (q / 100)
            ++ String (digit_char ((q / 10) mod 10))
                 (String (digit_char (q mod 10)) ""))%string = q.
Proof.
  unfold int_of. rewrite int_acc_append.
  fold (int_of (str_N (q / 100))). rewrite int_of_str_N. simpl.
  rewrite !digit_val_char by (apply N.mod_lt; lia).
  pose proof (N.div_mod q 10 ltac:(lia)).
  pose proof (N.div_mod (q / 10) 10 ltac:(lia)).
  rewrite N.Div0.div_div in *. change (10 * 10) with 100 in *. lia.
Qed.

(** The formatter on a finite amount. *)
Lemma format_amount_finite (s : bool) (c : N) (e : Z) (currency : string) :
  format_amount (Finite s c e) currency =
    if half_up_cents c e <? 10 ^ 28
    then Ok (render_cents s (half_up_cents c e))
    else Err InvalidOperation.
Proof.
  unfold format_amount. rewrite quantize_cent_finite.
  destruct (half_up_cents c e <? 10 ^ 28); cbn [rbind]; [| reflexivity].
  now rewrite format_f_cents.
Qed.

End PyDecimalFacts.


(** ** Lines of a text *)

Module LineFacts.
Import PyStr Digits PyDecimal PyTime MtSpec PyStrFacts DigitsFacts.

Lemma single_line_append (a b : string) :
  single_line (a ++ b) = single_line a && single_line b.
Proof. apply forallb_chars_append. Qed.

Lemma split_nl_single (l : string) : single_line l = true -> split_nl l = [l].
Proof.
  unfold single_line. induction l as [|c r IH]; [reflexivity |].
  cbn [forallb_chars split_nl]. intros H.
  apply andb_true_iff in H as [Hc Hr]. apply negb_true_iff in Hc.
  unfold LF in Hc. now rewrite Hc, (IH Hr).
Qed.

Lemma split_nl_cons (l rest : string) :
  single_line l = true -> split_nl (l ++ nl ++ rest) = l :: split_nl rest.
Proof.
  unfold single_line. induction l as [|c r IH]; [reflexivity |].
  cbn [forallb_chars append split_nl]. intros H.
  apply andb_true_iff in H as [Hc Hr]. apply negb_true_iff in Hc.
  unfold LF in Hc. now rewrite Hc, (IH Hr).
Qed.

(** Splitting undoes joining when no part holds a line feed. *)
Lemma split_nl_join (parts : list string) :
  parts <> [] ->
  forallb single_line parts = true ->
  split_nl (join nl parts) = parts.
Proof.
  intros Hne. induction parts as [|l parts IH]; [congruence |].
  cbn [forallb]. intros H. apply andb_true_iff in H as [Hl Hr].
  destruct parts as [|l2 parts].
  - apply split_nl_single. exact Hl.
  - change (join nl (l :: l2 :: parts)) with (l ++ nl ++ join nl (l2 :: parts)).
    rewrite (split_nl_cons _ _ Hl). f_equal.
    apply IH; [discriminate | exact Hr].
Qed.

Lemma split_nl_nonempty (s : string) : split_nl s <> [].
Proof.
  destruct s as [|c r]; cbn [split_nl]; [discriminate |].
  destruct (Ascii.eqb c (ascii_of_nat 10)); [discriminate |].
  destruct (split_nl r); discriminate.
Qed.

(** The pieces of two texts joined by a line feed are the pieces of the
    first and then those of the second, whatever the texts hold. *)
Lemma split_nl_app (a rest : string) :
  split_nl (a ++ nl ++ rest) = app (split_nl a) (split_nl rest).
Proof.
  induction a as [|c r IH]; [reflexivity |].
  cbn [append split_nl]. fold (r ++ nl ++ rest). rewrite IH.
  destruct (Ascii.eqb c (ascii_of_nat 10)); [reflexivity |].
  pose proof (split_nl_nonempty r) as Hne.
  destruct (split_nl r) as [|l ls]; [congruence | reflexivity].
Qed.

(** A part without a line feed is one of the lines of the joined text,
    whatever the other parts hold. *)
Lemma in_split_nl_join (l : string) (parts : list string) :
  In l parts -> single_line l = true -> In l (split_nl (join nl parts)).
Proof.
  intros Hin Hl. induction parts as [|x parts IH]; [contradiction |].
  destruct parts as [|y parts].
  - destruct Hin as [->|[]]. change (join nl [l]) with l.
    rewrite (split_nl_single l Hl). now left.
  - change (join nl (x :: y :: parts)) with (x ++ nl ++ join nl (y :: parts)).
    rewrite split_nl_app. apply in_or_app.
    destruct Hin as [->|Hin].
    + left. rewrite (split_nl_single l Hl). now left.
    + right. exact (IH Hin).
Qed.

Lemma digit_not_lf (c : ascii) : is_digit c = true -> negb (Ascii.eqb c LF) = true.
Proof.
  intros H. destruct (Ascii.eqb_spec c LF) as [->|]; [discriminate | reflexivity].
Qed.

Lemma all_digits_single_line (s : string) :
  all_digits s = true -> single_line s = true.
Proof.
  unfold all_digits, single_line. induction s as [|c r IH]; [reflexivity |].
  cbn [forallb_chars]. intros H. apply andb_true_iff in H as [Hc Hr].
  now rewrite (digit_not_lf c Hc), (IH Hr).
Qed.

Lemma zeros_single_line (n : nat) : single_line (zeros n) = true.
Proof. induction n as [|n IH]; [reflexivity | exact IH]. Qed.

Lemma zfill_single_line (width n : nat) : single_line (zfill width n) = true.
Proof.
  unfold zfill. rewrite single_line_append, zeros_single_line.
  apply all_digits_single_line, str_N_all_digits.
Qed.

Lemma strftime_yymmdd_single_line (d : date) :
  single_line (strftime_yymmdd d) = true.
Proof.
  unfold strftime_yymmdd.
  now rewrite !single_line_append, !zfill_single_line.
Qed.

Lemma replace_lf_single_line (s : string) :
  single_line (replace_char LF " " s) = true.
Proof.
  unfold single_line, replace_char. induction s as [|c r IH]; [reflexivity |].
  cbn [map_chars forallb_chars]. rewrite IH.
  destruct (Ascii.eqb_spec c LF) as [->|Hc]; [reflexivity |].
  destruct (Ascii.eqb_spec c LF); [congruence | reflexivity].
Qed.

Lemma lstrip_zeros_all_digits (s : string) :
  all_digits s = true -> all_digits (lstrip_zeros s) = true.
Proof.
  unfold all_digits. induction s as [|c r IH]; [reflexivity |].
  cbn [forallb_chars lstrip_zeros]. intros H.
  destruct (Ascii.eqb c "0").
  - apply IH. now apply andb_true_iff in H.
  - exact H.
Qed.

Lemma drop_all_digits (n : nat) :
  forall s : string, all_digits s = true -> all_digits (drop n s) = true.
Proof.
  unfold all_digits. induction n as [|n IH]; intros s H.
  - now destruct s.
  - destruct s as [|c r]; [reflexivity |]. cbn [drop].
    apply IH. cbn [forallb_chars] in H. now apply andb_true_iff in H.
Qed.

(** Text read as a decimal is well formed. *)
Lemma of_string_well_formed (text : string) (d : Decimal) :
  of_string text = Ok d -> well_formed d = true.
Proof.
  unfold of_string.
  destruct (match filter_chars _ (strip text) with
            | "" => _ | String _ _ => _ end) as [sign body].
  destruct (parse_number body) as [[c e]|].
  - destruct (representable c e); [| discriminate].
    intros [= <-]. reflexivity.
  - unfold parse_special.
    destruct (_ || _); [intros [= <-]; reflexivity |].
    destruct (match lower body with "" => _ | String _ _ => _ end) as [sig r].
    destruct (String.prefix "nan" r); [| discriminate].
    destruct (all_digits (drop 3 r)); [| discriminate].
    intros [= <-]. cbn [well_formed].
    apply lstrip_zeros_all_digits, str_N_all_digits.
Qed.

Lemma render_cents_single_line (s : bool) (q : N) :
  single_line (AmountSpec.render_cents s q) = true.
Proof.
  unfold AmountSpec.render_cents.
  rewrite !single_line_append.
  rewrite (all_digits_single_line (str_N (q / 100))) by apply str_N_all_digits.
  assert (H1 : is_digit (digit_char ((q / 10) mod 10)) = true)
    by (apply digit_char_is_digit, N.mod_lt; discriminate).
  assert (H0 : is_digit (digit_char (q mod 10)) = true)
    by (apply digit_char_is_digit, N.mod_lt; discriminate).
  unfold single_line at 3. cbn [forallb_chars].
  rewrite (digit_not_lf _ H1), (digit_not_lf _ H0).
  destruct s; reflexivity.
Qed.

(** The formatted amount of a well-formed decimal is one line. *)
Lemma format_amount_single_line (d : Decimal) (currency text : string) :
  well_formed d = true ->
  format_amount d currency = Ok text -> single_line text = true.
Proof.
  intros Hwf. destruct d as [s c e | s | s sig pl].
  - rewrite PyDecimalFacts.format_amount_finite.
    destruct (_ <? _)%N; [| discriminate].
    intros [= <-]. apply render_cents_single_line.
  - discriminate.
  - destruct sig; [discriminate |].
    unfold format_amount, quantize, cent, _fix_nan. cbn [rbind].
    cbn [well_formed] in Hwf.
    destruct (_ <? _)%nat; intros [= <-]; unfold format_f;
      rewrite !single_line_append;
      match goal with
      | |- context [single_line (String "N" (String "a" (String "N" ?x)))] =>
          change (single_line (String "N" (String "a" (String "N" x))))
            with (single_line x)
      end.
    + rewrite (all_digits_single_line (lstrip_zeros _))
        by (apply lstrip_zeros_all_digits, drop_all_digits; exact Hwf).
      destruct s; reflexivity.
    + rewrite (all_digits_single_line pl Hwf). destruct s; reflexivity.
Qed.

End LineFacts.

(** ** Running the generators *)

Module RunFacts.
Import PyStr PyTime Xml Readings.

Ltac run_monad :=
  unfold bind, ret, lift, utcnow, date_today, uuid4_str, run in *;
  cbn [fst snd] in *.

(** *** Optional fields *)

Lemma truthy_get_or (field : option string) :
  truthy field = negb (is_empty (get_or field "")).
Proof. destruct field as [s|]; reflexivity. Qed.

Lemma truthy_true_iff (field : option string) :
  truthy field = true <-> get_or field "" <> "".
Proof.
  rewrite truthy_get_or. destruct (get_or field "") as [|c r]; simpl.
  - split; [discriminate | congruence].
  - split; [discriminate | reflexivity].
Qed.

(** *** The pain.001 trees *)

(** [generate_pain001] either stops at the amount, or builds a tree in
    which the formatted amount is the text of both [CtrlSum] elements
    and of [InstdAmt], and [RmtInf] is there when the remittance is. *)
Lemma pain001_tree_cases (payment : Payment) (w : World) :
  match pain001_tree payment w with
  | (Ok tree, _) =>
      exists text,
        amount_text_of payment = Ok text
        /\ texts "CtrlSum" tree = [Some text; Some text]
        /\ texts "InstdAmt" tree = [Some text]
        /\ texts "RmtInf" tree
             = if truthy (remittance_info payment) then [None] else []
  | (Err e, _) => amount_text_of payment = Err e
  end.
Proof.
  unfold pain001_tree. run_monad.
  destruct (amount_text_of payment) as [text|e]; [| reflexivity].
  exists text. split; [reflexivity |].
  destruct (truthy (beneficiary_bic payment)), (truthy (remittance_info payment));
    repeat split; reflexivity.
Qed.

Lemma pain001_xml_tree_cases (payment : Payment) (w : World) :
  match pain001_xml_tree payment w with
  | (Ok tree, _) =>
      exists text,
        amount_text_xml payment = Ok text
        /\ texts "CtrlSum" tree = [Some text; Some text]
        /\ texts "InstdAmt" tree = [Some text]
        /\ texts "RmtInf" tree
             = if truthy (remittance_info payment) then [None] else []
  | (Err e, _) => amount_text_xml payment = Err e
  end.
Proof.
  unfold pain001_xml_tree. run_monad.
  destruct (amount_text_xml payment) as [text|e]; [| reflexivity].
  exists text. split; [reflexivity |].
  destruct (truthy (remittance_info payment)); repeat split; reflexivity.
Qed.

(** The amount step of [generate_pain001] is the formatter applied to
    the amount read as a decimal. *)
Lemma amount_text_of_read (payment : Payment) (v : amount_value) (d : Decimal) :
  amount payment = Some v -> to_Decimal v = Ok d ->
  amount_text_of payment = format_amount d (get_or (currency payment) "USD").
Proof.
  intros Hv Hd. unfold amount_text_of, amount_item.
  rewrite Hv. cbn [rbind]. rewrite Hd. reflexivity.
Qed.

Lemma amount_text_of_inv (payment : Payment) (text : string) :
  amount_text_of payment = Ok text ->
  exists v d,
    amount payment = Some v /\ to_Decimal v = Ok d
    /\ format_amount d (get_or (currency payment) "USD") = Ok text.
Proof.
  unfold amount_text_of, amount_item.
  destruct (amount payment) as [v|]; [| discriminate]. cbn [rbind].
  destruct (to_Decimal v) as [d|e] eqn:Hd; [| discriminate]. cbn [rbind].
  intros H. now exists v, d.
Qed.

(** The amount step of [generate_pain001_xml] is [format_decimal] on
    the stored [Decimal]. *)
Lemma amount_text_xml_read (payment : Payment) (d : Decimal) :
  amount payment = Some (AmountDecimal d) ->
  amount_text_xml payment = format_decimal d.
Proof.
  intros Hv. unfold amount_text_xml, amount_item. now rewrite Hv.
Qed.

Lemma amount_text_xml_inv (payment : Payment) (text : string) :
  amount_text_xml payment = Ok text ->
  exists d, amount payment = Some (AmountDecimal d) /\ format_decimal d = Ok text.
Proof.
  unfold amount_text_xml, amount_item.
  destruct (amount payment) as [[s|d]|]; cbn [rbind]; try discriminate.
  intros H. now exists d.
Qed.

Lemma distinct_twice (text : string) :
  distinct [Some text; Some text] = [Some text].
Proof. cbn. now rewrite String.eqb_refl. Qed.

Lemma pain001_tree_ok (payment : Payment) (text : string) (w : World) :
  amount_text_of payment = Ok text ->
  exists tree w', pain001_tree payment w = (Ok tree, w').
Proof.
  intros H. unfold pain001_tree. run_monad. rewrite H. eauto.
Qed.

Lemma pain001_xml_tree_ok (payment : Payment) (text : string) (w : World) :
  amount_text_xml payment = Ok text ->
  exists tree w', pain001_xml_tree payment w = (Ok tree, w').
Proof.
  intros H. unfold pain001_xml_tree. run_monad. rewrite H. eauto.
Qed.

(** *** The MT envelope *)

Lemma count_replace_char (a b : ascii) (s : string) :
  a <> b -> AmountSpec.count_char a (replace_char a b s) = 0.
Proof.
  intros Hab. induction s as [|c s IH]; [reflexivity |].
  unfold replace_char in *. cbn [map_chars AmountSpec.count_char].
  rewrite IH.
  destruct (Ascii.eqb_spec c a) as [->|Hc].
  - destruct (Ascii.eqb_spec b a); [congruence | reflexivity].
  - destruct (Ascii.eqb_spec c a); [congruence | reflexivity].
Qed.

(** [build_mt_message] has no failing step. *)
Lemma mt_message_lines_run (msg_type : string) (fields : pydict)
    (sender_info : SenderInfo) (reference : option string) (w : World) :
  mt_message_lines msg_type fields sender_info reference w
  = (Ok (app [ "{1:F01" ++ get_or (bic sender_info) "UNKNOWN" ++ "XXXX0000000000}";
               "{2:O" ++ msg_type ++ "1200" ++ get_or (bic sender_info) "UNKNOWN"
                 ++ "XXXX0000000000}";
               "{4:";
               ":20:" ++ mt_ref msg_type reference w ]
            (app (tag_lines fields) (sender_trailer sender_info))),
     if truthy reference then w else tick w).
Proof.
  unfold mt_message_lines, mt_ref. run_monad.
  destruct (truthy reference); reflexivity.
Qed.

Lemma build_mt_message_run (msg_type : string) (fields : pydict)
    (sender_info : SenderInfo) (reference : option string) (w : World) :
  build_mt_message msg_type fields sender_info reference w
  = (Ok (join nl
           (app [ "{1:F01" ++ get_or (bic sender_info) "UNKNOWN" ++ "XXXX0000000000}";
                  "{2:O" ++ msg_type ++ "1200" ++ get_or (bic sender_info) "UNKNOWN"
                    ++ "XXXX0000000000}";
                  "{4:";
                  ":20:" ++ mt_ref msg_type reference w ]
              (app (tag_lines fields) (sender_trailer sender_info)))),
     if truthy reference then w else tick w).
Proof.
  unfold build_mt_message, bind, ret. now rewrite mt_message_lines_run.
Qed.


(** *** Tag maps *)

Lemma dict_get_set (k k' v : string) (d : pydict) :
  Dict.get k (Dict.set k' v d) = if String.eqb k' k then Some v else Dict.get k d.
Proof.
  induction d as [|[k0 v0] d IH]; cbn [Dict.set Dict.get].
  - destruct (String.eqb k' k); reflexivity.
  - destruct (String.eqb_spec k0 k') as [->|Hne]; cbn [Dict.get].
    + destruct (String.eqb k' k); reflexivity.
    + rewrite IH.
      destruct (String.eqb_spec k0 k) as [->|Hk]; [| reflexivity].
      destruct (String.eqb_spec k' k) as [->|_]; [congruence | reflexivity].
Qed.

Lemma dict_get_absent (k : string) (d : pydict) :
  ~ In k (Dict.keys d) -> Dict.get k d = None.
Proof.
  induction d as [|[k0 v0] d IH]; cbn [Dict.get Dict.keys map fst In]; [reflexivity |].
  intros Hn. destruct (String.eqb_spec k0 k) as [->|_]; [tauto |].
  apply IH. tauto.
Qed.

(** [d.update(other)]: the caller's value where the caller has the key,
    the old value elsewhere. *)
Lemma dict_get_update (k : string) (other : pydict) :
  NoDup (Dict.keys other) ->
  forall d : pydict,
    Dict.get k (Dict.update d other)
    = match Dict.get k other with
      | Some v => Some v
      | None => Dict.get k d
      end.
Proof.
  unfold Dict.update.
  induction other as [|[k0 v0] other IH]; intros Hnd d; [reflexivity |].
  cbn [fold_left fst snd Dict.get].
  inversion Hnd as [|? ? Hnotin Hnd']; subst.
  rewrite (IH Hnd'), dict_get_set.
  destruct (String.eqb_spec k0 k) as [->|_]; [| reflexivity].
  now rewrite (dict_get_absent k other Hnotin).
Qed.

Lemma dict_keys_set (k v : string) (d : pydict) :
  forall k', In k' (Dict.keys (Dict.set k v d)) -> k' = k \/ In k' (Dict.keys d).
Proof.
  induction d as [|[k0 v0] d IH]; intros k'; cbn [Dict.set].
  - cbn. intros [H|[]]. left. congruence.
  - destruct (String.eqb_spec k0 k) as [->|_]; cbn [Dict.keys map fst In].
    + intros [H|H]; [left; congruence | right; right; exact H].
    + intros [H|H]; [right; left; exact H |].
      destruct (IH k' H) as [E|Hin]; [left; exact E | right; right; exact Hin].
Qed.

Lemma split_colon_leading (line : string) :
  String.prefix ":" line = true ->
  Ui.split_colon line = ("", Some (drop 1 line)).
Proof.
  destruct line as [|c r]; [discriminate |].
  cbn [String.prefix]. destruct (ascii_dec ":" c) as [<-|]; [| discriminate].
  reflexivity.
Qed.

(** The tag lines typed into the page all land under the one key [:]:
    the split is made at the colon that opens the line. *)
Lemma parse_mt_fields_keys (lines : list string) :
  forall k, In k (Dict.keys (Ui.parse_mt_fields lines)) -> k = ":".
Proof.
  unfold Ui.parse_mt_fields.
  assert (H : forall (acc : pydict),
             (forall k, In k (Dict.keys acc) -> k = ":") ->
             forall k,
               In k (Dict.keys
                       (fold_left
                          (fun acc raw =>
                             let line := strip raw in
                             if is_empty line then acc
                             else if String.prefix ":" line
                                     && Ui.has_colon (drop 1 line) then
                               match Ui.split_colon line with
                               | (tag, Some val) =>
                                   Dict.set (tag ++ ":") (strip val) acc
                               | (_, None) => acc
                               end
                             else acc)
                          lines acc)) -> k = ":").
  { induction lines as [|raw lines IH]; intros acc Hacc; [exact Hacc |].
    cbn [fold_left]. apply IH.
    destruct (is_empty (strip raw)); [exact Hacc |].
    destruct (String.prefix ":" (strip raw)) eqn:Hp; [| exact Hacc].
    destruct (Ui.has_colon (drop 1 (strip raw))); [| exact Hacc].
    cbn [andb]. rewrite (split_colon_leading _ Hp).
    intros k Hk. destruct (dict_keys_set _ _ _ _ Hk) as [->|Hin];
      [reflexivity | now apply Hacc]. }
  apply H. intros k [].
Qed.

Lemma free_text_tag_cases (msg_type tag : string) :
  Dict.get msg_type MtSpec.free_text_tags = Some tag ->
  (msg_type = "MT199" /\ tag = ":79:") \/ (msg_type = "MT799" /\ tag = ":79:")
  \/ (msg_type = "MT700" /\ tag = ":77B:") \/ (msg_type = "MT760" /\ tag = ":77U:").
Proof.
  unfold MtSpec.free_text_tags. cbn [Dict.get].
  destruct (String.eqb_spec "MT199" msg_type) as [<-|_]; [intros [= <-]; tauto |].
  destruct (String.eqb_spec "MT799" msg_type) as [<-|_]; [intros [= <-]; tauto |].
  destruct (String.eqb_spec "MT700" msg_type) as [<-|_]; [intros [= <-]; tauto |].
  destruct (String.eqb_spec "MT760" msg_type) as [<-|_]; [intros [= <-]; tauto |].
  discriminate.
Qed.

(** *** What a call leaves of the environment *)

Lemma keeps_ret {A} (a : A) : keeps_clock (ret a).
Proof. intros w. split; reflexivity. Qed.

Lemma keeps_lift {A} (r : result A) : keeps_clock (lift r).
Proof. intros w. split; reflexivity. Qed.

Lemma keeps_utcnow : keeps_clock utcnow.
Proof. intros w. split; reflexivity. Qed.

Lemma keeps_date_today : keeps_clock date_today.
Proof. intros w. split; reflexivity. Qed.

Lemma keeps_uuid4_str : keeps_clock uuid4_str.
Proof. intros w. split; reflexivity. Qed.

Lemma keeps_bind {A B} (c : M A) (k : A -> M B) :
  keeps_clock c -> (forall a, keeps_clock (k a)) -> keeps_clock (bind c k).
Proof.
  intros Hc Hk w. unfold bind.
  destruct (Hc w) as [H1 H2].
  destruct (c w) as [[a|e] w1]; cbn [snd] in *.
  - destruct (Hk a w1) as [H3 H4]. split; congruence.
  - split; assumption.
Qed.

Create HintDb clock.
#[local] Hint Resolve keeps_ret keeps_lift keeps_utcnow keeps_date_today
  keeps_uuid4_str : clock.

Ltac keeps_step :=
  first
    [ solve [auto with clock]
    | apply keeps_bind; [| intros ?]
    | match goal with
      | |- keeps_clock (match ?x with _ => _ end) => destruct x
      end ].

Lemma keeps_pain001_tree (payment : Payment) : keeps_clock (pain001_tree payment).
Proof. unfold pain001_tree. repeat keeps_step. Qed.

Lemma keeps_pain001_xml_tree (payment : Payment) :
  keeps_clock (pain001_xml_tree payment).
Proof. unfold pain001_xml_tree. repeat keeps_step. Qed.

(** After a call that keeps the clock, a clock that stands still gives
    the readings it gave before. *)
Lemma same_clock_after {A} (c : M A) (w : World) :
  keeps_clock c -> ClockSpec.frozen w -> ClockSpec.same_clock w (snd (c w)).
Proof.
  intros Hk Hf i. destruct (Hk w) as [-> ->]. apply Hf.
Qed.

(** *** The same readings, the same tree *)

Lemma pain001_tree_same_clock (payment : Payment) (w1 w2 : World) :
  reference payment <> None -> ClockSpec.same_clock w1 w2 ->
  run (pain001_tree payment) w1 = run (pain001_tree payment) w2.
Proof.
  intros Href Hclock.
  destruct (Hclock 0) as [H0 _]. destruct (Hclock 1) as [H1 _].
  cbn [Nat.add] in H0, H1.
  unfold pain001_tree. run_monad.
  cbn [tick draw utc_at today_at clock_reads uuid_at uuid_draws].
  destruct (reference payment) as [r|]; [| congruence].
  cbn [get_or].
  destruct (amount_text_of payment) as [text|e]; cbn [fst]; [| reflexivity].
  now rewrite H0, H1.
Qed.

Lemma pain001_xml_tree_same_clock (payment : Payment) (w1 w2 : World) :
  reference payment <> None -> ClockSpec.same_clock w1 w2 ->
  run (pain001_xml_tree payment) w1 = run (pain001_xml_tree payment) w2.
Proof.
  intros Href Hclock.
  destruct (Hclock 0) as [H0 _]. destruct (Hclock 1) as [H1 _].
  cbn [Nat.add] in H0, H1.
  unfold pain001_xml_tree. run_monad.
  cbn [tick draw utc_at today_at clock_reads uuid_at uuid_draws].
  destruct (reference payment) as [r|]; [| congruence].
  cbn [get_or].
  destruct (amount_text_xml payment) as [text|e]; cbn [fst]; [| reflexivity].
  now rewrite H0, H1.
Qed.

Lemma amount_text_single_line (payment : Payment) (text : string) :
  MtSpec.amount_well_formed payment = true ->
  amount_text_of payment = Ok text ->
  MtSpec.single_line text = true.
Proof.
  unfold MtSpec.amount_well_formed, amount_text_of, amount_item.
  destruct (amount payment) as [[s|d]|]; cbn [rbind to_Decimal]; intros Hwf H.
  - destruct (PyDecimal.of_string s) as [d|e] eqn:Hd; [| discriminate].
    cbn [rbind] in H.
    eapply LineFacts.format_amount_single_line; [| exact H].
    eapply LineFacts.of_string_well_formed; exact Hd.
  - eapply LineFacts.format_amount_single_line; [exact Hwf | exact H].
  - discriminate.
Qed.

(** *** The record built from a transaction *)

(** [payment_from_transaction] always returns, and the record it builds
    carries a reference, a value date, an amount and a remittance text
    (empty when none was given). *)
Lemma payment_from_transaction_total
    (acct name bacct bname : string) (amt : Decimal) (ccy : string)
    (vd rmt bic ref : option string) (w : World) :
  exists p,
    run (payment_from_transaction acct name bacct bname amt ccy vd rmt bic ref) w
      = Ok p
    /\ amount p = Some (AmountDecimal amt)
    /\ currency p = Some ccy
    /\ remittance_info p = Some (or_else rmt "")
    /\ (exists r, reference p = Some r)
    /\ (exists d, value_date p = Some d)
    /\ (truthy ref = true -> reference p = Some (get_or ref ""))
    /\ (truthy vd = true -> value_date p = Some (get_or vd "")).
Proof.
  unfold payment_from_transaction. run_monad.
  destruct (truthy vd) eqn:Hvd, (truthy ref) eqn:Href; cbn;
    eexists; (split; [reflexivity |]); cbn;
    repeat (split; try reflexivity; try (eexists; reflexivity);
            try discriminate; try (intros _; reflexivity)).
Qed.

(** *** The generators against the library parameters *)

Section Library.
Variable toprettyxml : string -> option string -> Element -> result string.
Variable fromisoformat : string -> option date.

(** [generate_mt103] either stops at the amount or collects the
    envelope, the reference and the default tags. *)
Lemma mt103_lines_cases (payment : Payment) (w : World) :
  match mt103_lines fromisoformat payment w with
  | (Ok lines, _) =>
      exists text,
        amount_text_of payment = Ok text
        /\ lines =
             app [ "{1:F01SWIFTSIMULATORXXXX0000000000}";
                   "{2:O1031200SWIFTSIMULATORXXXX0000000000}";
                   "{4:";
                   ":20:" ++ mt103_ref payment w ]
               (app (MtSpec.mt103_default_tags
                       (strftime_yymmdd (mt103_date fromisoformat payment w))
                       (get_or (currency payment) "USD") text
                       (get_or (ordering_name payment) "")
                       (get_or (ordering_account payment) "")
                       (get_or (beneficiary_name payment) "")
                       (get_or (beneficiary_account payment) "")
                       (get_or (remittance_info payment) ""))
                    [ "-}" ])
  | (Err e, _) => amount_text_of payment = Err e
  end.
Proof.
  unfold mt103_lines, amount_text_of, mt103_date, mt103_ref. run_monad.
  destruct (rbind (amount_item payment) to_Decimal) as [a|e]; [| reflexivity].
  cbn [rbind].
  destruct (fromisoformat _) as [d|];
    cbn [fst snd tick draw today_at clock_reads uuid_at uuid_draws];
    destruct (format_amount a (get_or (currency payment) "USD")) as [text|e];
    try reflexivity;
    exists text; (split; [reflexivity |]);
    unfold MtSpec.mt103_default_tags;
    destruct (is_empty (get_or (remittance_info payment) "")); reflexivity.
Qed.

Lemma mt103_lines_ok (payment : Payment) (text : string) (w : World) :
  amount_text_of payment = Ok text ->
  exists lines w', mt103_lines fromisoformat payment w = (Ok lines, w').
Proof.
  intros H. pose proof (mt103_lines_cases payment w) as Hc.
  destruct (mt103_lines fromisoformat payment w) as [[lines|e] w']; [eauto |].
  congruence.
Qed.

Lemma generate_mt103_run (payment : Payment) (w : World) :
  run (generate_mt103 fromisoformat payment) w
  = rbind (run (mt103_lines fromisoformat payment) w) (fun lines => Ok (join nl lines)).
Proof.
  unfold generate_mt103, run, bind, ret.
  destruct (mt103_lines fromisoformat payment w) as [[lines|e] w']; reflexivity.
Qed.

Lemma generate_pain001_run (payment : Payment) (w : World) :
  run (generate_pain001 toprettyxml payment) w
  = rbind (run (pain001_tree payment) w) (toprettyxml "  " (Some "utf-8")).
Proof.
  unfold generate_pain001, run, bind, lift.
  destruct (pain001_tree payment w) as [[tree|e] w']; reflexivity.
Qed.

Lemma generate_pain001_xml_run (payment : Payment) (w : World) :
  run (generate_pain001_xml toprettyxml payment) w
  = rbind (run (pain001_xml_tree payment) w) (toprettyxml "  " None).
Proof.
  unfold generate_pain001_xml, run, bind, lift.
  destruct (pain001_xml_tree payment w) as [[tree|e] w']; reflexivity.
Qed.

(** An amount the formatter refuses stops both generators of
    swift_messages.py with the formatter's exception. *)
Lemma amount_error_propagates (payment : Payment) (e : exn) (w : World) :
  amount_text_of payment = Err e ->
  run (generate_mt103 fromisoformat payment) w = Err e
  /\ run (generate_pain001 toprettyxml payment) w = Err e.
Proof.
  intros H. rewrite generate_mt103_run, generate_pain001_run. unfold run.
  pose proof (mt103_lines_cases payment w) as H1.
  pose proof (pain001_tree_cases payment w) as H2.
  destruct (mt103_lines fromisoformat payment w) as [[lines|e1] w1];
    destruct (pain001_tree payment w) as [[tree|e2] w2]; cbn [fst rbind].
  - destruct H1 as (text & H1 & _). congruence.
  - destruct H1 as (text & H1 & _). congruence.
  - destruct H2 as (text & H2 & _). congruence.
  - split; congruence.
Qed.

Lemma keeps_mt103_lines (payment : Payment) :
  keeps_clock (mt103_lines fromisoformat payment).
Proof. unfold mt103_lines. repeat keeps_step. Qed.

Lemma keeps_generate_mt103 (payment : Payment) :
  keeps_clock (generate_mt103 fromisoformat payment).
Proof.
  unfold generate_mt103. apply keeps_bind; [apply keeps_mt103_lines |].
  intros lines. apply keeps_ret.
Qed.

Lemma keeps_generate_pain001 (payment : Payment) :
  keeps_clock (generate_pain001 toprettyxml payment).
Proof.
  unfold generate_pain001. apply keeps_bind; [apply keeps_pain001_tree |].
  intros tree. apply keeps_lift.
Qed.

Lemma keeps_generate_pain001_xml (payment : Payment) :
  keeps_clock (generate_pain001_xml toprettyxml payment).
Proof.
  unfold generate_pain001_xml. apply keeps_bind; [apply keeps_pain001_xml_tree |].
  intros tree. apply keeps_lift.
Qed.

Lemma mt103_lines_run (payment : Payment) (w : World) :
  run (mt103_lines fromisoformat payment) w
  = rbind (amount_text_of payment)
      (fun text =>
         Ok (app [ "{1:F01SWIFTSIMULATORXXXX0000000000}";
                   "{2:O1031200SWIFTSIMULATORXXXX0000000000}";
                   "{4:";
                   ":20:" ++ mt103_ref payment w ]
               (app (MtSpec.mt103_default_tags
                       (strftime_yymmdd (mt103_date fromisoformat payment w))
                       (get_or (currency payment) "USD") text
                       (get_or (ordering_name payment) "")
                       (get_or (ordering_account payment) "")
                       (get_or (beneficiary_name payment) "")
                       (get_or (beneficiary_account payment) "")
                       (get_or (remittance_info payment) ""))
                    [ "-}" ]))).
Proof.
  pose proof (mt103_lines_cases payment w) as H. unfold run.
  destruct (mt103_lines fromisoformat payment w) as [[lines|e] w']; cbn [fst].
  - destruct H as (text & -> & ->). reflexivity.
  - rewrite H. reflexivity.
Qed.

Lemma mt103_same_clock (payment : Payment) (w1 w2 : World) :
  reference payment <> None -> ClockSpec.same_clock w1 w2 ->
  run (generate_mt103 fromisoformat payment) w1 = run (generate_mt103 fromisoformat payment) w2.
Proof.
  intros Href Hclock.
  rewrite !generate_mt103_run, !mt103_lines_run.
  assert (E1 : mt103_ref payment w1 = mt103_ref payment w2).
  { unfold mt103_ref. destruct (reference payment); [reflexivity | congruence]. }
  assert (E2 : mt103_date fromisoformat payment w1 = mt103_date fromisoformat payment w2).
  { unfold mt103_date.
    destruct (Hclock 0) as [_ H0]. destruct (Hclock 1) as [_ H1].
    cbn [Nat.add] in H0, H1. now rewrite H0, H1. }
  now rewrite E1, E2.
Qed.

Lemma encoders_same_clock (payment : Payment) (w1 w2 : World) :
  reference payment <> None -> ClockSpec.same_clock w1 w2 ->
  run (generate_mt103 fromisoformat payment) w1 = run (generate_mt103 fromisoformat payment) w2
  /\ run (generate_pain001 toprettyxml payment) w1
     = run (generate_pain001 toprettyxml payment) w2
  /\ run (generate_pain001_xml toprettyxml payment) w1
     = run (generate_pain001_xml toprettyxml payment) w2.
Proof.
  intros Href Hclock.
  split; [now apply mt103_same_clock |].
  rewrite !generate_pain001_run, !generate_pain001_xml_run.
  rewrite (pain001_tree_same_clock payment w1 w2 Href Hclock).
  rewrite (pain001_xml_tree_same_clock payment w1 w2 Href Hclock).
  split; reflexivity.
Qed.

(** With one-line fields the text splits back into the lines that were
    collected. *)
Lemma generate_mt103_lines (payment : Payment) (w w' : World) (text : string) :
  generate_mt103 fromisoformat payment w = (Ok text, w') ->
  MtSpec.single_line_fields payment = true ->
  MtSpec.single_line (mt103_ref payment w) = true ->
  MtSpec.amount_well_formed payment = true ->
  exists lines,
    mt103_lines fromisoformat payment w = (Ok lines, w') /\ split_nl text = lines.
Proof.
  intros Hrun Hfields Href Hwf.
  unfold generate_mt103, bind, ret in Hrun.
  pose proof (mt103_lines_cases payment w) as Hc.
  destruct (mt103_lines fromisoformat payment w) as [[lines|e] w1]; [| discriminate].
  injection Hrun as <- <-.
  exists lines. split; [reflexivity |].
  destruct Hc as (amt & Hamt & ->).
  pose proof (amount_text_single_line payment amt Hwf Hamt) as Ha.
  unfold MtSpec.single_line_fields in Hfields.
  repeat (apply andb_true_iff in Hfields as [Hfields ?]).
  apply LineFacts.split_nl_join; [discriminate |].
  unfold MtSpec.mt103_default_tags.
  destruct (is_empty (get_or (remittance_info payment) ""));
    cbn [app forallb];
    rewrite ?LineFacts.single_line_append,
            ?LineFacts.strftime_yymmdd_single_line,
            ?LineFacts.replace_lf_single_line;
    repeat match goal with
           | H : MtSpec.single_line _ = true |- _ => rewrite H; clear H
           end;
    reflexivity.
Qed.

End Library.

End RunFacts.


(** * The properties of the specification *)

Import PyStr Digits PyDecimal AmountSpec.

(** ** The amount formatter *)

(** C1 (as amended).  For every finite decimal amount whose value rounded
    to hundredths has at most 28 digits, [format_amount] and
    [format_decimal] return the text of that rounded value: an optional
    minus sign, the integer part without padding, exactly one point and
    exactly two digits, no other character, the digits being those of the
    rounded number of hundredths; the rounding is to the nearest
    hundredth with a tie going away from zero.  Beyond 28 digits both
    raise InvalidOperation.  In particular 1234.5, 1234.565 and 1234.005
    give 1234.50, 1234.57 and 1234.01. *)
Theorem format_amount_two_decimals_half_up :
  (forall (sign : bool) (c : N) (e : Z) (currency : string),
      (half_up_cents c e < 10 ^ 28)%N ->
      let q := half_up_cents c e in
      let text := render_cents sign q in
      format_amount (Finite sign c e) currency = Ok text
      /\ format_decimal (Finite sign c e) = Ok text
      /\ plain_two_decimals text = true
      /\ count_char "." text = 1
      /\ (exists intpart fracpart,
            text = sign_str sign ++ intpart ++ "." ++ fracpart
            /\ String.length fracpart = 2
            /\ int_of (intpart ++ fracpart) = q)
      /\ ((-2 <= e)%Z -> q = (c * 10 ^ Z.to_N (e + 2))%N)
      /\ ((e < -2)%Z ->
            let k := Z.to_N (-2 - e) in
            (2 * q * 10 ^ k <= 2 * c + 10 ^ k
             /\ 2 * c + 10 ^ k < 2 * (q + 1) * 10 ^ k)%N))
  /\ (forall (sign : bool) (c : N) (e : Z) (currency : string),
        (10 ^ 28 <= half_up_cents c e)%N ->
        format_amount (Finite sign c e) currency = Err InvalidOperation
        /\ format_decimal (Finite sign c e) = Err InvalidOperation)
  /\ rbind (of_string "1234.5") (fun a => format_amount a "USD") = Ok "1234.50"
  /\ rbind (of_string "1234.565") (fun a => format_amount a "USD") = Ok "1234.57"
  /\ rbind (of_string "1234.005") (fun a => format_amount a "USD") = Ok "1234.01".
Proof.
  split; [| split; [| split; [| split]; vm_compute; reflexivity]].
  - intros sign c e currency Hfit q text.
    assert (Hfmt : format_amount (Finite sign c e) currency = Ok text).
    { rewrite PyDecimalFacts.format_amount_finite.
      apply N.ltb_lt in Hfit. now rewrite Hfit. }
    split; [exact Hfmt |].
    split; [exact Hfmt |].
    split; [apply PyDecimalFacts.render_cents_shape |].
    split; [apply PyDecimalFacts.render_cents_one_point |].
    split.
    { eexists _, _. split; [reflexivity |].
      split; [reflexivity | apply PyDecimalFacts.render_cents_value]. }
    split.
    + apply PyDecimalFacts.half_up_cents_exact.
    + apply PyDecimalFacts.half_up_cents_nearest.
  - intros sign c e currency Hbig.
    assert (Hfmt : format_amount (Finite sign c e) currency = Err InvalidOperation).
    { rewrite PyDecimalFacts.format_amount_finite.
      apply N.ltb_ge in Hbig. now rewrite Hbig. }
    split; exact Hfmt.
Qed.

(** The amended C1 at the amount 2.675. *)
Lemma format_amount_two_decimals_half_up_witness :
  format_amount (Finite false 2675 (-3)) "EUR" = Ok "2.68".
Proof.
  assert (Hfit : (half_up_cents 2675 (-3) < 10 ^ 28)%N) by (vm_compute; reflexivity).
  exact (proj1 (proj1 format_amount_two_decimals_half_up false 2675%N (-3)%Z "EUR" Hfit)).
Defined.

(** C1 as stated fails: 1E+26 is an exact decimal, and the formatter
    returns no text for it. *)
Lemma format_amount_rejects_1e26 :
  of_string "1E+26" = Ok (Finite false 1 26)
  /\ format_amount (Finite false 1 26) "USD" = Err InvalidOperation
  /\ ~ (exists text, format_amount (Finite false 1 26) "USD" = Ok text).
Proof.
  assert (H : format_amount (Finite false 1 26) "USD" = Err InvalidOperation)
    by (vm_compute; reflexivity).
  split; [vm_compute; reflexivity |].
  split; [exact H |].
  intros [text Ht]. rewrite H in Ht. discriminate.
Qed.

(** C10.  The currency argument of [format_amount] has no influence on
    the text, which is also the text of [format_decimal]; so two payment
    records with the same amount have the same amount text whatever
    their currency fields hold, and the amount on the [:32A:] line of
    [generate_mt103] is the amount in [InstdAmt] of [generate_pain001]
    for the same record. *)
Theorem format_amount_ignores_currency :
  (forall (a : Decimal) (c1 c2 : string),
      format_amount a c1 = format_amount a c2
      /\ format_amount a c1 = format_decimal a)
  /\ (forall p1 p2 : Payment,
        amount p1 = amount p2 ->
        amount_text_of p1 = amount_text_of p2
        /\ amount_text_xml p1 = amount_text_xml p2)
  /\ (forall (fromisoformat : string -> option date) (payment : Payment)
             (w1 w1' w2 w2' : World) (lines : list string) (tree : Element),
        mt103_lines fromisoformat payment w1 = (Ok lines, w1') ->
        pain001_tree payment w2 = (Ok tree, w2') ->
        exists text,
          In (":32A:"
                ++ PyTime.strftime_yymmdd (Readings.mt103_date fromisoformat payment w1)
                ++ get_or (currency payment) "USD" ++ text) lines
          /\ Xml.texts "InstdAmt" tree = [Some text]
          /\ Xml.texts "CtrlSum" tree = [Some text; Some text]).
Proof.
  split; [| split].
  - intros a c1 c2. split; reflexivity.
  - intros p1 p2 Hamt.
    unfold amount_text_of, amount_text_xml, amount_item. rewrite Hamt.
    split; [| reflexivity].
    destruct (amount p2) as [v|]; [| reflexivity]. cbn [rbind].
    destruct (to_Decimal v) as [d|e]; reflexivity.
  - intros fromisoformat payment w1 w1' w2 w2' lines tree Hl Ht.
    pose proof (RunFacts.mt103_lines_cases fromisoformat payment w1) as H1.
    pose proof (RunFacts.pain001_tree_cases payment w2) as H2.
    rewrite Hl in H1. rewrite Ht in H2.
    destruct H1 as (text & Hamt & ->).
    destruct H2 as (text' & Hamt' & Hctrl & Hinstd & _).
    assert (text' = text) by congruence. subst text'.
    exists text. split; [| split; assumption].
    cbn. tauto.
Qed.

(** C10 at two records of 1500.5 with different currency texts. *)
Lemma format_amount_ignores_currency_witness :
  amount_text_of (Sample.payment "1500.5" "")
  = amount_text_of
      {| ordering_account := None; ordering_name := None;
         beneficiary_account := None; beneficiary_name := None;
         amount := Some (AmountText "1500.5");
         currency := Some "not a currency";
         value_date := None; remittance_info := None;
         beneficiary_bic := None; reference := None |}.
Proof.
  apply (proj1 (proj2 format_amount_ignores_currency)).
  reflexivity.
Defined.

(** ** The pain.001 document *)

Section XmlDocument.
Import Xml.
Variable toprettyxml : string -> option string -> Element -> result string.

(** C2 (as amended).  Let [d] be the amount of a payment record read as
    a decimal.  When [format_amount d] returns a text,
    [generate_pain001] builds a document and hands back its
    serialization; both [CtrlSum] elements and [InstdAmt] of that
    document carry this text, so the document has one distinct [CtrlSum]
    value.  When [format_amount d] raises, [generate_pain001] raises the
    same exception and there is no document.  The same holds of
    [generate_pain001_xml] and [format_decimal] for an amount stored as
    a [Decimal]; an amount stored as text stops that generator with
    AttributeError.  For a finite amount the text is the amount rounded
    half up to hundredths when that has at most 28 digits, and beyond
    28 digits the exception is InvalidOperation.  Every document that is
    built carries the formatted amount of its record in this way. *)
Theorem pain001_ctrl_sum_is_instd_amt :
  (forall (payment : Payment) (v : amount_value) (d : Decimal) (w : World),
      amount payment = Some v ->
      to_Decimal v = Ok d ->
      (forall text : string,
          format_amount d (get_or (currency payment) "USD") = Ok text ->
          exists tree w',
            pain001_tree payment w = (Ok tree, w')
            /\ generate_pain001 toprettyxml payment w
                 = (toprettyxml "  " (Some "utf-8") tree, w')
            /\ texts "CtrlSum" tree = [Some text; Some text]
            /\ distinct (texts "CtrlSum" tree) = [Some text]
            /\ texts "InstdAmt" tree = [Some text])
      /\ (forall e : exn,
            format_amount d (get_or (currency payment) "USD") = Err e ->
            run (generate_pain001 toprettyxml payment) w = Err e))
  /\ (forall (payment : Payment) (d : Decimal) (w : World),
        amount payment = Some (AmountDecimal d) ->
        (forall text : string,
            format_decimal d = Ok text ->
            exists tree w',
              pain001_xml_tree payment w = (Ok tree, w')
              /\ generate_pain001_xml toprettyxml payment w
                   = (toprettyxml "  " None tree, w')
              /\ texts "CtrlSum" tree = [Some text; Some text]
              /\ distinct (texts "CtrlSum" tree) = [Some text]
              /\ texts "InstdAmt" tree = [Some text])
        /\ (forall e : exn,
              format_decimal d = Err e ->
              run (generate_pain001_xml toprettyxml payment) w = Err e))
  /\ (forall (payment : Payment) (s : string) (w : World),
        amount payment = Some (AmountText s) ->
        run (generate_pain001_xml toprettyxml payment) w = Err AttributeError)
  /\ (forall (payment : Payment) (v : amount_value)
             (sign : bool) (c : N) (e : Z) (w : World),
        amount payment = Some v ->
        to_Decimal v = Ok (Finite sign c e) ->
        let q := half_up_cents c e in
        ((q < 10 ^ 28)%N ->
           exists tree w',
             pain001_tree payment w = (Ok tree, w')
             /\ distinct (texts "CtrlSum" tree) = [Some (render_cents sign q)]
             /\ texts "InstdAmt" tree = [Some (render_cents sign q)])
        /\ ((10 ^ 28 <= q)%N ->
              run (generate_pain001 toprettyxml payment) w = Err InvalidOperation))
  /\ (forall (payment : Payment) (sign : bool) (c : N) (e : Z) (w : World),
        amount payment = Some (AmountDecimal (Finite sign c e)) ->
        let q := half_up_cents c e in
        ((q < 10 ^ 28)%N ->
           exists tree w',
             pain001_xml_tree payment w = (Ok tree, w')
             /\ distinct (texts "CtrlSum" tree) = [Some (render_cents sign q)]
             /\ texts "InstdAmt" tree = [Some (render_cents sign q)])
        /\ ((10 ^ 28 <= q)%N ->
              run (generate_pain001_xml toprettyxml payment) w = Err InvalidOperation))
  /\ (forall (payment : Payment) (w w' : World) (tree : Element),
        pain001_tree payment w = (Ok tree, w') ->
        exists v d text,
          amount payment = Some v
          /\ to_Decimal v = Ok d
          /\ format_amount d (get_or (currency payment) "USD") = Ok text
          /\ distinct (texts "CtrlSum" tree) = [Some text]
          /\ texts "InstdAmt" tree = [Some text])
  /\ (forall (payment : Payment) (w w' : World) (tree : Element),
        pain001_xml_tree payment w = (Ok tree, w') ->
        exists d text,
          amount payment = Some (AmountDecimal d)
          /\ format_decimal d = Ok text
          /\ distinct (texts "CtrlSum" tree) = [Some text]
          /\ texts "InstdAmt" tree = [Some text]).
Proof.
  (* generate_pain001, from the outcome of its amount step *)
  assert (Hok : forall (payment : Payment) (text : string) (w : World),
             amount_text_of payment = Ok text ->
             exists tree w',
               pain001_tree payment w = (Ok tree, w')
               /\ generate_pain001 toprettyxml payment w
                    = (toprettyxml "  " (Some "utf-8") tree, w')
               /\ texts "CtrlSum" tree = [Some text; Some text]
               /\ distinct (texts "CtrlSum" tree) = [Some text]
               /\ texts "InstdAmt" tree = [Some text]).
  { intros payment text w Hamt.
    destruct (RunFacts.pain001_tree_ok payment text w Hamt) as (tree & w' & Ht).
    pose proof (RunFacts.pain001_tree_cases payment w) as Hc. rewrite Ht in Hc.
    destruct Hc as (text' & Hamt' & Hctrl & Hinstd & _).
    assert (text' = text) by congruence. subst text'.
    exists tree, w'. split; [exact Ht |].
    split; [unfold generate_pain001, bind, lift; now rewrite Ht |].
    split; [exact Hctrl |].
    split; [rewrite Hctrl; apply RunFacts.distinct_twice | exact Hinstd]. }
  assert (Herr : forall (payment : Payment) (e : exn) (w : World),
             amount_text_of payment = Err e ->
             run (generate_pain001 toprettyxml payment) w = Err e).
  { intros payment e w Hamt.
    rewrite RunFacts.generate_pain001_run. unfold run.
    pose proof (RunFacts.pain001_tree_cases payment w) as Hc.
    destruct (pain001_tree payment w) as [[tree|e'] w']; cbn [fst rbind].
    - destruct Hc as (text & Hc & _). congruence.
    - congruence. }
  (* generate_pain001_xml, likewise *)
  assert (Hokx : forall (payment : Payment) (text : string) (w : World),
             amount_text_xml payment = Ok text ->
             exists tree w',
               pain001_xml_tree payment w = (Ok tree, w')
               /\ generate_pain001_xml toprettyxml payment w
                    = (toprettyxml "  " None tree, w')
               /\ texts "CtrlSum" tree = [Some text; Some text]
               /\ distinct (texts "CtrlSum" tree) = [Some text]
               /\ texts "InstdAmt" tree = [Some text]).
  { intros payment text w Hamt.
    destruct (RunFacts.pain001_xml_tree_ok payment text w Hamt) as (tree & w' & Ht).
    pose proof (RunFacts.pain001_xml_tree_cases payment w) as Hc. rewrite Ht in Hc.
    destruct Hc as (text' & Hamt' & Hctrl & Hinstd & _).
    assert (text' = text) by congruence. subst text'.
    exists tree, w'. split; [exact Ht |].
    split; [unfold generate_pain001_xml, bind, lift; now rewrite Ht |].
    split; [exact Hctrl |].
    split; [rewrite Hctrl; apply RunFacts.distinct_twice | exact Hinstd]. }
  assert (Herrx : forall (payment : Payment) (e : exn) (w : World),
             amount_text_xml payment = Err e ->
             run (generate_pain001_xml toprettyxml payment) w = Err e).
  { intros payment e w Hamt.
    rewrite RunFacts.generate_pain001_xml_run. unfold run.
    pose proof (RunFacts.pain001_xml_tree_cases payment w) as Hc.
    destruct (pain001_xml_tree payment w) as [[tree|e'] w']; cbn [fst rbind].
    - destruct Hc as (text & Hc & _). congruence.
    - congruence. }
  split; [| split; [| split; [| split; [| split; [| split]]]]].
  - intros payment v d w Hv Hd.
    pose proof (RunFacts.amount_text_of_read payment v d Hv Hd) as Hread.
    split.
    + intros text Hfmt. apply Hok. now rewrite Hread.
    + intros e Hfmt. apply Herr. now rewrite Hread.
  - intros payment d w Hv.
    pose proof (RunFacts.amount_text_xml_read payment d Hv) as Hread.
    split.
    + intros text Hfmt. apply Hokx. now rewrite Hread.
    + intros e Hfmt. apply Herrx. now rewrite Hread.
  - intros payment s w Hv. apply Herrx.
    unfold amount_text_xml, amount_item. now rewrite Hv.
  - intros payment v sign c e w Hv Hd q.
    pose proof (RunFacts.amount_text_of_read payment v _ Hv Hd) as Hread.
    rewrite PyDecimalFacts.format_amount_finite in Hread. fold q in Hread.
    split.
    + intros Hq. apply N.ltb_lt in Hq. rewrite Hq in Hread.
      destruct (Hok payment _ w Hread) as (tree & w' & Ht & _ & _ & Hd1 & Hi).
      now exists tree, w'.
    + intros Hq. apply N.ltb_ge in Hq. rewrite Hq in Hread.
      now apply Herr.
  - intros payment sign c e w Hv q.
    pose proof (RunFacts.amount_text_xml_read payment _ Hv) as Hread.
    change (format_decimal (Finite sign c e))
      with (format_amount (Finite sign c e) "") in Hread.
    rewrite PyDecimalFacts.format_amount_finite in Hread. fold q in Hread.
    split.
    + intros Hq. apply N.ltb_lt in Hq. rewrite Hq in Hread.
      destruct (Hokx payment _ w Hread) as (tree & w' & Ht & _ & _ & Hd1 & Hi).
      now exists tree, w'.
    + intros Hq. apply N.ltb_ge in Hq. rewrite Hq in Hread.
      now apply Herrx.
  - intros payment w w' tree Ht.
    pose proof (RunFacts.pain001_tree_cases payment w) as Hc. rewrite Ht in Hc.
    destruct Hc as (text & Hamt & Hctrl & Hinstd & _).
    destruct (RunFacts.amount_text_of_inv payment text Hamt) as (v & d & Hv & Hd & Hf).
    exists v, d, text. repeat (split; [assumption |]).
    split; [rewrite Hctrl; apply RunFacts.distinct_twice | exact Hinstd].
  - intros payment w w' tree Ht.
    pose proof (RunFacts.pain001_xml_tree_cases payment w) as Hc. rewrite Ht in Hc.
    destruct Hc as (text & Hamt & Hctrl & Hinstd & _).
    destruct (RunFacts.amount_text_xml_inv payment text Hamt) as (d & Hv & Hf).
    exists d, text. repeat (split; [assumption |]).
    split; [rewrite Hctrl; apply RunFacts.distinct_twice | exact Hinstd].
Qed.

End XmlDocument.

(** The amended C2 at three records: 1500.5 as text in
    [generate_pain001], -1234.565 as a [Decimal] in
    [generate_pain001_xml], and 0.005 as text, where the rounded text is
    given by the rule of the formatter. *)
Lemma pain001_ctrl_sum_is_instd_amt_witness :
  (exists tree w',
     pain001_tree (Sample.payment "1500.5" "INVOICE 42") Sample.world = (Ok tree, w')
     /\ generate_pain001 MiniDom.toprettyxml (Sample.payment "1500.5" "INVOICE 42")
          Sample.world
          = (MiniDom.toprettyxml "  " (Some "utf-8") tree, w')
     /\ Xml.texts "CtrlSum" tree = [Some "1500.50"; Some "1500.50"]
     /\ Xml.distinct (Xml.texts "CtrlSum" tree) = [Some "1500.50"]
     /\ Xml.texts "InstdAmt" tree = [Some "1500.50"])
  /\ (exists tree w',
        pain001_xml_tree (Sample.decimal_payment (Finite true 1234565 (-3)) "")
          Sample.later_world = (Ok tree, w')
        /\ generate_pain001_xml MiniDom.toprettyxml
             (Sample.decimal_payment (Finite true 1234565 (-3)) "") Sample.later_world
             = (MiniDom.toprettyxml "  " None tree, w')
        /\ Xml.texts "CtrlSum" tree = [Some "-1234.57"; Some "-1234.57"]
        /\ Xml.distinct (Xml.texts "CtrlSum" tree) = [Some "-1234.57"]
        /\ Xml.texts "InstdAmt" tree = [Some "-1234.57"])
  /\ (exists tree w',
        pain001_tree (Sample.payment "0.005" "") Sample.world = (Ok tree, w')
        /\ Xml.distinct (Xml.texts "CtrlSum" tree) = [Some "0.01"]
        /\ Xml.texts "InstdAmt" tree = [Some "0.01"]).
Proof.
  split; [| split].
  - apply (proj1 (proj1 (pain001_ctrl_sum_is_instd_amt MiniDom.toprettyxml)
                    (Sample.payment "1500.5" "INVOICE 42")
                    (AmountText "1500.5") (Finite false 15005 (-1)) Sample.world
                    eq_refl ltac:(vm_compute; reflexivity))).
    vm_compute. reflexivity.
  - apply (proj1 (proj1 (proj2 (pain001_ctrl_sum_is_instd_amt MiniDom.toprettyxml))
                    (Sample.decimal_payment (Finite true 1234565 (-3)) "")
                    (Finite true 1234565 (-3)) Sample.later_world eq_refl)).
    vm_compute. reflexivity.
  - apply (proj1 (proj1 (proj2 (proj2 (proj2
                    (pain001_ctrl_sum_is_instd_amt MiniDom.toprettyxml))))
                    (Sample.payment "0.005" "") (AmountText "0.005")
                    false 5%N (-3)%Z Sample.world
                    eq_refl ltac:(vm_compute; reflexivity))).
    vm_compute. reflexivity.
Defined.

(** C2 as stated fails: 1E+26 and Infinity are read as decimals, and
    for a record with such an amount neither generator produces a
    document, so there is no [CtrlSum] value at all. *)
Lemma pain001_no_document_for_1e26 :
  to_Decimal (AmountText "1E+26") = Ok (Finite false 1 26)
  /\ to_Decimal (AmountText "Infinity") = Ok (Infinite false)
  /\ (forall (toprettyxml : string -> option string -> Element -> result string)
             (w : World),
        run (generate_pain001 toprettyxml (Sample.payment "1E+26" "INVOICE 42")) w
        = Err InvalidOperation
        /\ run (generate_pain001 toprettyxml (Sample.payment "Infinity" "INVOICE 42")) w
           = Err InvalidOperation
        /\ run (generate_pain001_xml toprettyxml
                  (Sample.decimal_payment (Finite false 1 26) "INVOICE 42")) w
           = Err InvalidOperation
        /\ run (generate_pain001_xml toprettyxml
                  (Sample.decimal_payment (Infinite false) "INVOICE 42")) w
           = Err InvalidOperation)
  /\ ~ (exists text,
          run (generate_pain001 MiniDom.toprettyxml (Sample.payment "1E+26" "INVOICE 42"))
            Sample.world = Ok text).
Proof.
  assert (H : forall (toprettyxml : string -> option string -> Element -> result string)
                     (w : World),
             run (generate_pain001 toprettyxml (Sample.payment "1E+26" "INVOICE 42")) w
             = Err InvalidOperation).
  { intros toprettyxml w. rewrite RunFacts.generate_pain001_run. reflexivity. }
  split; [vm_compute; reflexivity |].
  split; [vm_compute; reflexivity |].
  split.
  - intros toprettyxml w.
    split; [apply H |].
    split; [rewrite RunFacts.generate_pain001_run; reflexivity |].
    split; rewrite RunFacts.generate_pain001_xml_run; reflexivity.
  - intros [text Ht]. rewrite H in Ht. discriminate.
Qed.

(** ** Remittance information *)

Section Remittance.
Variable fromisoformat : string -> option date.

(** C7 (as amended).  Among the lines [generate_mt103] collects there
    is one with the tag [:70:] exactly when [remittance_info] is not
    empty; that line is the tag followed by the remittance text with
    every line feed replaced by a blank, so it holds no line feed.  The
    text handed back always has that line among its lines when
    [remittance_info] is not empty.  The other fields are copied as they
    are: when the currency, the names, the accounts and the reference
    hold no line feed, the lines of the text are the lines collected,
    so the text has a [:70:] line only when [remittance_info] is not
    empty, and no other [:70:] line than that one.  The document
    [generate_pain001] builds has an [RmtInf] element exactly when
    [remittance_info] is not empty.  Both generators produce their
    output for every record whose amount the formatter accepts. *)
Theorem remittance_emitted_iff_present :
  (forall (payment : Payment) (w w' : World) (lines : list string),
      mt103_lines fromisoformat payment w = (Ok lines, w') ->
      let remittance := get_or (remittance_info payment) "" in
      ((exists line, In line lines /\ MtSpec.has_tag ":70:" line = true)
         <-> remittance <> "")
      /\ (forall line,
            In line lines -> MtSpec.has_tag ":70:" line = true ->
            line = ":70:" ++ replace_char MtSpec.LF " " remittance
            /\ count_char MtSpec.LF line = 0))
  /\ (forall (payment : Payment) (w w' : World) (tree : Element),
        pain001_tree payment w = (Ok tree, w') ->
        (Xml.iter "RmtInf" tree <> [] <-> get_or (remittance_info payment) "" <> ""))
  /\ (forall (payment : Payment) (v : amount_value) (d : Decimal)
             (amount_text : string) (w : World),
        amount payment = Some v ->
        to_Decimal v = Ok d ->
        format_amount d (get_or (currency payment) "USD") = Ok amount_text ->
        (exists lines w', mt103_lines fromisoformat payment w = (Ok lines, w')
                          /\ generate_mt103 fromisoformat payment w = (Ok (join nl lines), w'))
        /\ (exists tree w', pain001_tree payment w = (Ok tree, w')))
  /\ (forall (payment : Payment) (w w' : World) (text : string),
        generate_mt103 fromisoformat payment w = (Ok text, w') ->
        get_or (remittance_info payment) "" <> "" ->
        In (":70:" ++ replace_char MtSpec.LF " " (get_or (remittance_info payment) ""))
           (split_nl text))
  /\ (forall (payment : Payment) (w w' : World) (text : string),
        generate_mt103 fromisoformat payment w = (Ok text, w') ->
        MtSpec.single_line_fields payment = true ->
        MtSpec.single_line (Readings.mt103_ref payment w) = true ->
        MtSpec.amount_well_formed payment = true ->
        let remittance := get_or (remittance_info payment) "" in
        ((exists line, In line (split_nl text) /\ MtSpec.has_tag ":70:" line = true)
           <-> remittance <> "")
        /\ (forall line,
              In line (split_nl text) -> MtSpec.has_tag ":70:" line = true ->
              line = ":70:" ++ replace_char MtSpec.LF " " remittance)).
Proof.
  assert (Hlines :
    forall (payment : Payment) (w w' : World) (lines : list string),
      mt103_lines fromisoformat payment w = (Ok lines, w') ->
      let remittance := get_or (remittance_info payment) "" in
      ((exists line, In line lines /\ MtSpec.has_tag ":70:" line = true)
         <-> remittance <> "")
      /\ (forall line,
            In line lines -> MtSpec.has_tag ":70:" line = true ->
            line = ":70:" ++ replace_char MtSpec.LF " " remittance
            /\ count_char MtSpec.LF line = 0));
  [| split; [exact Hlines | split; [| split; [| split]]]].
  - intros payment w w' lines Hrun remittance.
    pose proof (RunFacts.mt103_lines_cases fromisoformat payment w) as Hc. rewrite Hrun in Hc.
    destruct Hc as (text & _ & ->).
    fold remittance. unfold MtSpec.mt103_default_tags, MtSpec.has_tag.
    assert (Hline : forall line,
      In line
        (app ["{1:F01SWIFTSIMULATORXXXX0000000000}";
              "{2:O1031200SWIFTSIMULATORXXXX0000000000}"; "{4:";
              ":20:" ++ Readings.mt103_ref payment w]
           (app (app [":23B:CRED";
                      ":32A:" ++ PyTime.strftime_yymmdd (Readings.mt103_date fromisoformat payment w)
                        ++ get_or (currency payment) "USD" ++ text;
                      ":50K:" ++ get_or (ordering_name payment) "" ++ " /"
                        ++ get_or (ordering_account payment) "";
                      ":59:" ++ get_or (beneficiary_name payment) "" ++ " /"
                        ++ get_or (beneficiary_account payment) ""]
                   (app (if is_empty remittance then []
                         else [":70:" ++ replace_char MtSpec.LF " " remittance])
                        [":71A:SHA"]))
              ["-}"])) ->
      String.prefix ":70:" line = true ->
      is_empty remittance = false
      /\ line = ":70:" ++ replace_char MtSpec.LF " " remittance).
    { intros line Hin Hp.
      destruct (is_empty remittance); cbn [app In] in Hin;
        repeat (destruct Hin as [<-|Hin]; [try discriminate Hp |]);
        try contradiction.
      split; reflexivity. }
    split; [split |].
    + intros (line & Hin & Hp). destruct (Hline line Hin Hp) as [He _].
      intros ->. discriminate.
    + intros Hne. exists (":70:" ++ replace_char MtSpec.LF " " remittance).
      destruct remittance as [|c r] eqn:E; [congruence |].
      split; [cbn; tauto | reflexivity].
    + intros line Hin Hp. destruct (Hline line Hin Hp) as [_ ->].
      split; [reflexivity |].
      cbn [append count_char]. cbn.
      apply RunFacts.count_replace_char. discriminate.
  - intros payment w w' tree Hrun.
    pose proof (RunFacts.pain001_tree_cases payment w) as Hc. rewrite Hrun in Hc.
    destruct Hc as (text & _ & _ & _ & Hr).
    unfold Xml.texts in Hr.
    rewrite <- RunFacts.truthy_true_iff.
    destruct (truthy (remittance_info payment)).
    + split; [reflexivity |]. intros _ E. rewrite E in Hr. discriminate.
    + split; [| discriminate]. intros Hne.
      destruct (Xml.iter "RmtInf" tree); [congruence | discriminate].
  - intros payment v d amount_text w Hv Hd Hfmt.
    assert (Hamt : amount_text_of payment = Ok amount_text)
      by now rewrite (RunFacts.amount_text_of_read payment v d Hv Hd).
    split.
    + destruct (RunFacts.mt103_lines_ok fromisoformat payment amount_text w Hamt)
        as (lines & w' & Hl).
      exists lines, w'. split; [exact Hl |].
      unfold generate_mt103, bind, ret. now rewrite Hl.
    + exact (RunFacts.pain001_tree_ok payment amount_text w Hamt).
  - intros payment w w' text Hrun Hne.
    unfold generate_mt103, bind, ret in Hrun.
    destruct (mt103_lines fromisoformat payment w) as [[lines|e] w1] eqn:Hl;
      [| discriminate].
    injection Hrun as <- <-.
    apply LineFacts.in_split_nl_join.
    + destruct (proj1 (Hlines payment w w1 lines Hl)) as [_ Hex].
      destruct (Hex Hne) as (line & Hin & Hp).
      destruct (proj2 (Hlines payment w w1 lines Hl) line Hin Hp) as [<- _].
      exact Hin.
    + change (MtSpec.single_line
                (":70:" ++ replace_char MtSpec.LF " " (get_or (remittance_info payment) "")))
        with (MtSpec.single_line
                (replace_char MtSpec.LF " " (get_or (remittance_info payment) ""))).
      apply LineFacts.replace_lf_single_line.
  - intros payment w w' text Hrun Hfields Href Hwf remittance.
    destruct (RunFacts.generate_mt103_lines fromisoformat payment w w' text Hrun Hfields Href Hwf)
      as (lines & Hl & ->).
    destruct (Hlines payment w w' lines Hl) as [Hiff Hform].
    split; [exact Hiff |].
    intros line Hin Hp. exact (proj1 (Hform line Hin Hp)).
Qed.

End Remittance.

(** The amended C7 at a payment whose remittance text spans two lines,
    and at the same payment without a remittance text. *)
Lemma remittance_emitted_iff_present_witness :
  (exists text w',
     generate_mt103 PyTime.fromisoformat_ymd
       (Sample.payment "1500.5" ("INVOICE 42" ++ nl ++ "SECOND LINE")) Sample.world
     = (Ok text, w')
     /\ In ":70:INVOICE 42 SECOND LINE" (split_nl text)
     /\ (forall line,
           In line (split_nl text) -> MtSpec.has_tag ":70:" line = true ->
           line = ":70:INVOICE 42 SECOND LINE"))
  /\ (exists text w',
        generate_mt103 PyTime.fromisoformat_ymd (Sample.payment "1500.5" "") Sample.world
        = (Ok text, w')
        /\ ~ (exists line, In line (split_nl text) /\ MtSpec.has_tag ":70:" line = true)).
Proof.
  split.
  - destruct (generate_mt103 PyTime.fromisoformat_ymd
                (Sample.payment "1500.5" ("INVOICE 42" ++ nl ++ "SECOND LINE"))
                Sample.world) as [[text|e] w'] eqn:Hrun;
      [| vm_compute in Hrun; discriminate Hrun].
    exists text, w'. split; [reflexivity |].
    split.
    + apply (proj1 (proj2 (proj2 (proj2
               (remittance_emitted_iff_present PyTime.fromisoformat_ymd))))
               _ _ _ _ Hrun).
      discriminate.
    + apply (proj2 (proj2 (proj2 (proj2 (proj2
               (remittance_emitted_iff_present PyTime.fromisoformat_ymd))))
               _ _ _ _ Hrun eq_refl eq_refl eq_refl)).
  - destruct (generate_mt103 PyTime.fromisoformat_ymd
                (Sample.payment "1500.5" "") Sample.world) as [[text|e] w'] eqn:Hrun;
      [| vm_compute in Hrun; discriminate Hrun].
    exists text, w'. split; [reflexivity |].
    intros Hex.
    apply (proj1 (proj1 (proj2 (proj2 (proj2 (proj2
             (remittance_emitted_iff_present PyTime.fromisoformat_ymd))))
             _ _ _ _ Hrun eq_refl eq_refl eq_refl)) Hex).
    reflexivity.
Defined.

(** C7 as stated fails: the ordering name is copied into the [:50K:]
    line as it is, so a name that holds a line feed followed by [:70:]
    opens a [:70:] line in the text of a record without remittance
    text. *)
Lemma ordering_name_opens_tag_70_line :
  get_or (remittance_info
            (Sample.named_payment ("ANDRO AG" ++ nl ++ ":70:INJECTED") "1500.5" "")) ""
  = ""
  /\ (exists text,
        run (generate_mt103 PyTime.fromisoformat_ymd
               (Sample.named_payment ("ANDRO AG" ++ nl ++ ":70:INJECTED") "1500.5" ""))
          Sample.world = Ok text
        /\ In ":70:INJECTED /CH970020620625170160K" (split_nl text)
        /\ MtSpec.has_tag ":70:" ":70:INJECTED /CH970020620625170160K" = true)
  /\ ~ (forall text,
          run (generate_mt103 PyTime.fromisoformat_ymd
                 (Sample.named_payment ("ANDRO AG" ++ nl ++ ":70:INJECTED") "1500.5" ""))
            Sample.world = Ok text ->
          ((exists line, In line (split_nl text) /\ MtSpec.has_tag ":70:" line = true)
             <-> get_or (remittance_info
                           (Sample.named_payment ("ANDRO AG" ++ nl ++ ":70:INJECTED")
                              "1500.5" "")) "" <> "")).
Proof.
  assert (Hrun : exists text,
             run (generate_mt103 PyTime.fromisoformat_ymd
                    (Sample.named_payment ("ANDRO AG" ++ nl ++ ":70:INJECTED") "1500.5" ""))
               Sample.world = Ok text
             /\ In ":70:INJECTED /CH970020620625170160K" (split_nl text)
             /\ MtSpec.has_tag ":70:" ":70:INJECTED /CH970020620625170160K" = true).
  { eexists. split; [vm_compute; reflexivity |].
    split; [cbn; tauto | reflexivity]. }
  split; [reflexivity |].
  split; [exact Hrun |].
  intros Hclaim. destruct Hrun as (text & Ht & Hin & Hp).
  apply (proj1 (Hclaim text Ht)); [| reflexivity].
  now exists ":70:INJECTED /CH970020620625170160K".
Qed.

(** ** Amounts that are not numbers *)

Section AmountErrors.
Variable toprettyxml : string -> option string -> Element -> result string.
Variable fromisoformat : string -> option date.

(** What the generators of swift_messages.py do with an amount that is
    no finite number.  When it is not a decimal literal at all (such as
    the text abc), or denotes an infinity or a signalling NaN,
    [generate_mt103] and [generate_pain001] both end with
    decimal.InvalidOperation and hand back no text.  A quiet NaN is not
    refused: it is formatted as the text NaN and the message is built.
    In every case a generator hands back a complete text or an
    exception, never both. *)
Lemma invalid_amount_stops_both_encoders :
  (forall (payment : Payment) (v : amount_value) (w : World),
      amount payment = Some v ->
      (to_Decimal v = Err InvalidOperation
       \/ (exists s, to_Decimal v = Ok (Infinite s))
       \/ (exists s pl, to_Decimal v = Ok (NaN s true pl))) ->
      run (generate_mt103 fromisoformat payment) w = Err InvalidOperation
      /\ run (generate_pain001 toprettyxml payment) w = Err InvalidOperation)
  /\ of_string "abc" = Err InvalidOperation
  /\ (forall (s : bool) (pl : string) (currency : string),
        (String.length pl <= 28)%nat ->
        format_amount (NaN s false pl) currency = Ok (sign_str s ++ "NaN" ++ pl))
  /\ (forall (payment : Payment) (v : amount_value) (s : bool) (pl : string)
             (w : World),
        amount payment = Some v ->
        to_Decimal v = Ok (NaN s false pl) ->
        exists text, run (generate_mt103 fromisoformat payment) w = Ok text)
  /\ (forall (payment : Payment) (w : World),
        ((exists text, run (generate_mt103 fromisoformat payment) w = Ok text)
         \/ (exists e, run (generate_mt103 fromisoformat payment) w = Err e))
        /\ ((exists text, run (generate_pain001 toprettyxml payment) w = Ok text)
            \/ (exists e, run (generate_pain001 toprettyxml payment) w = Err e))).
Proof.
  split; [| split; [| split; [| split]]].
  - intros payment v w Hv Hbad.
    apply RunFacts.amount_error_propagates.
    unfold amount_text_of, amount_item. rewrite Hv. cbn [rbind].
    destruct Hbad as [H | [(s & H) | (s & pl & H)]]; rewrite H; reflexivity.
  - vm_compute. reflexivity.
  - intros s pl currency Hlen.
    unfold format_amount, quantize, cent, _fix_nan. cbn [rbind].
    replace (Z.to_nat prec <? String.length pl)%nat with false
      by (symmetry; apply Nat.ltb_ge; exact Hlen).
    reflexivity.
  - intros payment v s pl w Hv Hnan.
    assert (Hamt : exists text, amount_text_of payment = Ok text).
    { unfold amount_text_of, amount_item. rewrite Hv. cbn [rbind]. rewrite Hnan.
      cbn [rbind]. unfold format_amount, quantize, cent. cbn [rbind]. eauto. }
    destruct Hamt as [amt Hamt].
    destruct (RunFacts.mt103_lines_ok fromisoformat payment amt w Hamt)
      as (lines & w' & Hl).
    exists (join nl lines).
    rewrite RunFacts.generate_mt103_run. unfold run. now rewrite Hl.
  - intros payment w. split.
    + destruct (run (generate_mt103 fromisoformat payment) w) as [text|e]; eauto.
    + destruct (run (generate_pain001 toprettyxml payment) w) as [text|e]; eauto.
Qed.

End AmountErrors.

(** The scenario of the specification: the amount text abc. *)
Lemma invalid_amount_stops_both_encoders_witness :
  run (generate_mt103 PyTime.fromisoformat_ymd (Sample.payment "abc" "")) Sample.world
  = Err InvalidOperation
  /\ run (generate_pain001 MiniDom.toprettyxml (Sample.payment "abc" "")) Sample.world
     = Err InvalidOperation.
Proof.
  apply (proj1 (invalid_amount_stops_both_encoders MiniDom.toprettyxml
                  PyTime.fromisoformat_ymd)
           (Sample.payment "abc" "") (AmountText "abc") Sample.world).
  - reflexivity.
  - left. vm_compute. reflexivity.
Defined.

(** C5 (defect in the generators).  The amount text NaN does not denote
    a finite decimal, and [format_amount], whose docstring promises the
    SWIFT numeric format, returns the text NaN for it: [generate_mt103]
    hands back a message whose [:32A:] line ends in USDNaN, and
    [generate_pain001] builds a document with NaN as control sum and
    instructed amount, where the text abc, an infinity and a signalling
    NaN end in decimal.InvalidOperation. *)
Theorem nan_amount_is_encoded :
  of_string "NaN" = Ok (NaN false false "")
  /\ (exists text,
        run (generate_mt103 PyTime.fromisoformat_ymd (Sample.payment "NaN" ""))
          Sample.world = Ok text
        /\ In ":32A:250310USDNaN" (split_nl text))
  /\ (exists tree w',
        pain001_tree (Sample.payment "NaN" "") Sample.world = (Ok tree, w')
        /\ Xml.texts "CtrlSum" tree = [Some "NaN"; Some "NaN"]
        /\ Xml.texts "InstdAmt" tree = [Some "NaN"])
  /\ format_amount (NaN false false "") "USD" = Ok "NaN"
  /\ run (generate_mt103 PyTime.fromisoformat_ymd (Sample.payment "abc" ""))
       Sample.world = Err InvalidOperation
  /\ run (generate_mt103 PyTime.fromisoformat_ymd (Sample.payment "Infinity" ""))
       Sample.world = Err InvalidOperation
  /\ run (generate_mt103 PyTime.fromisoformat_ymd (Sample.payment "sNaN" ""))
       Sample.world = Err InvalidOperation.
Proof.
  split; [vm_compute; reflexivity |].
  split; [eexists; split; [vm_compute; reflexivity | cbn; tauto] |].
  split; [eexists _, _; split; [vm_compute; reflexivity |];
          split; vm_compute; reflexivity |].
  split; [vm_compute; reflexivity |].
  split; [vm_compute; reflexivity |].
  split; vm_compute; reflexivity.
Qed.

(** ** Message types *)

Section MessageTypes.
Variable toprettyxml : string -> option string -> Element -> result string.

(** C4 (as amended).  [build_mt_message] consults no template table and
    has no failing step: for every message-type selector, one of the five
    templates or not, and every tag map, empty or not, it hands back the
    complete message, with the selector copied into block 2; with an empty
    tag map block 4 holds the [:20:] line and the sender trailer.  The
    compose handler, for a selector that is none of the five and an
    amount field that reads as a decimal, raises nothing of its own
    either: it hands the form to [generate_pain001_xml]. *)
Theorem build_mt_message_accepts_any_type :
  (forall (msg_type : string) (sender_info : SenderInfo)
          (reference : option string) (w : World),
      (forall fields : pydict,
          exists text,
            run (build_mt_message msg_type fields sender_info reference) w = Ok text)
      /\ run (build_mt_message msg_type [] sender_info reference) w
         = Ok (join nl
                 (app [ "{1:F01" ++ get_or (bic sender_info) "UNKNOWN" ++ "XXXX0000000000}";
                        "{2:O" ++ msg_type ++ "1200" ++ get_or (bic sender_info) "UNKNOWN"
                          ++ "XXXX0000000000}";
                        "{4:";
                        ":20:" ++ Readings.mt_ref msg_type reference w ]
                    (sender_trailer sender_info))))
  /\ (forall (ui : Ui.Form) (a : Decimal) (w : World),
        ~ In (Ui.msg_type ui) (map fst MT_TEMPLATES) ->
        of_string (strip (Ui.amount_text ui)) = Ok a ->
        run (compose_message_body toprettyxml ui) w
        = match
            run (generate_pain001_xml toprettyxml
                   {| ordering_account := Some (Ui.ordering_account ui);
                      ordering_name := Some (Ui.ordering_name ui);
                      beneficiary_account := Some (Ui.beneficiary_account ui);
                      beneficiary_name := Some (Ui.beneficiary_name ui);
                      amount := Some (AmountDecimal a);
                      currency := Some (Ui.currency ui);
                      value_date :=
                        Some (PyTime.date_isoformat (today_at w (clock_reads w)));
                      remittance_info := Some (Ui.remittance ui);
                      beneficiary_bic := None;
                      reference := Some (Ui.reference ui) |})
              (tick w)
          with
          | Ok text => Ok text
          | Err _ => Err StopExecution
          end).
Proof.
  split.
  - intros msg_type sender_info reference w. split.
    + intros fields. unfold run. rewrite RunFacts.build_mt_message_run.
      eexists. reflexivity.
    + unfold run. rewrite RunFacts.build_mt_message_run. reflexivity.
  - intros ui a w Hty Hamt.
    unfold compose_message_body, run, bind, or_stop, lift, date_today.
    rewrite Hamt.
    cbn [map fst MT_TEMPLATES In] in Hty.
    destruct (String.eqb_spec (Ui.msg_type ui) "MT103") as [E|_]; [intuition congruence |].
    destruct (String.eqb_spec (Ui.msg_type ui) "MT199") as [E|_]; [intuition congruence |].
    destruct (String.eqb_spec (Ui.msg_type ui) "MT799") as [E|_]; [intuition congruence |].
    destruct (String.eqb_spec (Ui.msg_type ui) "MT700") as [E|_]; [intuition congruence |].
    destruct (String.eqb_spec (Ui.msg_type ui) "MT760") as [E|_]; [intuition congruence |].
    cbn [orb].
    destruct (generate_pain001_xml _ _ _) as [[text|e] w']; reflexivity.
Qed.

End MessageTypes.

(** The amended C4 at the selector MT999 in the compose handler: the
    message body is the pain.001 document. *)
Lemma build_mt_message_accepts_any_type_witness :
  exists text,
    run (compose_message_body MiniDom.toprettyxml (Sample.form "MT999" [] "")) Sample.world
    = Ok text
    /\ String.prefix "<?xml" text = true.
Proof.
  eexists. split.
  - rewrite (proj2 (build_mt_message_accepts_any_type MiniDom.toprettyxml)
               (Sample.form "MT999" [] "") (Finite false 15005 (-1)) Sample.world).
    + vm_compute. reflexivity.
    + cbn. intros H. repeat (destruct H as [H|H]; [discriminate H |]). exact H.
    + vm_compute. reflexivity.
  - reflexivity.
Defined.

(** C4 as stated fails: MT999 is none of the five templates, the tag map
    is empty, and a message comes back. *)
Lemma mt999_is_encoded :
  ~ In "MT999" (map fst MT_TEMPLATES)
  /\ (exists text,
        run (build_mt_message "MT999" [] Sample.sender (Some "REF001")) Sample.world
        = Ok text
        /\ In "{2:OMT9991200UBSWCHZH80AXXXX0000000000}" (split_nl text))
  /\ ~ (exists e,
          run (build_mt_message "MT999" [] Sample.sender (Some "REF001")) Sample.world
          = Err e).
Proof.
  split; [| split].
  - cbn. intros H. repeat (destruct H as [H|H]; [discriminate H |]). exact H.
  - eexists. split; [vm_compute; reflexivity | cbn; tauto].
  - intros [e He]. vm_compute in He. discriminate He.
Qed.

(** ** The formal output *)


(** ** Tag overrides *)

Section Overrides.
Variable toprettyxml : string -> option string -> Element -> result string.

(** C6.  In the compose handler, for MT199, MT700, MT760 and MT799 and an
    amount field that reads as a decimal: with a tag map that is not
    empty, the lines between [:20:] and the sender trailer are the
    caller's tag lines and nothing else; with an empty tag map there is
    the one default line of the type ([:79:] for MT199 and MT799, [:77B:]
    for MT700, [:77U:] for MT760) with the remittance text.  For MT103
    the caller's tags are merged into the defaults: a key of the caller
    carries the caller's value, every other default stays. *)
Theorem overrides_replace_defaults_except_mt103 :
  (forall (ui : Ui.Form) (a : Decimal) (tag : string) (w : World),
      of_string (strip (Ui.amount_text ui)) = Ok a ->
      Dict.get (Ui.msg_type ui) MtSpec.free_text_tags = Some tag ->
      let number := drop 2 (Ui.msg_type ui) in
      let message (body : list string) :=
        Ok (join nl
              (app [ "{1:F01" ++ Ui.sender_bic ui ++ "XXXX0000000000}";
                     "{2:O" ++ number ++ "1200" ++ Ui.sender_bic ui ++ "XXXX0000000000}";
                     "{4:";
                     ":20:" ++ Readings.mt_ref number (Some (Ui.reference ui)) w ]
                 (app body (sender_trailer (compose_sender_info ui))))) in
      (Ui.mt_fields ui <> [] ->
       run (compose_message_body toprettyxml ui) w
       = message (tag_lines (Ui.mt_fields ui)))
      /\ (Ui.mt_fields ui = [] ->
          run (compose_message_body toprettyxml ui) w
          = message [ tag ++ Ui.remittance ui ]))
  /\ (forall (ui : Ui.Form) (a : Decimal) (amount_text : string) (w : World),
        Ui.msg_type ui = "MT103" ->
        of_string (strip (Ui.amount_text ui)) = Ok a ->
        format_decimal a = Ok amount_text ->
        NoDup (Dict.keys (Ui.mt_fields ui)) ->
        let defaults :=
          MtSpec.streamlit_mt103_defaults
            (PyTime.strftime_yymmdd (today_at w (clock_reads w)))
            (Ui.currency ui) amount_text
            (Ui.ordering_name ui) (Ui.ordering_account ui)
            (Ui.beneficiary_name ui) (Ui.beneficiary_account ui)
            (Ui.remittance ui) in
        exists fields_map,
          run (compose_message_body toprettyxml ui) w
          = Ok (join nl
                  (app [ "{1:F01" ++ Ui.sender_bic ui ++ "XXXX0000000000}";
                         "{2:O1031200" ++ Ui.sender_bic ui ++ "XXXX0000000000}";
                         "{4:";
                         ":20:" ++ Readings.mt_ref "103" (Some (Ui.reference ui)) (tick w) ]
                     (app (tag_lines fields_map)
                          (sender_trailer (compose_sender_info ui)))))
          /\ (forall k v, Dict.get k (Ui.mt_fields ui) = Some v ->
                          Dict.get k fields_map = Some v)
          /\ (forall k, Dict.get k (Ui.mt_fields ui) = None ->
                        Dict.get k fields_map = Dict.get k defaults)).
Proof.
  split.
  - intros ui a tag w Hamt Htag number message.
    unfold message, number, compose_message_body, run, bind, or_stop, lift.
    rewrite Hamt.
    destruct (RunFacts.free_text_tag_cases _ _ Htag)
      as [[-> ->] | [[-> ->] | [[-> ->] | [-> ->]]]];
      cbn [String.eqb Ascii.eqb Bool.eqb orb remove_MT drop];
      rewrite RunFacts.build_mt_message_run; cbn [fst];
      (split; [intros Hne | intros ->]);
      try reflexivity;
      destruct (Ui.mt_fields ui); try congruence; reflexivity.
  - intros ui a amount_text w Hty Hamt Hfmt Hnd defaults.
    exists (Dict.update defaults (Ui.mt_fields ui)).
    split; [| split].
    + unfold compose_message_body, run, bind, or_stop, lift, date_today.
      rewrite Hamt, Hty, Hfmt.
      cbn [String.eqb Ascii.eqb Bool.eqb].
      rewrite RunFacts.build_mt_message_run. reflexivity.
    + intros k v Hk. rewrite (RunFacts.dict_get_update k _ Hnd), Hk. reflexivity.
    + intros k Hk. rewrite (RunFacts.dict_get_update k _ Hnd), Hk. reflexivity.
Qed.

End Overrides.

(** C6 at an MT199 form with two tags of the caller. *)
Lemma overrides_replace_defaults_except_mt103_witness :
  run (compose_message_body MiniDom.toprettyxml
         (Sample.form "MT199" [ (":21:", "RELATED-7"); (":79:", "FREE TEXT") ] "IGNORED"))
      Sample.world
  = Ok (join nl
          [ "{1:F01UBSWCHZH80AXXXX0000000000}";
            "{2:O1991200UBSWCHZH80AXXXX0000000000}";
            "{4:";
            ":20:REF001";
            ":21:RELATED-7";
            ":79:FREE TEXT";
            ":86:Sender Details";
            " /BANK/UBS SWITZERLAND AG";
            " /ADDR/PARADEPLATZ 6, 8098, ZURICH, SWITZERLAND";
            " /ACCTNAME/ANDRO AG";
            " /ACCTIBAN/CH970020620625170160K";
            "-}" ]).
Proof.
  refine (proj1 (proj1 (overrides_replace_defaults_except_mt103 MiniDom.toprettyxml)
                   (Sample.form "MT199" [ (":21:", "RELATED-7"); (":79:", "FREE TEXT") ]
                      "IGNORED")
                   (Finite false 15005 (-1)) ":79:" Sample.world _ _) _).
  - vm_compute. reflexivity.
  - reflexivity.
  - discriminate.
Defined.

(** Two tag lines typed into the page: the second replaces the first,
    under the key [:]. *)
Example parse_mt_fields_two_lines :
  Ui.parse_mt_fields [ ":21:RELATED-7"; ":79:FREE TEXT" ] = [ (":", "79:FREE TEXT") ].
Proof. reflexivity. Qed.

(** A [:70:] line typed into the page for MT103 does not take the place
    of the default [:70:] line: it is stored under the key [:] and
    comes after it. *)
Example typed_tag_is_appended :
  exists text,
    run (compose_message_body MiniDom.toprettyxml
           (Sample.form "MT103" (Ui.parse_mt_fields [ ":70:OVERRIDE" ]) "NOTE"))
        Sample.world = Ok text
    /\ split_nl text
       = [ "{1:F01UBSWCHZH80AXXXX0000000000}";
           "{2:O1031200UBSWCHZH80AXXXX0000000000}";
           "{4:";
           ":20:REF001";
           ":32A:250307USD1500.50";
           ":50K:ANDRO AG /CH970020620625170160K";
           ":59:ACME CORP /DE89370400440532013000";
           ":70:NOTE";
           ":70:OVERRIDE";
           ":86:Sender Details";
           " /BANK/UBS SWITZERLAND AG";
           " /ADDR/PARADEPLATZ 6, 8098, ZURICH, SWITZERLAND";
           " /ACCTNAME/ANDRO AG";
           " /ACCTIBAN/CH970020620625170160K";
           "-}" ].
Proof. eexists. split; vm_compute; reflexivity. Qed.

(** ** Repeated invocations *)

Section Determinism.
Variable toprettyxml : string -> option string -> Element -> result string.
Variable fromisoformat : string -> option date.

(** C8.  For a payment record that carries its reference, the text a
    generator hands back is determined by the record and by the readings
    of the clock: in two environments whose clocks give the same
    readings, whatever UUIDs they draw and however often they were used
    before, [generate_mt103], [generate_pain001] and
    [generate_pain001_xml] give the same result; and with a clock that
    stands still, a second invocation right after the first gives the
    result of the first. *)
Theorem same_inputs_same_output :
  forall (payment : Payment),
    reference payment <> None ->
    (forall w1 w2 : World,
        ClockSpec.same_clock w1 w2 ->
        run (generate_mt103 fromisoformat payment) w1 = run (generate_mt103 fromisoformat payment) w2
        /\ run (generate_pain001 toprettyxml payment) w1
           = run (generate_pain001 toprettyxml payment) w2
        /\ run (generate_pain001_xml toprettyxml payment) w1
           = run (generate_pain001_xml toprettyxml payment) w2)
    /\ (forall w : World,
          ClockSpec.frozen w ->
          run (generate_mt103 fromisoformat payment) (snd (generate_mt103 fromisoformat payment w))
          = run (generate_mt103 fromisoformat payment) w
          /\ run (generate_pain001 toprettyxml payment)
               (snd (generate_pain001 toprettyxml payment w))
             = run (generate_pain001 toprettyxml payment) w
          /\ run (generate_pain001_xml toprettyxml payment)
               (snd (generate_pain001_xml toprettyxml payment w))
             = run (generate_pain001_xml toprettyxml payment) w).
Proof.
  intros payment Href. split.
  - intros w1 w2 Hclock. now apply RunFacts.encoders_same_clock.
  - intros w Hf.
    split; [| split]; symmetry.
    + apply (RunFacts.encoders_same_clock toprettyxml fromisoformat); [exact Href |].
      apply RunFacts.same_clock_after; [apply RunFacts.keeps_generate_mt103 | exact Hf].
    + apply (RunFacts.encoders_same_clock toprettyxml fromisoformat); [exact Href |].
      apply RunFacts.same_clock_after;
        [apply RunFacts.keeps_generate_pain001 | exact Hf].
    + apply (RunFacts.encoders_same_clock toprettyxml fromisoformat); [exact Href |].
      apply RunFacts.same_clock_after;
        [apply RunFacts.keeps_generate_pain001_xml | exact Hf].
Qed.

End Determinism.

(** C8 at the sample payment, in a fresh process and in one that has
    read the clock seven times and draws other UUIDs. *)
Lemma same_inputs_same_output_witness :
  run (generate_mt103 PyTime.fromisoformat_ymd (Sample.payment "1500.5" "INVOICE 42")) Sample.world
  = run (generate_mt103 PyTime.fromisoformat_ymd (Sample.payment "1500.5" "INVOICE 42")) Sample.later_world
  /\ run (generate_pain001 MiniDom.toprettyxml (Sample.payment "1500.5" "INVOICE 42"))
       Sample.world
     = run (generate_pain001 MiniDom.toprettyxml (Sample.payment "1500.5" "INVOICE 42"))
         Sample.later_world
  /\ run (generate_pain001_xml MiniDom.toprettyxml (Sample.payment "1500.5" "INVOICE 42"))
       Sample.world
     = run (generate_pain001_xml MiniDom.toprettyxml
              (Sample.payment "1500.5" "INVOICE 42"))
         Sample.later_world.
Proof.
  apply (proj1 (same_inputs_same_output MiniDom.toprettyxml PyTime.fromisoformat_ymd
                  (Sample.payment "1500.5" "INVOICE 42") ltac:(discriminate))).
  intros i. split; reflexivity.
Defined.

(** ** The default tags of MT103 *)

(** [generate_mt103] emits, after [:20:], the default tags in the order
    [:23B:], [:32A:], [:50K:], [:59:], [:70:] (for a remittance text that
    is not empty) and [:71A:], for every record whose amount formats. *)
Lemma generate_mt103_default_tags :
  forall (fromisoformat : string -> option date)
         (payment : Payment) (text : string) (w : World),
    amount_text_of payment = Ok text ->
    run (generate_mt103 fromisoformat payment) w
    = Ok (join nl
            (app [ "{1:F01SWIFTSIMULATORXXXX0000000000}";
                   "{2:O1031200SWIFTSIMULATORXXXX0000000000}";
                   "{4:";
                   ":20:" ++ Readings.mt103_ref payment w ]
               (app (MtSpec.mt103_default_tags
                       (PyTime.strftime_yymmdd (Readings.mt103_date fromisoformat payment w))
                       (get_or (currency payment) "USD") text
                       (get_or (ordering_name payment) "")
                       (get_or (ordering_account payment) "")
                       (get_or (beneficiary_name payment) "")
                       (get_or (beneficiary_account payment) "")
                       (get_or (remittance_info payment) ""))
                    [ "-}" ]))).
Proof.
  intros fromisoformat payment text w Hamt.
  rewrite RunFacts.generate_mt103_run, RunFacts.mt103_lines_run, Hamt.
  reflexivity.
Qed.

(** The MT103 branch of the compose handler, without tags of the caller,
    emits [:32A:], [:50K:], [:59:] and [:70:] between [:20:] and the
    sender trailer, whatever the remittance text is. *)
Lemma streamlit_mt103_tags :
  forall toprettyxml (ui : Ui.Form) (a : Decimal) (amount_text : string) (w : World),
    Ui.msg_type ui = "MT103" ->
    Ui.mt_fields ui = [] ->
    of_string (strip (Ui.amount_text ui)) = Ok a ->
    format_decimal a = Ok amount_text ->
    run (compose_message_body toprettyxml ui) w
    = Ok (join nl
            (app [ "{1:F01" ++ Ui.sender_bic ui ++ "XXXX0000000000}";
                   "{2:O1031200" ++ Ui.sender_bic ui ++ "XXXX0000000000}";
                   "{4:";
                   ":20:" ++ Readings.mt_ref "103" (Some (Ui.reference ui)) (tick w) ]
               (app [ ":32A:" ++ PyTime.strftime_yymmdd (today_at w (clock_reads w))
                        ++ Ui.currency ui ++ amount_text;
                      ":50K:" ++ Ui.ordering_name ui ++ " /" ++ Ui.ordering_account ui;
                      ":59:" ++ Ui.beneficiary_name ui ++ " /"
                        ++ Ui.beneficiary_account ui;
                      ":70:" ++ Ui.remittance ui ]
                    (sender_trailer (compose_sender_info ui))))).
Proof.
  intros toprettyxml ui a amount_text w Hty Hfields Hamt Hfmt.
  unfold compose_message_body, run, bind, or_stop, lift, date_today.
  rewrite Hamt, Hty, Hfmt, Hfields.
  cbn [String.eqb Ascii.eqb Bool.eqb].
  rewrite RunFacts.build_mt_message_run. reflexivity.
Qed.

(** C3 (defect in the compose handler).  On the scenario of the
    specification (ANDRO AG to ACME CORP, 1500.5 USD, reference REF001,
    no remittance text) [generate_mt103] emits [:20:REF001], then
    [:23B:CRED], a [:32A:] line that ends in USD1500.50, [:50K:], [:59:]
    and [:71A:SHA], and no [:70:] line.  The MT103 branch of the compose
    handler, on the same scenario, emits neither [:23B:CRED] nor
    [:71A:SHA], and it emits an empty [:70:] line. *)
Theorem streamlit_mt103_misses_default_tags :
  (exists text,
      run (generate_mt103 PyTime.fromisoformat_ymd (Sample.payment "1500.5" "")) Sample.world = Ok text
      /\ split_nl text
         = [ "{1:F01SWIFTSIMULATORXXXX0000000000}";
             "{2:O1031200SWIFTSIMULATORXXXX0000000000}";
             "{4:";
             ":20:REF001";
             ":23B:CRED";
             ":32A:250310USD1500.50";
             ":50K:ANDRO AG /CH970020620625170160K";
             ":59:ACME CORP /DE89370400440532013000";
             ":71A:SHA";
             "-}" ]
      /\ MtSpec.endswith "USD1500.50" ":32A:250310USD1500.50" = true
      /\ count_char "," text = 0)
  /\ (exists text,
        run (compose_message_body MiniDom.toprettyxml (Sample.form "MT103" [] ""))
          Sample.world = Ok text
        /\ split_nl text
           = [ "{1:F01UBSWCHZH80AXXXX0000000000}";
               "{2:O1031200UBSWCHZH80AXXXX0000000000}";
               "{4:";
               ":20:REF001";
               ":32A:250307USD1500.50";
               ":50K:ANDRO AG /CH970020620625170160K";
               ":59:ACME CORP /DE89370400440532013000";
               ":70:";
               ":86:Sender Details";
               " /BANK/UBS SWITZERLAND AG";
               " /ADDR/PARADEPLATZ 6, 8098, ZURICH, SWITZERLAND";
               " /ACCTNAME/ANDRO AG";
               " /ACCTIBAN/CH970020620625170160K";
               "-}" ]
        /\ ~ In ":23B:CRED" (split_nl text)
        /\ ~ In ":71A:SHA" (split_nl text)
        /\ In ":70:" (split_nl text)).
Proof.
  split.
  - eexists. split; [vm_compute; reflexivity |].
    split; [vm_compute; reflexivity |].
    split; vm_compute; reflexivity.
  - eexists. split; [vm_compute; reflexivity |].
    split; [vm_compute; reflexivity |].
    split; [| split].
    + cbn. intros H. repeat (destruct H as [H|H]; [discriminate H |]). exact H.
    + cbn. intros H. repeat (destruct H as [H|H]; [discriminate H |]). exact H.
    + cbn. tauto.
Qed.

(** * Further properties of the code *)

(** ** Reading an amount text back *)

Module ReadBackFacts.
Import PyStr Digits PyDecimal AmountSpec AmountText PyStrFacts DigitsFacts PyDecimalFacts.

Lemma amount_char_plain (c : ascii) :
  amount_char c = true -> is_space c = false /\ Ascii.eqb c "_" = false.
Proof.
  unfold amount_char, is_digit, is_space, in_range. intros H.
  destruct (Ascii.eqb_spec c "-") as [E|_]; [subst c; split; reflexivity |].
  destruct (Ascii.eqb_spec c ".") as [E|_]; [subst c; split; reflexivity |].
  rewrite !orb_false_r in H. apply andb_true_iff in H as [H1 H2].
  apply Nat.leb_le in H1, H2.
  split.
  - apply orb_false_iff. split; apply andb_false_iff.
    + right. apply Nat.leb_gt. lia.
    + right. apply Nat.leb_gt. lia.
  - destruct (Ascii.eqb_spec c "_") as [->|_]; [| reflexivity].
    cbn in H2. lia.
Qed.

Lemma lstrip_plain (s : string) :
  forallb_chars amount_char s = true -> lstrip s = s.
Proof.
  destruct s as [|c r]; [reflexivity |]. cbn [forallb_chars lstrip].
  intros H. apply andb_true_iff in H as [Hc _].
  now rewrite (proj1 (amount_char_plain c Hc)).
Qed.

Lemma rstrip_plain (s : string) :
  forallb_chars amount_char s = true -> rstrip s = s.
Proof.
  induction s as [|c r IH]; [reflexivity |]. cbn [forallb_chars rstrip].
  intros H. apply andb_true_iff in H as [Hc Hr].
  now rewrite (IH Hr), (proj1 (amount_char_plain c Hc)).
Qed.

Lemma filter_underscore_plain (s : string) :
  forallb_chars amount_char s = true ->
  filter_chars (fun c => negb (Ascii.eqb c "_")) s = s.
Proof.
  induction s as [|c r IH]; [reflexivity |]. cbn [forallb_chars filter_chars].
  intros H. apply andb_true_iff in H as [Hc Hr].
  now rewrite (IH Hr), (proj2 (amount_char_plain c Hc)).
Qed.

Lemma digits_are_amount_chars (s : string) :
  all_digits s = true -> forallb_chars amount_char s = true.
Proof.
  unfold all_digits. induction s as [|c r IH]; [reflexivity |].
  cbn [forallb_chars]. intros H. apply andb_true_iff in H as [Hc Hr].
  unfold amount_char at 1. now rewrite Hc, (IH Hr).
Qed.

Lemma render_cents_chars (s : bool) (q : N) :
  forallb_chars amount_char (render_cents s q) = true.
Proof.
  unfold render_cents.
  rewrite !forallb_chars_append.
  rewrite (digits_are_amount_chars (str_N (q / 100)) (str_N_all_digits _)).
  cbn [forallb_chars]. unfold amount_char at 2 3 4.
  rewrite !digit_char_is_digit by (apply N.mod_lt; discriminate).
  destruct s; reflexivity.
Qed.

(** [str(n)] opens with a digit. *)
Lemma str_N_head (n : N) :
  exists c r, str_N n = String c r /\ is_digit c = true.
Proof.
  pose proof (str_N_all_digits n) as Hd. pose proof (ndigits_pos n) as Hl.
  unfold ndigits in Hl. unfold all_digits in Hd.
  destruct (str_N n) as [|c r]; [cbn in Hl; lia |].
  cbn [forallb_chars] in Hd. apply andb_true_iff in Hd as [Hc _].
  now exists c, r.
Qed.

Lemma parse_number_cents (q : N) :
  parse_number
    (str_N (q / 100) ++ "."
       ++ String (digit_char ((q / 10) mod 10)) (String (digit_char (q mod 10)) ""))
  = Some (q, (-2)%Z).
Proof.
  unfold parse_number.
  set (d1 := digit_char ((q / 10) mod 10)).
  set (d2 := digit_char (q mod 10)).
  assert (H1 : is_digit d1 = true) by (apply digit_char_is_digit, N.mod_lt; discriminate).
  assert (H2 : is_digit d2 = true) by (apply digit_char_is_digit, N.mod_lt; discriminate).
  rewrite (span_digits_stop (str_N (q / 100)) ("." ++ String d1 (String d2 "")))
    by (apply str_N_all_digits || reflexivity).
  cbn [append span_digits]. rewrite H1, H2. cbn [span_digits].
  destruct (str_N_head (q / 100)) as (c & r & Hs & Hc).
  rewrite Hs at 1. cbn [is_empty andb].
  unfold d1, d2. rewrite render_cents_value. reflexivity.
Qed.

(** An amount of at most 28 digits in hundredths is within the limits
    of the constructor. *)
Lemma representable_cents (q : N) :
  (q < 10 ^ 28)%N -> representable q (-2) = true.
Proof.
  intros Hq. unfold representable, adjusted, MAX_EMAX, MIN_ETINY.
  change (10 ^ 28)%N with (10 ^ N.of_nat 28)%N in Hq.
  pose proof (proj2 (ndigits_le_iff q 28 ltac:(lia)) Hq) as Hn.
  apply andb_true_iff. split; [apply Z.leb_le; lia | reflexivity].
Qed.

(** [Decimal(text)] of a rendered amount is that amount, at exponent -2. *)
Lemma of_string_render_cents (s : bool) (q : N) :
  (q < 10 ^ 28)%N ->
  of_string (render_cents s q) = Ok (Finite s q (-2)).
Proof.
  intros Hq. pose proof (representable_cents q Hq) as Hrep.
  unfold of_string, strip.
  pose proof (render_cents_chars s q) as Hp.
  rewrite (lstrip_plain _ Hp), (rstrip_plain _ Hp), (filter_underscore_plain _ Hp).
  unfold render_cents.
  destruct s; cbn [sign_str append].
  - now rewrite parse_number_cents, Hrep.
  - destruct (str_N_head (q / 100)) as (c & r & Hs & Hc).
    pose proof (parse_number_cents q) as Hn.
    rewrite Hs in *. cbn [append] in *.
    assert (Hm : Ascii.eqb c "-" = false) by now apply is_digit_not_minus.
    assert (Hpl : Ascii.eqb c "+" = false).
    { destruct (Ascii.eqb_spec c "+") as [->|]; [discriminate | reflexivity]. }
    destruct (Ascii.eqb_spec c "-") as [E|_]; [discriminate |].
    destruct (Ascii.eqb_spec c "+") as [E|_]; [discriminate |].
    destruct c as [[] [] [] [] [] [] [] []]; try discriminate;
      cbv beta iota; rewrite Hn, Hrep; reflexivity.
Qed.

Lemma half_up_cents_at_cents (q : N) : half_up_cents q (-2) = q.
Proof. unfold half_up_cents. cbn. lia. Qed.

End ReadBackFacts.

(** X1.  A text the amount formatter hands back for a finite amount is
    read back by [Decimal] as the rounded amount, at exponent -2, and
    formatting that value gives the same text again: [format_amount] and
    [format_decimal] applied to [Decimal(text)] return [text]. *)
Theorem format_amount_reads_back :
  forall (sign : bool) (c : N) (e : Z) (currency text : string),
    format_amount (Finite sign c e) currency = Ok text ->
    of_string text = Ok (Finite sign (half_up_cents c e) (-2))
    /\ rbind (of_string text) (fun d => format_amount d currency) = Ok text
    /\ rbind (of_string text) format_decimal = Ok text.
Proof.
  intros sign c e currency text H.
  rewrite PyDecimalFacts.format_amount_finite in H.
  destruct (half_up_cents c e <? 10 ^ 28)%N eqn:Hq; [| discriminate].
  injection H as <-.
  rewrite ReadBackFacts.of_string_render_cents by (apply N.ltb_lt; exact Hq).
  cbn [rbind].
  change (format_decimal (Finite sign (half_up_cents c e) (-2)))
    with (format_amount (Finite sign (half_up_cents c e) (-2)) currency).
  rewrite PyDecimalFacts.format_amount_finite,
          ReadBackFacts.half_up_cents_at_cents, Hq.
  repeat split.
Qed.

(** X1 at 1234.565: the text 1234.57 reads back as 123457 hundredths. *)
Lemma format_amount_reads_back_witness :
  of_string "1234.57" = Ok (Finite false 123457 (-2))
  /\ rbind (of_string "1234.57") (fun d => format_amount d "USD") = Ok "1234.57".
Proof.
  assert (H : format_amount (Finite false 1234565 (-3)) "USD" = Ok "1234.57")
    by (vm_compute; reflexivity).
  destruct (format_amount_reads_back false 1234565%N (-3)%Z "USD" "1234.57" H)
    as (H1 & H2 & _).
  split; [exact H1 | exact H2].
Defined.

(** ** What the generators need, read and draw *)

Section GeneratorInputs.
Variable fromisoformat : string -> option date.

(** X2.  Of the keys of a payment record only the amount is needed.
    [generate_mt103] and the tree builders of both pain.001 generators
    end with an exception exactly when the amount does, and with that
    exception: KeyError for a record without the key, the exception of
    [Decimal] or of [quantize] otherwise.  Every other key may be
    missing, and the value date may hold any text: a record whose amount
    formats always yields a message. *)
Theorem generators_stop_only_at_amount :
  forall (payment : Payment) (w : World),
    (forall e : exn,
        run (generate_mt103 fromisoformat payment) w = Err e
        <-> amount_text_of payment = Err e)
    /\ (forall e : exn,
          run (pain001_tree payment) w = Err e <-> amount_text_of payment = Err e)
    /\ (forall e : exn,
          run (pain001_xml_tree payment) w = Err e <-> amount_text_xml payment = Err e)
    /\ (amount payment = None ->
        run (generate_mt103 fromisoformat payment) w = Err KeyError
        /\ run (pain001_tree payment) w = Err KeyError
        /\ run (pain001_xml_tree payment) w = Err KeyError)
    /\ (forall text : string,
          amount_text_of payment = Ok text ->
          exists mt tree,
            run (generate_mt103 fromisoformat payment) w = Ok mt
            /\ run (pain001_tree payment) w = Ok tree).
Proof.
  intros payment w.
  assert (Hmt : forall e : exn,
             run (generate_mt103 fromisoformat payment) w = Err e
             <-> amount_text_of payment = Err e).
  { intros e. rewrite RunFacts.generate_mt103_run, RunFacts.mt103_lines_run.
    destruct (amount_text_of payment) as [text|e']; cbn [rbind];
      split; intros H; congruence. }
  assert (Htree : forall e : exn,
             run (pain001_tree payment) w = Err e <-> amount_text_of payment = Err e).
  { intros e. pose proof (RunFacts.pain001_tree_cases payment w) as H. unfold run.
    destruct (pain001_tree payment w) as [[tree|e'] w']; cbn [fst].
    - destruct H as (text & H & _). rewrite H. split; discriminate.
    - rewrite H. split; intros E; congruence. }
  assert (Hxml : forall e : exn,
             run (pain001_xml_tree payment) w = Err e <-> amount_text_xml payment = Err e).
  { intros e. pose proof (RunFacts.pain001_xml_tree_cases payment w) as H. unfold run.
    destruct (pain001_xml_tree payment w) as [[tree|e'] w']; cbn [fst].
    - destruct H as (text & H & _). rewrite H. split; discriminate.
    - rewrite H. split; intros E; congruence. }
  split; [exact Hmt |]. split; [exact Htree |]. split; [exact Hxml |].
  split.
  - intros Hnone.
    split; [| split].
    + apply Hmt. unfold amount_text_of, amount_item. now rewrite Hnone.
    + apply Htree. unfold amount_text_of, amount_item. now rewrite Hnone.
    + apply Hxml. unfold amount_text_xml, amount_item. now rewrite Hnone.
  - intros text Hamt.
    destruct (run (generate_mt103 fromisoformat payment) w) as [mt|e] eqn:E1.
    + destruct (run (pain001_tree payment) w) as [tree|e] eqn:E2; [eauto |].
      pose proof (proj1 (Htree e) eq_refl). congruence.
    + pose proof (proj1 (Hmt e) eq_refl). congruence.
Qed.

(** X3.  The defaults of [payment.get] are evaluated whether they are
    used or not.  [generate_mt103], once the amount is converted, reads
    the clock and draws a UUID even for a record that carries its value
    date and its reference: it leaves the environment one UUID further,
    and one clock reading further when the value date reads as a date,
    two when it does not; when the amount does not convert it has
    touched nothing.  The tree builders of the pain.001 generators draw
    two UUIDs and read the clock twice for every document they build. *)
Theorem generators_use_of_the_environment :
  forall (payment : Payment) (w : World),
    match rbind (amount_item payment) to_Decimal with
    | Err _ => snd (generate_mt103 fromisoformat payment w) = w
    | Ok _ =>
        let today := today_at w (clock_reads w) in
        let w' := snd (generate_mt103 fromisoformat payment w) in
        uuid_draws w' = S (uuid_draws w)
        /\ clock_reads w' =
             match fromisoformat
                     (get_or (value_date payment) (PyTime.date_isoformat today)) with
             | Some _ => 1 + clock_reads w
             | None => 2 + clock_reads w
             end
    end
    /\ (forall (tree : Element) (w' : World),
          pain001_tree payment w = (Ok tree, w')
          \/ pain001_xml_tree payment w = (Ok tree, w') ->
          uuid_draws w' = 2 + uuid_draws w /\ clock_reads w' = 2 + clock_reads w).
Proof.
  intros payment w. split.
  - unfold generate_mt103, mt103_lines. RunFacts.run_monad.
    destruct (rbind (amount_item payment) to_Decimal) as [a|e]; [| reflexivity].
    cbn [fst snd tick draw today_at clock_reads uuid_at uuid_draws].
    destruct (fromisoformat _) as [d|];
      cbn [fst snd tick draw today_at clock_reads uuid_at uuid_draws];
      destruct (format_amount a (get_or (currency payment) "USD")) as [text|e];
      split; reflexivity.
  - intros tree w' [H|H].
    + unfold pain001_tree in H. RunFacts.run_monad.
      destruct (amount_text_of payment) as [text|e]; [| discriminate].
      injection H as _ <-. split; reflexivity.
    + unfold pain001_xml_tree in H. RunFacts.run_monad.
      destruct (amount_text_xml payment) as [text|e]; [| discriminate].
      injection H as _ <-. split; reflexivity.
Qed.

(** X4.  The identifiers of a message.  For a record that carries a
    reference, the [:20:] line of [generate_mt103] and the elements
    [MsgId] and [EndToEndId] of both pain.001 generators hold that
    reference.  For a record without one they hold generated values:
    [MsgId] the first UUID the generator draws and [EndToEndId] the
    second, the [:20:] line the first twelve characters, in capitals, of
    the UUID [generate_mt103] draws. *)
Theorem message_identifiers :
  forall (payment : Payment) (w : World),
    (forall (lines : list string) (w' : World),
        mt103_lines fromisoformat payment w = (Ok lines, w') ->
        nth_error lines 3
        = Some (":20:" ++ get_or (reference payment)
                            (take 12 (upper (uuid_at w (uuid_draws w))))))
    /\ (forall (tree : Element) (w' : World),
          pain001_tree payment w = (Ok tree, w')
          \/ pain001_xml_tree payment w = (Ok tree, w') ->
          Xml.texts "MsgId" tree
          = [Some (get_or (reference payment) (uuid_at w (uuid_draws w)))]
          /\ Xml.texts "EndToEndId" tree
             = [Some (get_or (reference payment) (uuid_at w (S (uuid_draws w))))]).
Proof.
  intros payment w. split.
  - intros lines w' H.
    pose proof (RunFacts.mt103_lines_cases fromisoformat payment w) as Hc.
    rewrite H in Hc. destruct Hc as (text & _ & ->). reflexivity.
  - intros tree w' [H|H].
    + unfold pain001_tree in H. RunFacts.run_monad.
      destruct (amount_text_of payment) as [text|e]; [| discriminate].
      injection H as <- _.
      destruct (truthy (beneficiary_bic payment)), (truthy (remittance_info payment));
        split; reflexivity.
    + unfold pain001_xml_tree in H. RunFacts.run_monad.
      destruct (amount_text_xml payment) as [text|e]; [| discriminate].
      injection H as <- _.
      destruct (truthy (remittance_info payment)); split; reflexivity.
Qed.

End GeneratorInputs.

(** X2 at a record that holds nothing. *)
Lemma generators_stop_only_at_amount_witness :
  run (generate_mt103 PyTime.fromisoformat_ymd
         {| ordering_account := None; ordering_name := None;
            beneficiary_account := None; beneficiary_name := None;
            amount := None; currency := None; value_date := None;
            remittance_info := None; beneficiary_bic := None; reference := None |})
      Sample.world
  = Err KeyError.
Proof.
  apply (proj1 (proj2 (proj2 (proj2
           (generators_stop_only_at_amount PyTime.fromisoformat_ymd _ Sample.world))))).
  reflexivity.
Defined.

(** X3 at the sample payment: two UUIDs and two clock readings for one
    document. *)
Lemma generators_use_of_the_environment_witness :
  uuid_draws (snd (pain001_tree (Sample.payment "1500.5" "") Sample.world)) = 2
  /\ clock_reads (snd (pain001_tree (Sample.payment "1500.5" "") Sample.world)) = 2.
Proof.
  destruct (pain001_tree (Sample.payment "1500.5" "") Sample.world) as [r w'] eqn:E.
  destruct r as [tree|e]; [| vm_compute in E; discriminate E].
  exact (proj2 (generators_use_of_the_environment PyTime.fromisoformat_ymd
                  (Sample.payment "1500.5" "") Sample.world)
           tree w' (or_introl E)).
Defined.

(** X4 at the sample payment, whose reference is REF001. *)
Lemma message_identifiers_witness :
  exists tree w',
    pain001_tree (Sample.payment "1500.5" "") Sample.world = (Ok tree, w')
    /\ Xml.texts "MsgId" tree = [Some "REF001"]
    /\ Xml.texts "EndToEndId" tree = [Some "REF001"].
Proof.
  destruct (pain001_tree (Sample.payment "1500.5" "") Sample.world) as [r w'] eqn:E.
  destruct r as [tree|e]; [| vm_compute in E; discriminate E].
  exists tree, w'. split; [reflexivity |].
  exact (proj2 (message_identifiers PyTime.fromisoformat_ymd
                  (Sample.payment "1500.5" "") Sample.world)
           tree w' (or_introl E)).
Defined.

(** ** The two pain.001 generators side by side *)

(** X5.  The creditor agent.  [generate_pain001] of swift_messages.py
    puts the block [CdtrAgt] with the beneficiary's BIC into the
    document exactly when the record holds a BIC that is not empty;
    [generate_pain001_xml] of the Streamlit page never does, whatever
    the record holds. *)
Theorem creditor_agent_only_in_swift_messages :
  forall (payment : Payment) (w w' : World) (tree : Element),
    (pain001_tree payment w = (Ok tree, w') ->
     Xml.texts "BIC" tree
     = (if truthy (beneficiary_bic payment)
        then [Some (get_or (beneficiary_bic payment) "")] else [])
     /\ List.length (Xml.iter "CdtrAgt" tree)
        = (if truthy (beneficiary_bic payment) then 1 else 0))
    /\ (pain001_xml_tree payment w = (Ok tree, w') ->
        Xml.texts "BIC" tree = [] /\ Xml.iter "CdtrAgt" tree = []).
Proof.
  intros payment w w' tree. split; intros H.
  - unfold pain001_tree in H. RunFacts.run_monad.
    destruct (amount_text_of payment) as [text|e]; [| discriminate].
    injection H as <- _.
    destruct (truthy (beneficiary_bic payment)), (truthy (remittance_info payment));
      split; reflexivity.
  - unfold pain001_xml_tree in H. RunFacts.run_monad.
    destruct (amount_text_xml payment) as [text|e]; [| discriminate].
    injection H as <- _.
    destruct (truthy (remittance_info payment)); split; reflexivity.
Qed.

(** X5 at the sample payment with a BIC added. *)
Lemma creditor_agent_only_in_swift_messages_witness :
  exists tree w',
    pain001_tree
      {| ordering_account := None; ordering_name := None;
         beneficiary_account := None; beneficiary_name := None;
         amount := Some (AmountDecimal (Finite false 15005 (-1)));
         currency := None; value_date := None; remittance_info := None;
         beneficiary_bic := Some "DEUTDEFF"; reference := None |}
      Sample.world = (Ok tree, w')
    /\ Xml.texts "BIC" tree = [Some "DEUTDEFF"].
Proof.
  match goal with
  | |- exists tree w', pain001_tree ?p ?w = _ /\ _ =>
      destruct (pain001_tree p w) as [r w'] eqn:E;
      destruct r as [tree|e]; [| vm_compute in E; discriminate E];
      exists tree, w'; split; [reflexivity |];
      exact (proj1 (proj1 (creditor_agent_only_in_swift_messages p w w' tree) E))
  end.
Defined.

(** X6.  Apart from the creditor agent and the kind of amount they take,
    the two pain.001 generators build the same document: for a record
    whose amount is a [Decimal] and which holds no BIC, the tree of
    [generate_pain001] is the tree of [generate_pain001_xml], and both
    leave the same environment.  An amount given as text, which
    [generate_pain001] converts, makes [generate_pain001_xml] end with
    AttributeError. *)
Theorem pain001_generators_agree :
  forall (payment : Payment) (w : World),
    (forall d : Decimal,
        amount payment = Some (AmountDecimal d) ->
        truthy (beneficiary_bic payment) = false ->
        pain001_tree payment w = pain001_xml_tree payment w)
    /\ (forall text : string,
          amount payment = Some (AmountText text) ->
          run (pain001_xml_tree payment) w = Err AttributeError).
Proof.
  intros payment w. split.
  - intros d Hd Hbic.
    assert (E : amount_text_of payment = amount_text_xml payment).
    { unfold amount_text_of, amount_text_xml, amount_item. rewrite Hd. reflexivity. }
    unfold pain001_tree, pain001_xml_tree. RunFacts.run_monad.
    rewrite E, Hbic.
    destruct (amount_text_xml payment) as [text|e]; reflexivity.
  - intros text Ht.
    unfold pain001_xml_tree, amount_text_xml, amount_item. RunFacts.run_monad.
    rewrite Ht. reflexivity.
Qed.

(** X6 at a record that holds a [Decimal] and nothing else. *)
Lemma pain001_generators_agree_witness :
  pain001_tree
    {| ordering_account := None; ordering_name := None;
       beneficiary_account := None; beneficiary_name := None;
       amount := Some (AmountDecimal (Finite false 15005 (-1)));
       currency := None; value_date := None; remittance_info := None;
       beneficiary_bic := None; reference := None |}
    Sample.world
  = pain001_xml_tree
      {| ordering_account := None; ordering_name := None;
         beneficiary_account := None; beneficiary_name := None;
         amount := Some (AmountDecimal (Finite false 15005 (-1)));
         currency := None; value_date := None; remittance_info := None;
         beneficiary_bic := None; reference := None |}
      Sample.world.
Proof.
  apply (proj1 (pain001_generators_agree _ Sample.world) (Finite false 15005 (-1)));
    reflexivity.
Defined.

(** ** The tag lines typed into the page *)

Module TagFacts.
Import PyStr TagLines.

(** One turn of the loop over the lines of the text area. *)
Lemma parse_step (acc : pydict) (raw : string) :
  (fun acc raw =>
     let line := strip raw in
     if is_empty line then acc
     else if String.prefix ":" line && Ui.has_colon (drop 1 line) then
       match Ui.split_colon line with
       | (tag, Some val) => Dict.set (tag ++ ":") (strip val) acc
       | (_, None) => acc
       end
     else acc) acc raw
  = if accepted raw then Dict.set ":" (stored raw) acc else acc.
Proof.
  unfold accepted, stored. cbv beta zeta.
  destruct (is_empty (strip raw)); [reflexivity |]. cbn [negb andb].
  destruct (String.prefix ":" (strip raw)) eqn:Hp; [| reflexivity].
  cbn [andb]. destruct (Ui.has_colon (drop 1 (strip raw))); [| reflexivity].
  now rewrite (RunFacts.split_colon_leading _ Hp).
Qed.

Lemma set_colon (v : string) (acc : pydict) :
  acc = [] \/ (exists v0, acc = [ (":", v0) ]) ->
  Dict.set ":" v acc = [ (":", v) ].
Proof. intros [->|[v0 ->]]; reflexivity. Qed.

Lemma parse_from (lines : list string) :
  forall acc : pydict,
    acc = [] \/ (exists v0, acc = [ (":", v0) ]) ->
    fold_left
      (fun acc raw =>
         let line := strip raw in
         if is_empty line then acc
         else if String.prefix ":" line && Ui.has_colon (drop 1 line) then
           match Ui.split_colon line with
           | (tag, Some val) => Dict.set (tag ++ ":") (strip val) acc
           | (_, None) => acc
           end
         else acc)
      lines acc
    = match rev (filter accepted lines) with
      | [] => acc
      | raw :: _ => [ (":", stored raw) ]
      end.
Proof.
  induction lines as [|x lines IH]; intros acc Hacc; [reflexivity |].
  cbn [fold_left filter]. rewrite parse_step.
  destruct (accepted x) eqn:Hx.
  - rewrite (set_colon _ _ Hacc), IH by (right; eauto).
    cbn [rev]. destruct (rev (filter accepted lines)); reflexivity.
  - now rewrite IH.
Qed.

(** Of the lines typed, the last one that is taken is kept, under the
    key [:]. *)
Lemma parse_mt_fields_last (lines : list string) :
  Ui.parse_mt_fields lines
  = match rev (filter accepted lines) with
    | [] => []
    | raw :: _ => [ (":", stored raw) ]
    end.
Proof. unfold Ui.parse_mt_fields. apply parse_from. now left. Qed.

End TagFacts.

(** X7.  The loop of the page that reads the tag lines splits each line
    at its first colon, which is the colon the line has to begin with:
    the tag is always empty and every line is stored under the key [:].
    So of all the lines typed into the text area only the last one that
    is taken (not blank, a colon first and another one later) reaches
    the message, as the text after its first colon without the blanks
    around it; the lines before it are overwritten, and no line is kept
    under its own tag. *)
Theorem typed_tag_lines_last_wins :
  (forall lines : list string,
      Ui.parse_mt_fields lines
      = match rev (filter TagLines.accepted lines) with
        | [] => []
        | raw :: _ => [ (":", TagLines.stored raw) ]
        end)
  /\ (forall mt_fields_raw : string,
        (List.length (tag_lines (TagLines.mt_fields_of mt_fields_raw)) <= 1)%nat
        /\ forall tag : string,
             tag <> ":" -> Dict.get tag (TagLines.mt_fields_of mt_fields_raw) = None).
Proof.
  split; [exact TagFacts.parse_mt_fields_last |].
  intros mt_fields_raw. unfold TagLines.mt_fields_of.
  rewrite TagFacts.parse_mt_fields_last.
  destruct (rev (filter TagLines.accepted (PyText.splitlines mt_fields_raw)))
    as [|raw rest].
  - split; [cbn; lia | reflexivity].
  - split; [cbn; lia |].
    intros tag Htag. cbn [Dict.get].
    destruct (String.eqb_spec ":" tag) as [E|_]; [congruence | reflexivity].
Qed.

Section TypedLines.
Variable toprettyxml : string -> option string -> Element -> result string.

(** X8.  For MT103 the page merges the typed tag lines into its four
    prepared tags, and since a typed line is never stored under a tag of
    its own it never takes the place of one of them: block 4 of the
    message is the [:20:] line, the prepared [:32A:], [:50K:], [:59:]
    and [:70:] lines as they are, then the one typed line that was kept,
    if any, then the sender trailer. *)
Theorem typed_tag_lines_leave_mt103_tags :
  forall (ui : Ui.Form) (lines : list string) (a : Decimal)
         (amount_text : string) (w : World),
    Ui.msg_type ui = "MT103" ->
    Ui.mt_fields ui = Ui.parse_mt_fields lines ->
    of_string (strip (Ui.amount_text ui)) = Ok a ->
    format_decimal a = Ok amount_text ->
    run (compose_message_body toprettyxml ui) w
    = Ok (join nl
            (app [ "{1:F01" ++ Ui.sender_bic ui ++ "XXXX0000000000}";
                   "{2:O1031200" ++ Ui.sender_bic ui ++ "XXXX0000000000}";
                   "{4:";
                   ":20:" ++ Readings.mt_ref "103" (Some (Ui.reference ui)) (tick w);
                   ":32A:" ++ PyTime.strftime_yymmdd (today_at w (clock_reads w))
                     ++ Ui.currency ui ++ amount_text;
                   ":50K:" ++ Ui.ordering_name ui ++ " /" ++ Ui.ordering_account ui;
                   ":59:" ++ Ui.beneficiary_name ui ++ " /" ++ Ui.beneficiary_account ui;
                   ":70:" ++ Ui.remittance ui ]
               (app (tag_lines (Ui.parse_mt_fields lines))
                    (sender_trailer (compose_sender_info ui))))).
Proof.
  intros ui lines a amount_text w Hty Hfields Hamt Hfmt.
  unfold compose_message_body, run, bind, or_stop, lift, date_today.
  rewrite Hamt, Hty, Hfmt, Hfields.
  cbn [String.eqb Ascii.eqb Bool.eqb].
  rewrite RunFacts.build_mt_message_run. cbn [fst].
  rewrite TagFacts.parse_mt_fields_last.
  destruct (rev (filter TagLines.accepted lines)) as [|raw rest]; reflexivity.
Qed.

(** ** What the compose handler does with the amount *)

Lemma compose_run (ui : Ui.Form) (w : World) :
  run (compose toprettyxml ui) w
  = match
      compose_message_body toprettyxml ui
        (if truthy (Ui.message_start_ts ui) then w else tick w)
    with
    | (Ok message_body, w1) =>
        run (build_formal_output (Ui.msg_type ui) message_body (compose_sender_info ui)
               (if truthy (Ui.message_start_ts ui)
                then get_or (Ui.message_start_ts ui) ""
                else PyTime.datetime_isoformat (utc_at w (clock_reads w)))
               (PyTime.datetime_isoformat (utc_at w1 (clock_reads w1)))
               (or_else (Some (Ui.selected_account ui)) ""))
            (tick w1)
    | (Err e, _) => Err e
    end.
Proof.
  unfold compose, run, bind, ret, utcnow.
  destruct (truthy (Ui.message_start_ts ui));
    destruct (compose_message_body toprettyxml ui _) as [[body|e] w1]; reflexivity.
Qed.

(** X9.  The amount field of the page.  A text that [Decimal] does not
    accept stops the handler for every message type.  A text that
    [Decimal] accepts but that cannot be brought to two decimals (an
    infinity, a signalling NaN, 27 or more integer digits) is treated
    differently by the branches: for MT103 the exception of the
    formatter leaves the handler uncaught; on the way to the pain.001
    document it is caught and the handler stops; for MT199, MT700, MT760
    and MT799 the amount is never formatted and the message is built. *)
Theorem compose_and_the_amount :
  (forall (ui : Ui.Form) (e : exn) (w : World),
      of_string (strip (Ui.amount_text ui)) = Err e ->
      run (compose toprettyxml ui) w = Err StopExecution)
  /\ (forall (ui : Ui.Form) (a : Decimal) (e : exn) (w : World),
        of_string (strip (Ui.amount_text ui)) = Ok a ->
        format_decimal a = Err e ->
        (Ui.msg_type ui = "MT103" -> run (compose toprettyxml ui) w = Err e)
        /\ (~ In (Ui.msg_type ui) (map fst MT_TEMPLATES) ->
            run (compose toprettyxml ui) w = Err StopExecution))
  /\ (forall (ui : Ui.Form) (a : Decimal) (w : World),
        of_string (strip (Ui.amount_text ui)) = Ok a ->
        In (Ui.msg_type ui) [ "MT199"; "MT799"; "MT700"; "MT760" ] ->
        exists formal_text, run (compose toprettyxml ui) w = Ok formal_text).
Proof.
  split; [| split].
  - intros ui e w Hamt. rewrite compose_run.
    unfold compose_message_body, bind, or_stop, lift. now rewrite Hamt.
  - intros ui a e w Hamt Hfmt. split.
    + intros Hty. rewrite compose_run.
      unfold compose_message_body, bind, or_stop, lift, date_today.
      rewrite Hamt, Hty, Hfmt. reflexivity.
    + intros Hty. rewrite compose_run.
      unfold compose_message_body, bind, or_stop, lift, date_today.
      rewrite Hamt.
      cbn [map fst MT_TEMPLATES In] in Hty.
      destruct (String.eqb_spec (Ui.msg_type ui) "MT103") as [E|_]; [intuition congruence |].
      destruct (String.eqb_spec (Ui.msg_type ui) "MT199") as [E|_]; [intuition congruence |].
      destruct (String.eqb_spec (Ui.msg_type ui) "MT799") as [E|_]; [intuition congruence |].
      destruct (String.eqb_spec (Ui.msg_type ui) "MT700") as [E|_]; [intuition congruence |].
      destruct (String.eqb_spec (Ui.msg_type ui) "MT760") as [E|_]; [intuition congruence |].
      cbn [orb].
      unfold generate_pain001_xml, pain001_xml_tree, amount_text_xml, amount_item.
      RunFacts.run_monad. cbn [amount rbind]. rewrite Hfmt. reflexivity.
  - intros ui a w Hamt Hty. rewrite compose_run.
    unfold compose_message_body, bind, or_stop, lift.
    rewrite Hamt.
    cbn [In] in Hty.
    destruct Hty as [E|[E|[E|[E|[]]]]]; rewrite <- E;
      cbn [String.eqb Ascii.eqb Bool.eqb orb remove_MT];
      rewrite RunFacts.build_mt_message_run; eexists; reflexivity.
Qed.

(** X10.  For MT199, MT700, MT760 and MT799 the handler uses nothing of
    the payment: two forms of such a type that differ only in the
    ordering party, the beneficiary, the amount and the currency, with
    amounts that [Decimal] accepts, give the same formal text. *)
Theorem free_format_ignores_the_payment :
  forall (ui1 ui2 : Ui.Form) (a1 a2 : Decimal) (w : World),
    In (Ui.msg_type ui1) [ "MT199"; "MT799"; "MT700"; "MT760" ] ->
    TagLines.same_but_payment ui1 ui2 ->
    of_string (strip (Ui.amount_text ui1)) = Ok a1 ->
    of_string (strip (Ui.amount_text ui2)) = Ok a2 ->
    run (compose toprettyxml ui1) w = run (compose toprettyxml ui2) w.
Proof.
  intros ui1 ui2 a1 a2 w Hty Hsame H1 H2.
  destruct Hsame as (E1 & E2 & E3 & E4 & E5 & E6 & E7 & E8 & E9 & E10 & E11).
  rewrite !compose_run.
  unfold compose_message_body, compose_sender_info, bind, or_stop, lift.
  rewrite H1, H2, <- E1, <- E2, <- E3, <- E4, <- E5, <- E6, <- E7, <- E8, <- E9,
          <- E10, <- E11.
  cbn [In] in Hty.
  destruct Hty as [E|[E|[E|[E|[]]]]]; rewrite <- E;
    cbn [String.eqb Ascii.eqb Bool.eqb orb remove_MT];
    rewrite !RunFacts.build_mt_message_run; reflexivity.
Qed.

End TypedLines.

(** X8 at two typed lines, the second of which is kept. *)
Lemma typed_tag_lines_leave_mt103_tags_witness :
  exists text,
    run (compose_message_body MiniDom.toprettyxml
           (Sample.form "MT103" (Ui.parse_mt_fields [ ":59:SOMEONE"; ":70:OVERRIDE" ]) "NOTE"))
        Sample.world = Ok text
    /\ In ":59:ACME CORP /DE89370400440532013000" (split_nl text)
    /\ In ":70:NOTE" (split_nl text)
    /\ ~ In ":59:SOMEONE" (split_nl text).
Proof.
  eexists. split.
  - apply (typed_tag_lines_leave_mt103_tags MiniDom.toprettyxml
             (Sample.form "MT103" (Ui.parse_mt_fields [ ":59:SOMEONE"; ":70:OVERRIDE" ]) "NOTE")
             [ ":59:SOMEONE"; ":70:OVERRIDE" ] (Finite false 15005 (-1)) "1500.50"
             Sample.world); reflexivity.
  - vm_compute. repeat split; try tauto.
    intros H. repeat (destruct H as [H|H]; [discriminate H |]). exact H.
Defined.

(** X9 at the amount text Infinity: an exception for MT103, a stop for
    a pain.001 document, a message for MT199. *)
Lemma compose_and_the_amount_witness :
  run (compose MiniDom.toprettyxml (Sample2.other_payment "MT103" "Infinity")) Sample.world
  = Err InvalidOperation
  /\ run (compose MiniDom.toprettyxml (Sample2.other_payment "pain.001" "Infinity"))
       Sample.world
     = Err StopExecution
  /\ run (compose MiniDom.toprettyxml (Sample2.other_payment "MT103" "abc")) Sample.world
     = Err StopExecution
  /\ exists formal_text,
       run (compose MiniDom.toprettyxml (Sample2.other_payment "MT199" "Infinity"))
         Sample.world
       = Ok formal_text.
Proof.
  pose proof (compose_and_the_amount MiniDom.toprettyxml) as (H1 & H2 & H3).
  split; [| split; [| split]].
  - apply (proj1 (H2 (Sample2.other_payment "MT103" "Infinity") (Infinite false)
                    InvalidOperation Sample.world eq_refl eq_refl)).
    reflexivity.
  - apply (proj2 (H2 (Sample2.other_payment "pain.001" "Infinity") (Infinite false)
                    InvalidOperation Sample.world eq_refl eq_refl)).
    cbn. intros H. repeat (destruct H as [H|H]; [discriminate H |]). exact H.
  - apply (H1 (Sample2.other_payment "MT103" "abc") InvalidOperation Sample.world).
    reflexivity.
  - apply (H3 (Sample2.other_payment "MT199" "Infinity") (Infinite false) Sample.world).
    + reflexivity.
    + cbn. tauto.
Defined.

(** X10 at two MT199 forms with different payments. *)
Lemma free_format_ignores_the_payment_witness :
  run (compose MiniDom.toprettyxml (Sample.form "MT199" [] "NOTE")) Sample.world
  = run (compose MiniDom.toprettyxml (Sample2.other_payment "MT199" "-7e3")) Sample.world.
Proof.
  apply (free_format_ignores_the_payment MiniDom.toprettyxml
           (Sample.form "MT199" [] "NOTE") (Sample2.other_payment "MT199" "-7e3")
           (Finite false 15005 (-1)) (Finite true 7 3) Sample.world).
  - cbn. tauto.
  - repeat split.
  - reflexivity.
  - vm_compute. reflexivity.
Defined.

(** ** The text on the PDF *)

Module PdfFacts.
Import PyStr PyText Pdf PyStrFacts.

Lemma append_nil (s : string) : s ++ "" = s.
Proof. induction s as [|c s IH]; simpl; [reflexivity | now rewrite IH]. Qed.

Lemma take_drop (n : nat) (s : string) : take n s ++ drop n s = s.
Proof.
  revert s. induction n as [|n IH]; intros [|c s]; simpl; try reflexivity.
  now rewrite IH.
Qed.

Lemma length_take (n : nat) (s : string) :
  String.length (take n s) = Nat.min n (String.length s).
Proof.
  revert s. induction n as [|n IH]; intros [|c s]; simpl; try reflexivity.
  now rewrite IH.
Qed.

Lemma length_drop (n : nat) (s : string) :
  String.length (drop n s) = String.length s - n.
Proof.
  revert s. induction n as [|n IH]; intros [|c s]; simpl; try reflexivity.
  apply IH.
Qed.

Lemma take_all (n : nat) (s : string) :
  take n s = s <-> (String.length s <= n)%nat.
Proof.
  split.
  - intros H. rewrite <- H, length_take. lia.
  - revert s. induction n as [|n IH]; intros [|c s]; simpl; intros H;
      try reflexivity; try lia.
    f_equal. apply IH. lia.
Qed.

(** Joining with the empty separator is concatenation. *)
Lemma concat_cons (x : string) (l : list string) :
  String.concat "" (x :: l) = x ++ String.concat "" l.
Proof. destruct l; cbn [String.concat append]; [now rewrite append_nil | reflexivity]. Qed.

Lemma concat_app (a b : list string) :
  String.concat "" (app a b) = String.concat "" a ++ String.concat "" b.
Proof.
  induction a as [|x a IH]; [reflexivity |].
  cbn [app]. rewrite !concat_cons, IH. now rewrite append_assoc.
Qed.

(** The loop with enough fuel: full pieces, then a rest that is not
    empty unless the line is. *)
Lemma wrap_pieces (n : nat) :
  (0 < n)%nat ->
  forall (fuel : nat) (line : string),
    (String.length line <= fuel)%nat ->
    exists full last,
      wrap fuel n line = app full [last]
      /\ Forall (fun piece => String.length piece = n) full
      /\ (String.length last <= n)%nat
      /\ (line <> "" -> (1 <= String.length last)%nat)
      /\ String.concat "" (wrap fuel n line) = line.
Proof.
  intros Hn. induction fuel as [|fuel IH]; intros line Hlen.
  - destruct line; [| cbn in Hlen; lia].
    exists [], "". cbn. repeat split; try constructor; try lia. congruence.
  - cbn [wrap]. destruct (n <? String.length line)%nat eqn:Hcmp.
    + apply Nat.ltb_lt in Hcmp.
      destruct (IH (drop n line)) as (full & last & Hw & Hfull & Hlast & Hne & Hcat).
      { rewrite length_drop. lia. }
      exists (take n line :: full), last.
      split; [cbn [app]; now rewrite Hw |].
      split; [constructor; [rewrite length_take; lia | exact Hfull] |].
      split; [exact Hlast |].
      split.
      * intros _. apply Hne. intros E.
        pose proof (length_drop n line) as Hd. rewrite E in Hd. cbn in Hd. lia.
      * rewrite concat_cons, Hcat. apply take_drop.
    + apply Nat.ltb_ge in Hcmp.
      exists [], line. cbn [app String.concat].
      repeat split; try constructor; try lia.
      intros Hne. destruct line; [congruence | cbn; lia].
Qed.

Lemma concat_pieces (lines : list string) :
  String.concat "" (flat_map line_pieces lines) = String.concat "" lines.
Proof.
  induction lines as [|l lines IH]; [reflexivity |].
  cbn [flat_map]. rewrite concat_app, concat_cons, IH. f_equal.
  destruct (wrap_pieces max_chars ltac:(unfold max_chars; lia)
              (String.length l) l (le_n _))
    as (_ & _ & _ & _ & _ & _ & H).
  exact H.
Qed.

Lemma map_take_all (n : nat) (lines : list string) :
  map (take n) lines = lines <-> Forall (fun l => (String.length l <= n)%nat) lines.
Proof.
  induction lines as [|l lines IH]; cbn [map].
  - split; [constructor | reflexivity].
  - split.
    + intros [= H1 H2]. constructor; [now apply take_all | now apply IH].
    + intros H. inversion H as [|? ? H1 H2]; subst.
      f_equal; [now apply take_all | now apply IH].
Qed.

End PdfFacts.

(** X11.  The PDF export of the Streamlit page loses no text: a line of
    the formal text is drawn as pieces of exactly 95 characters followed
    by a last piece of at most 95, which is empty only for an empty
    line, and the pieces put together are the line; so the strings drawn
    after the title, put together, are the lines of the formal text put
    together.  The PDF export of streamlit_client.py draws the first 120
    characters of each line and drops the rest: what it draws are the
    lines of the formal text exactly when none is longer than 120
    characters. *)
Theorem pdf_wraps_and_client_pdf_cuts :
  (forall line : string,
      exists full last,
        Pdf.line_pieces line = app full [last]
        /\ Forall (fun piece => String.length piece = 95) full
        /\ (String.length last <= 95)%nat
        /\ (line <> "" -> (1 <= String.length last)%nat)
        /\ String.concat "" (Pdf.line_pieces line) = line)
  /\ (forall formal_text : string,
        String.concat "" (tl (Pdf.drawn_strings formal_text))
        = String.concat "" (PyText.splitlines formal_text))
  /\ (forall formal_text : string,
        tl (Pdf.client_drawn_strings formal_text) = PyText.splitlines formal_text
        <-> Forall (fun line => (String.length line <= 120)%nat)
              (PyText.splitlines formal_text)).
Proof.
  split; [| split].
  - intros line.
    exact (PdfFacts.wrap_pieces 95 ltac:(lia) (String.length line) line (le_n _)).
  - intros formal_text. cbn [Pdf.drawn_strings tl]. apply PdfFacts.concat_pieces.
  - intros formal_text. cbn [Pdf.client_drawn_strings tl]. apply PdfFacts.map_take_all.
Qed.

(** X11 at a text of one short line. *)
Lemma pdf_wraps_and_client_pdf_cuts_witness :
  tl (Pdf.client_drawn_strings "MESSAGE HEADER") = PyText.splitlines "MESSAGE HEADER".
Proof.
  apply (proj2 (proj2 pdf_wraps_and_client_pdf_cuts) "MESSAGE HEADER").
  repeat constructor.
Defined.

(** ** The extension of a downloaded logo *)

Module LogoFacts.
Import PyStr PyText Logo.

Lemma lower_upper_char (c : ascii) : lower_char (upper_char c) = lower_char c.
Proof. destruct c as [[] [] [] [] [] [] [] []]; reflexivity. Qed.

Lemma lower_upper (s : string) : lower (upper s) = lower s.
Proof.
  unfold lower, upper. induction s as [|c s IH]; [reflexivity |].
  cbn [map_chars]. now rewrite lower_upper_char, IH.
Qed.

Lemma or_else_lower (content_type : string) :
  lower (or_else (Some content_type) "") = lower content_type.
Proof. destruct content_type; reflexivity. Qed.

End LogoFacts.

(** X12.  The extension given to a downloaded logo is one of [.svg],
    [.png] and [.jpg] ([.jpeg] becomes [.jpg], anything unknown
    [.png]); it does not depend on the letter case of the address or of
    the content type; a missing content type counts as an empty one; a
    content type that names svg, or an address that ends in [.svg],
    gives [.svg] whatever the other says; and the function of
    fetch_logo.py is the same function. *)
Theorem choose_extension_cases :
  forall (url : string) (content_type : string),
    In (Logo._choose_extension url (Some content_type)) [ ".svg"; ".png"; ".jpg" ]
    /\ Logo._choose_extension (upper url) (Some (upper content_type))
       = Logo._choose_extension url (Some content_type)
    /\ Logo._choose_extension url None = Logo._choose_extension url (Some "")
    /\ (PyText.contains "svg" (lower content_type) = true
        \/ PyText.endswith ".svg" (lower url) = true ->
        Logo._choose_extension url (Some content_type) = ".svg")
    /\ (forall content_type' : option string,
          Logo.choose_extension url content_type'
          = Logo._choose_extension url content_type').
Proof.
  intros url content_type.
  split; [| split; [| split; [| split]]].
  - unfold Logo._choose_extension. cbv zeta.
    repeat match goal with
           | |- context [if ?b then _ else _] => destruct b
           end; cbn; tauto.
  - unfold Logo._choose_extension.
    now rewrite !LogoFacts.or_else_lower, !LogoFacts.lower_upper.
  - reflexivity.
  - intros H. unfold Logo._choose_extension. rewrite LogoFacts.or_else_lower.
    destruct H as [H|H]; rewrite H; [reflexivity | now rewrite orb_true_r].
  - intros content_type'. reflexivity.
Qed.

(** X12 at an address that ends in [.SVG], served as a PNG image. *)
Lemma choose_extension_cases_witness :
  Logo._choose_extension "https://example.org/LOGO.SVG" (Some "image/png") = ".svg".
Proof.
  apply (proj1 (proj2 (proj2 (proj2
           (choose_extension_cases "https://example.org/LOGO.SVG" "image/png"))))).
  right. vm_compute. reflexivity.
Defined.

(** ** The request address of the client *)

Module UrlFacts.
Import PyStr PyText PyStrFacts.






End UrlFacts.


(** ** The user store *)

Module JsonFacts.
Import Json.

Lemma get_set (k k' : string) (v : value) (d : list (string * value)) :
  get k' (set k v d) = if String.eqb k k' then Some v else get k' d.
Proof.
  induction d as [|[k0 v0] d IH]; cbn [set get].
  - destruct (String.eqb k k'); reflexivity.
  - destruct (String.eqb_spec k0 k) as [->|Hne]; cbn [get].
    + destruct (String.eqb k k'); reflexivity.
    + rewrite IH.
      destruct (String.eqb_spec k0 k') as [->|Hk]; [| reflexivity].
      destruct (String.eqb_spec k k') as [->|_]; [congruence | reflexivity].
Qed.

Lemma get_absent (k : string) (d : list (string * value)) :
  ~ In k (map fst d) -> get k d = None.
Proof.
  induction d as [|[k0 v0] d IH]; cbn [get map fst In]; [reflexivity |].
  intros Hn. destruct (String.eqb_spec k0 k) as [->|_]; [tauto |].
  apply IH. tauto.
Qed.

(** [d.update(other)]: the value of [other] where it has the key, the
    old value elsewhere. *)
Lemma get_update (k : string) (other : list (string * value)) :
  NoDup (map fst other) ->
  forall d : list (string * value),
    get k (update d other)
    = match get k other with
      | Some v => Some v
      | None => get k d
      end.
Proof.
  unfold update.
  induction other as [|[k0 v0] other IH]; intros Hnd d; [reflexivity |].
  cbn [fold_left fst snd get map] in *.
  inversion Hnd as [|? ? Hnotin Hnd']; subst.
  rewrite (IH Hnd'), get_set.
  destruct (String.eqb_spec k0 k) as [->|_]; [| reflexivity].
  now rewrite (get_absent k other Hnotin).
Qed.

End JsonFacts.

Module StoreFacts.
Import Json UserStore JsonFacts.

Section Hash.
Variable sha256_hexdigest : string -> string.

(** Both programs hash alike and write the same entry. *)
Lemma same_entry (username password : string) :
  AddUser.entry sha256_hexdigest username password
  = Login.entry sha256_hexdigest username password.
Proof. reflexivity. Qed.

Lemma names_entry (username u0 password : string) :
  names u0 (Login.entry sha256_hexdigest username password) = String.eqb username u0.
Proof. reflexivity. Qed.

(** On a list of dicts the loop of [validate_user] does not raise. *)
Lemma find_login_app (u0 h0 : string) (users rest : list value) :
  forallb is_object users = true ->
  exists b,
    Login.find_login u0 h0 users = Returns b
    /\ Login.find_login u0 h0 (app users rest)
       = if b then Returns true else Login.find_login u0 h0 rest.
Proof.
  induction users as [|u users IH]; intros H.
  - exists false. split; reflexivity.
  - cbn [forallb] in H. apply andb_true_iff in H as [Hu H].
    destruct u as [| | | | |m]; try discriminate.
    cbn [app Login.find_login].
    destruct (is_str (get "username" m) u0 && is_str (get "password" m) h0).
    + exists true. split; reflexivity.
    + exact (IH H).
Qed.

Lemma find_login_entry (u0 h0 username password : string) :
  Login.find_login u0 h0 [ Login.entry sha256_hexdigest username password ]
  = Returns (String.eqb username u0
             && String.eqb (Login.hash_password sha256_hexdigest password) h0).
Proof.
  cbn.
  destruct (String.eqb username u0
            && String.eqb (Login.hash_password sha256_hexdigest password) h0);
    reflexivity.
Qed.

(** The loop of [user_exists] on a list of dicts. *)
Lemma find_user_count (u0 : string) (users : list value) :
  forallb is_object users = true ->
  AddUser.find_user u0 users = Returns (negb (List.length (filter (names u0) users) =? 0)%nat).
Proof.
  induction users as [|u users IH]; intros H; [reflexivity |].
  cbn [forallb] in H. apply andb_true_iff in H as [Hu H].
  destruct u as [| | | | |m]; try discriminate.
  cbn [AddUser.find_user filter names].
  destruct (is_str (get "username" m) u0); [reflexivity | exact (IH H)].
Qed.

(** The comprehension of [overwrite_user] on a list of dicts. *)
Lemma others_filter (u0 : string) (users : list value) :
  forallb is_object users = true ->
  AddUser.others u0 users = Returns (filter (fun u => negb (names u0 u)) users).
Proof.
  induction users as [|u users IH]; intros H; [reflexivity |].
  cbn [forallb] in H. apply andb_true_iff in H as [Hu H].
  destruct u as [| | | | |m]; try discriminate.
  cbn [AddUser.others filter names]. rewrite (IH H).
  destruct (is_str (get "username" m) u0); reflexivity.
Qed.

Lemma forallb_object_app (a b : list value) :
  forallb is_object (app a b) = forallb is_object a && forallb is_object b.
Proof. apply forallb_app. Qed.

Lemma forallb_object_filter (f : value -> bool) (users : list value) :
  forallb is_object users = true -> forallb is_object (filter f users) = true.
Proof.
  induction users as [|u users IH]; [reflexivity |].
  cbn [forallb filter]. intros H. apply andb_true_iff in H as [Hu H].
  destruct (f u); cbn [forallb]; [rewrite Hu |]; now apply IH.
Qed.

Lemma filter_names_others (u0 u' : string) (users : list value) :
  filter (names u') (filter (fun u => negb (names u0 u)) users)
  = if String.eqb u0 u' then [] else filter (names u') users.
Proof.
  induction users as [|u users IH].
  - now destruct (String.eqb u0 u').
  - cbn [filter].
    destruct (String.eqb_spec u0 u') as [->|Hne].
    + destruct (names u' u) eqn:E; cbn [negb filter]; [exact IH |].
      now rewrite E.
    + destruct (names u0 u) eqn:E0; cbn [negb filter].
      * rewrite IH.
        assert (E' : names u' u = false).
        { destruct u as [| | | | |m]; try reflexivity.
          cbn [names] in *. unfold is_str in *.
          destruct (get "username" m) as [[| | |t| |]|]; try reflexivity.
          apply String.eqb_eq in E0. subst t.
          now apply String.eqb_neq. }
        now rewrite E'.
      * rewrite IH. reflexivity.
Qed.

(** Among the entries of other names none lets the name in. *)
Lemma find_login_others (u0 h0 : string) (users : list value) :
  forallb is_object users = true ->
  Login.find_login u0 h0 (filter (fun u => negb (names u0 u)) users) = Returns false.
Proof.
  induction users as [|u users IH]; intros H; [reflexivity |].
  cbn [forallb] in H. apply andb_true_iff in H as [Hu H].
  destruct u as [| | | | |m]; try discriminate.
  cbn [filter names].
  destruct (is_str (get "username" m) u0) eqn:E; cbn [negb]; [exact (IH H) |].
  cbn [Login.find_login]. rewrite E. exact (IH H).
Qed.

(** A store that is well formed, by cases. *)
Lemma well_formed_cases (users_file : file) :
  well_formed users_file = true ->
  users_file = Missing
  \/ (exists data, users_file = Holds (JObject data) /\ get "users" data = None)
  \/ (exists data users,
        users_file = Holds (JObject data)
        /\ get "users" data = Some (JArray users)
        /\ forallb is_object users = true).
Proof.
  destruct users_file as [| |[| | | | |data]]; cbn [well_formed]; try discriminate.
  - now left.
  - destruct (get "users" data) as [[| | | |users|]|] eqn:E; try discriminate.
    + intros H. right. right. now exists data, users.
    + intros _. right. left. now exists data.
Qed.

End Hash.

End StoreFacts.

Section UserStores.
Variable sha256_hexdigest : string -> string.

(** The store after an entry is added at the end of a list of dicts. *)
Lemma validate_user_after_append
    (username password : string) (data : list (string * Json.value))
    (users : list Json.value) :
  forallb UserStore.is_object users = true ->
  let after :=
    Json.Holds
      (Json.JObject
         (Json.set "users"
            (Json.JArray (app users [ Login.entry sha256_hexdigest username password ]))
            data)) in
  UserStore.well_formed after = true
  /\ UserStore.entries after
     = app users [ Login.entry sha256_hexdigest username password ]
  /\ forall u0 p0 : string,
       exists before : bool,
         Login.find_login u0 (Login.hash_password sha256_hexdigest p0) users
         = Json.Returns before
         /\ Login.validate_user sha256_hexdigest u0 p0 after
            = Json.Returns
                (before
                 || (String.eqb username u0
                     && String.eqb (Login.hash_password sha256_hexdigest password)
                          (Login.hash_password sha256_hexdigest p0))).
Proof.
  intros Hobj after. unfold after.
  cbn [UserStore.well_formed UserStore.entries Login.validate_user].
  unfold Json.get_default. rewrite !JsonFacts.get_set, String.eqb_refl.
  cbn [Json.iterate].
  split; [rewrite StoreFacts.forallb_object_app, Hobj; reflexivity |].
  split; [reflexivity |].
  intros u0 p0.
  destruct (StoreFacts.find_login_app u0 (Login.hash_password sha256_hexdigest p0)
              users [ Login.entry sha256_hexdigest username password ] Hobj)
    as (b & Hb & Happ).
  exists b. split; [exact Hb |].
  rewrite Happ, StoreFacts.find_login_entry. now destruct b.
Qed.

(** [add_user] of the page on a well-formed store: the list it appends
    to, which is the list [validate_user] walks through. *)
Lemma add_user_appends (username password : string) (users_file : Json.file) :
  UserStore.well_formed users_file = true ->
  exists (data : list (string * Json.value)) (users : list Json.value),
    Login.add_user sha256_hexdigest username password users_file
    = (Json.Returns tt,
       Json.Holds
         (Json.JObject
            (Json.set "users"
               (Json.JArray
                  (app users [ Login.entry sha256_hexdigest username password ]))
               data)))
    /\ UserStore.entries users_file = users
    /\ forallb UserStore.is_object users = true
    /\ forall u0 p0 : string,
         Login.validate_user sha256_hexdigest u0 p0 users_file
         = Login.find_login u0 (Login.hash_password sha256_hexdigest p0) users.
Proof.
  intros Hwf.
  destruct (StoreFacts.well_formed_cases users_file Hwf)
    as [-> | [(data & -> & Hget) | (data & users & -> & Hget & Hobj)]].
  - exists [ ("users", Json.JArray []) ], []. repeat split; reflexivity.
  - exists data, []. cbn [Login.add_user UserStore.entries Login.validate_user].
    unfold Json.get_default. rewrite Hget. repeat split; reflexivity.
  - exists data, users. cbn [Login.add_user UserStore.entries Login.validate_user].
    unfold Json.get_default. rewrite Hget. repeat split; try reflexivity. exact Hobj.
Qed.

(** X14.  Registering on the Streamlit page.  On a store that is well
    formed (no file yet, or a dict whose list of users holds dicts),
    [add_user] returns, leaves a well-formed store with the new entry
    added at the end of the list, and the new name and password pass
    [validate_user].  It removes and changes nothing: a name and a
    password pass afterwards exactly when they passed before or are the
    new ones (the same name, a password with the same hash).  So a name
    that is registered again keeps its old password beside the new
    one. *)
Theorem register_then_login :
  forall (username password : string) (users_file : Json.file),
    UserStore.well_formed users_file = true ->
    exists after : Json.file,
      Login.add_user sha256_hexdigest username password users_file
      = (Json.Returns tt, after)
      /\ UserStore.well_formed after = true
      /\ UserStore.entries after
         = app (UserStore.entries users_file)
               [ Login.entry sha256_hexdigest username password ]
      /\ Login.validate_user sha256_hexdigest username password after
         = Json.Returns true
      /\ forall u0 p0 : string,
           exists before : bool,
             Login.validate_user sha256_hexdigest u0 p0 users_file
             = Json.Returns before
             /\ Login.validate_user sha256_hexdigest u0 p0 after
                = Json.Returns
                    (before
                     || (String.eqb username u0
                         && String.eqb (Login.hash_password sha256_hexdigest password)
                              (Login.hash_password sha256_hexdigest p0))).
Proof.
  intros username password users_file Hwf.
  destruct (add_user_appends username password users_file Hwf)
    as (data & users & Hrun & Hent & Hobj & Hwalk).
  destruct (validate_user_after_append username password data users Hobj)
    as (Hwf' & Hent' & Hafter).
  eexists. split; [exact Hrun |].
  split; [exact Hwf' |].
  split; [rewrite Hent; exact Hent' |].
  split.
  - destruct (Hafter username password) as (b & _ & Hv).
    rewrite Hv, !String.eqb_refl. now destruct b.
  - intros u0 p0. destruct (Hafter u0 p0) as (b & Hb & Hv).
    exists b. split; [| exact Hv].
    rewrite Hwalk. exact Hb.
Qed.

(** X15.  The default user.  [ensure_default_user] writes a store only
    when there is no file: the store it writes is well formed and lets
    in the name admin with the password admin, and no other name; a file
    that is there, readable or not, is left as it is, so calling it
    again changes nothing. *)
Theorem default_user_only_without_a_file :
  (UserStore.well_formed (Login.ensure_default_user sha256_hexdigest Json.Missing) = true
   /\ forall u0 p0 : string,
        Login.validate_user sha256_hexdigest u0 p0
          (Login.ensure_default_user sha256_hexdigest Json.Missing)
        = Json.Returns
            (String.eqb "admin" u0
             && String.eqb (Login.hash_password sha256_hexdigest "admin")
                  (Login.hash_password sha256_hexdigest p0)))
  /\ (forall users_file : Json.file,
        users_file <> Json.Missing ->
        Login.ensure_default_user sha256_hexdigest users_file = users_file)
  /\ (forall users_file : Json.file,
        Login.ensure_default_user sha256_hexdigest
          (Login.ensure_default_user sha256_hexdigest users_file)
        = Login.ensure_default_user sha256_hexdigest users_file).
Proof.
  split; [split; [reflexivity |] |].
  - intros u0 p0. cbn [Login.ensure_default_user Login.validate_user].
    unfold Json.get_default. cbn [Json.get String.eqb Ascii.eqb Bool.eqb Json.iterate].
    apply StoreFacts.find_login_entry.
  - split.
    + intros users_file H. destruct users_file; [congruence | reflexivity | reflexivity].
    + intros users_file. destruct users_file; reflexivity.
Qed.

(** X16.  add_user.py on a store that is well formed, or on a file that
    cannot be read, which it takes for an empty store.  [add_user]
    refuses a name that is there: it returns 1 and leaves the file as it
    is.  For a new name it returns 0, adds the entry at the end, and the
    name and password then pass [validate_user] of the Streamlit page.
    It keeps names unique: when no name is held twice before, none is
    afterwards. *)
Theorem script_add_user_keeps_names_unique :
  forall (username password : string) (users_file : Json.file),
    UserStore.well_formed users_file = true \/ users_file = Json.Unreadable ->
    ((1 <= UserStore.count_user username users_file)%nat ->
     AddUser.add_user sha256_hexdigest username password users_file
     = (Json.Returns 1, users_file))
    /\ (UserStore.count_user username users_file = 0 ->
        exists after : Json.file,
          AddUser.add_user sha256_hexdigest username password users_file
          = (Json.Returns 0, after)
          /\ UserStore.well_formed after = true
          /\ UserStore.entries after
             = app (UserStore.entries users_file)
                   [ AddUser.entry sha256_hexdigest username password ]
          /\ Login.validate_user sha256_hexdigest username password after
             = Json.Returns true)
    /\ ((forall u : string, (UserStore.count_user u users_file <= 1)%nat) ->
        forall u : string,
          (UserStore.count_user u
             (snd (AddUser.add_user sha256_hexdigest username password users_file))
           <= 1)%nat).
Proof.
  intros username password users_file Hwf.
  (* the store the script works on, and its list of users *)
  assert (Hshape :
            exists (data : list (string * Json.value)) (users : list Json.value),
              AddUser.load_users users_file = Json.JObject data
              /\ UserStore.entries users_file = users
              /\ forallb UserStore.is_object users = true
              /\ Json.iterate (Json.get_default "users" data (Json.JArray []))
                 = Json.Returns users
              /\ (Json.get "users" data = None /\ users = []
                  \/ Json.get "users" data = Some (Json.JArray users))).
  { destruct Hwf as [Hwf | ->].
    - destruct (StoreFacts.well_formed_cases users_file Hwf)
        as [-> | [(data & -> & Hget) | (data & users & -> & Hget & Hobj)]].
      + exists [ ("users", Json.JArray []) ], []. repeat split; try reflexivity.
        now right.
      + exists data, []. cbn [UserStore.entries AddUser.load_users].
        unfold Json.get_default. rewrite Hget. repeat split; try reflexivity.
        now left.
      + exists data, users. cbn [UserStore.entries AddUser.load_users].
        unfold Json.get_default. rewrite Hget. repeat split; try assumption;
          try reflexivity.
        now right.
    - exists [ ("users", Json.JArray []) ], []. repeat split; try reflexivity.
      now right. }
  destruct Hshape as (data & users & Hload & Hent & Hobj & Hiter & Hget).
  assert (Hexists : AddUser.user_exists (Json.JObject data) username
                    = Json.Returns
                        (negb (UserStore.count_user username users_file =? 0)%nat)).
  { unfold AddUser.user_exists. rewrite Hiter.
    unfold UserStore.count_user. rewrite Hent.
    now apply StoreFacts.find_user_count. }
  assert (Hadd :
            UserStore.count_user username users_file = 0 ->
            exists after : Json.file,
              AddUser.add_user sha256_hexdigest username password users_file
              = (Json.Returns 0, after)
              /\ UserStore.well_formed after = true
              /\ UserStore.entries after
                 = app users [ AddUser.entry sha256_hexdigest username password ]
              /\ Login.validate_user sha256_hexdigest username password after
                 = Json.Returns true).
  { intros Hzero.
    exists (Json.Holds
              (Json.JObject
                 (Json.set "users"
                    (Json.JArray
                       (app users [ AddUser.entry sha256_hexdigest username password ]))
                    data))).
    split.
    - unfold AddUser.add_user. rewrite Hload, Hexists, Hzero. cbn [Nat.eqb negb].
      destruct Hget as [[Hget ->] | Hget]; rewrite Hget; reflexivity.
    - cbn [UserStore.well_formed UserStore.entries Login.validate_user].
      unfold Json.get_default. rewrite !JsonFacts.get_set, String.eqb_refl.
      cbn [Json.iterate].
      split; [rewrite StoreFacts.forallb_object_app, Hobj; reflexivity |].
      split; [reflexivity |].
      destruct (StoreFacts.find_login_app username
                  (Login.hash_password sha256_hexdigest password) users
                  [ AddUser.entry sha256_hexdigest username password ] Hobj)
        as (b & _ & Happ).
      rewrite Happ, StoreFacts.same_entry, StoreFacts.find_login_entry,
              !String.eqb_refl.
      now destruct b. }
  split; [| split].
  - intros Hone. unfold AddUser.add_user. rewrite Hload, Hexists.
    destruct (UserStore.count_user username users_file); [lia | reflexivity].
  - intros Hzero. rewrite Hent. exact (Hadd Hzero).
  - intros Huniq u.
    destruct (UserStore.count_user username users_file) as [|n] eqn:Hn.
    + destruct (Hadd eq_refl) as (after & Hrun & _ & Hafter & _).
      rewrite Hrun. cbn [snd]. unfold UserStore.count_user. rewrite Hafter.
      rewrite filter_app, length_app. cbn [filter].
      rewrite StoreFacts.same_entry, StoreFacts.names_entry.
      destruct (String.eqb_spec username u) as [<-|_]; cbn [List.length].
      * unfold UserStore.count_user in Hn. rewrite Hent in Hn. rewrite Hn. lia.
      * pose proof (Huniq u) as Hu. unfold UserStore.count_user in Hu.
        rewrite Hent in Hu. lia.
    + unfold AddUser.add_user. rewrite Hload, Hexists. cbn [Nat.eqb negb snd].
      apply Huniq.
Qed.

(** X17.  [overwrite_user] of add_user.py, on a store that is well
    formed or cannot be read: it returns 0 and leaves a store that holds
    the name once, at the end, with the hash of the new password, every
    entry of another name staying where it was; of the passwords only
    those with the hash of the new one then pass [validate_user] for
    that name. *)
Theorem overwrite_user_leaves_one_entry :
  forall (username password : string) (users_file : Json.file),
    UserStore.well_formed users_file = true \/ users_file = Json.Unreadable ->
    exists after : Json.file,
      AddUser.overwrite_user sha256_hexdigest username password users_file
      = (Json.Returns 0, after)
      /\ UserStore.well_formed after = true
      /\ UserStore.entries after
         = app (filter (fun u => negb (UserStore.names username u))
                  (UserStore.entries users_file))
               [ AddUser.entry sha256_hexdigest username password ]
      /\ UserStore.count_user username after = 1
      /\ (forall u : string,
            u <> username ->
            UserStore.count_user u after = UserStore.count_user u users_file)
      /\ (forall p0 : string,
            Login.validate_user sha256_hexdigest username p0 after
            = Json.Returns
                (String.eqb (Login.hash_password sha256_hexdigest password)
                   (Login.hash_password sha256_hexdigest p0))).
Proof.
  intros username password users_file Hwf.
  assert (Hshape :
            exists (data : list (string * Json.value)) (users : list Json.value),
              AddUser.load_users users_file = Json.JObject data
              /\ UserStore.entries users_file = users
              /\ forallb UserStore.is_object users = true
              /\ Json.iterate (Json.get_default "users" data (Json.JArray []))
                 = Json.Returns users).
  { destruct Hwf as [Hwf | ->].
    - destruct (StoreFacts.well_formed_cases users_file Hwf)
        as [-> | [(data & -> & Hget) | (data & users & -> & Hget & Hobj)]].
      + exists [ ("users", Json.JArray []) ], []. repeat split; reflexivity.
      + exists data, []. cbn [UserStore.entries AddUser.load_users].
        unfold Json.get_default. rewrite Hget. repeat split; reflexivity.
      + exists data, users. cbn [UserStore.entries AddUser.load_users].
        unfold Json.get_default. rewrite Hget. repeat split; try assumption;
          reflexivity.
    - exists [ ("users", Json.JArray []) ], []. repeat split; reflexivity. }
  destruct Hshape as (data & users & Hload & Hent & Hobj & Hiter).
  set (kept := filter (fun u => negb (UserStore.names username u)) users).
  assert (Hkept : forallb UserStore.is_object kept = true)
    by now apply StoreFacts.forallb_object_filter.
  exists (Json.Holds
            (Json.JObject
               (Json.set "users"
                  (Json.JArray
                     (app kept [ AddUser.entry sha256_hexdigest username password ]))
                  data))).
  split.
  { unfold AddUser.overwrite_user. rewrite Hload, Hiter.
    rewrite (StoreFacts.others_filter username users Hobj). reflexivity. }
  cbn [UserStore.well_formed UserStore.entries Login.validate_user].
  unfold UserStore.count_user. cbn [UserStore.entries].
  unfold Json.get_default. rewrite !JsonFacts.get_set, String.eqb_refl.
  cbn [Json.iterate]. rewrite Hent.
  split; [rewrite StoreFacts.forallb_object_app, Hkept; reflexivity |].
  split; [reflexivity |].
  split; [| split].
  - rewrite filter_app, length_app. unfold kept.
    rewrite StoreFacts.filter_names_others, String.eqb_refl.
    cbn [filter]. rewrite StoreFacts.same_entry, StoreFacts.names_entry,
                          String.eqb_refl.
    reflexivity.
  - intros u Hu. rewrite filter_app, length_app. unfold kept.
    rewrite StoreFacts.filter_names_others.
    destruct (String.eqb_spec username u) as [E|_]; [congruence |].
    cbn [filter]. rewrite StoreFacts.same_entry, StoreFacts.names_entry.
    destruct (String.eqb_spec username u) as [E|_]; [congruence |].
    cbn [List.length]. lia.
  - intros p0.
    destruct (StoreFacts.find_login_app username
                (Login.hash_password sha256_hexdigest p0) kept
                [ AddUser.entry sha256_hexdigest username password ] Hkept)
      as (b & Hb & Happ).
    rewrite Happ, StoreFacts.same_entry, StoreFacts.find_login_entry, String.eqb_refl.
    cbn [andb].
    unfold kept in Hb.
    rewrite (StoreFacts.find_login_others username _ users Hobj) in Hb.
    injection Hb as <-. reflexivity.
Qed.

(** X24.  The Register button of the page.  With a name and a password
    that are not empty, on a store that is well formed, it always ends
    with the session logged in under that name, whether or not the name
    was registered before and whatever its password was; the Login
    button then accepts the new password for the name, and still accepts
    every password it accepted before.  With an empty name or password
    it changes neither the session nor the file. *)
Theorem register_logs_in_under_any_name :
  forall (input_uname input_pwd : string) (session : Login.Session)
         (users_file : Json.file),
    UserStore.well_formed users_file = true ->
    (input_uname <> "" -> input_pwd <> "" ->
     exists after : Json.file,
       Login.register_click sha256_hexdigest input_uname input_pwd session users_file
       = (Json.Returns {| Login.logged_in := true; Login.username := input_uname |},
          after)
       /\ (forall other : Login.Session,
             Login.login_click sha256_hexdigest input_uname input_pwd other after
             = Json.Returns
                 {| Login.logged_in := true; Login.username := input_uname |})
       /\ (forall (old_pwd : string) (other : Login.Session),
             Login.validate_user sha256_hexdigest input_uname old_pwd users_file
             = Json.Returns true ->
             Login.login_click sha256_hexdigest input_uname old_pwd other after
             = Json.Returns
                 {| Login.logged_in := true; Login.username := input_uname |}))
    /\ (input_uname = "" \/ input_pwd = "" ->
        Login.register_click sha256_hexdigest input_uname input_pwd session users_file
        = (Json.Returns session, users_file)).
Proof.
  intros input_uname input_pwd session users_file Hwf. split.
  - intros Hu Hp.
    destruct (add_user_appends input_uname input_pwd users_file Hwf)
      as (data & users & Hrun & _ & Hobj & Hwalk).
    destruct (validate_user_after_append input_uname input_pwd data users Hobj)
      as (_ & _ & Hafter).
    eexists. split; [| split].
    + unfold Login.register_click. rewrite Hrun.
      destruct input_uname; [congruence |]. destruct input_pwd; [congruence |].
      reflexivity.
    + intros other. unfold Login.login_click.
      destruct (Hafter input_uname input_pwd) as (b & _ & Hv).
      rewrite Hv, !String.eqb_refl. now destruct b.
    + intros old_pwd other Hold. unfold Login.login_click.
      destruct (Hafter input_uname old_pwd) as (b & Hb & Hv).
      rewrite Hwalk, Hb in Hold. injection Hold as ->.
      rewrite Hv. reflexivity.
  - intros [-> | ->]; unfold Login.register_click.
    + reflexivity.
    + destruct input_uname; reflexivity.
Qed.

End UserStores.

(** X24 at the name admin of the sample store, registered again with
    another password. *)
Lemma register_logs_in_under_any_name_witness :
  exists after : Json.file,
    Login.register_click Sample2.digest "admin" "mine"
      {| Login.logged_in := false; Login.username := "" |} Sample2.store
    = (Json.Returns {| Login.logged_in := true; Login.username := "admin" |}, after)
    /\ Login.validate_user Sample2.digest "admin" "mine" after = Json.Returns true
    /\ Login.validate_user Sample2.digest "admin" "admin" after = Json.Returns true.
Proof.
  destruct (proj1 (register_logs_in_under_any_name Sample2.digest "admin" "mine"
                     {| Login.logged_in := false; Login.username := "" |}
                     Sample2.store eq_refl)
              ltac:(discriminate) ltac:(discriminate))
    as (after & Hrun & _ & _).
  exists after. split; [exact Hrun |].
  vm_compute in Hrun. injection Hrun as <-. split; reflexivity.
Defined.

(** X14 at a store that holds the default user. *)
Lemma register_then_login_witness :
  Login.validate_user Sample2.digest "clerk" "s3cret"
    (snd (Login.add_user Sample2.digest "clerk" "s3cret" Sample2.store))
  = Json.Returns true.
Proof.
  destruct (register_then_login Sample2.digest "clerk" "s3cret" Sample2.store eq_refl)
    as (after & Hrun & _ & _ & Hlogin & _).
  rewrite Hrun. exact Hlogin.
Defined.

(** X15 at a file that cannot be read. *)
Lemma default_user_only_without_a_file_witness :
  Login.ensure_default_user Sample2.digest Json.Unreadable = Json.Unreadable.
Proof.
  apply (proj1 (proj2 (default_user_only_without_a_file Sample2.digest))).
  discriminate.
Defined.

(** X16 at the name admin, which the sample store holds. *)
Lemma script_add_user_keeps_names_unique_witness :
  AddUser.add_user Sample2.digest "admin" "other" Sample2.store
  = (Json.Returns 1, Sample2.store).
Proof.
  apply (proj1 (script_add_user_keeps_names_unique Sample2.digest "admin" "other"
                  Sample2.store (or_introl eq_refl))).
  vm_compute. lia.
Defined.

(** X17 at the sample store: the old password of admin no longer
    passes. *)
Lemma overwrite_user_leaves_one_entry_witness :
  exists after : Json.file,
    AddUser.overwrite_user Sample2.digest "admin" "fresh" Sample2.store
    = (Json.Returns 0, after)
    /\ UserStore.count_user "admin" after = 1
    /\ Login.validate_user Sample2.digest "admin" "admin" after = Json.Returns false.
Proof.
  destruct (overwrite_user_leaves_one_entry Sample2.digest "admin" "fresh" Sample2.store
              (or_introl eq_refl))
    as (after & Hrun & _ & _ & Hcount & _ & Hlogin).
  exists after. split; [exact Hrun |]. split; [exact Hcount |].
  rewrite Hlogin. reflexivity.
Defined.

(** ** The configuration files *)

(** X18.  [save_config] and [load_config] of the Streamlit page.  When
    the file is missing, cannot be read or holds a dict, [save_config]
    returns, and [load_config] then gives a dict in which every key of
    the data has the value of the data and every other key the value it
    had before (none, when there was no readable file).  When the file
    holds anything else than a dict, [save_config] ends with
    AttributeError and the file stays as it is. *)
Theorem save_config_then_load_config :
  forall (data : list (string * Json.value)) (config_file : Json.file),
    NoDup (map fst data) ->
    (forall before : list (string * Json.value),
        Config.load_config config_file = Json.JObject before ->
        exists after : list (string * Json.value),
          Config.save_config data config_file
          = (Json.Returns tt, Json.Holds (Json.JObject after))
          /\ Config.load_config (Json.Holds (Json.JObject after)) = Json.JObject after
          /\ forall k : string,
               Json.get k after
               = match Json.get k data with
                 | Some v => Some v
                 | None => Json.get k before
                 end)
    /\ ((forall before, Config.load_config config_file <> Json.JObject before) ->
        Config.save_config data config_file = (Json.Raises Json.NoAttribute, config_file)).
Proof.
  intros data config_file Hnd. split.
  - intros before Hload.
    exists (Json.update before data).
    split; [| split; [reflexivity |]].
    + unfold Config.save_config, Config.load_config in *.
      destruct config_file as [| |v]; cbn in *;
        [injection Hload as <- | injection Hload as <- | subst v]; reflexivity.
    + intros k. now apply JsonFacts.get_update.
  - intros Hno. unfold Config.save_config, Config.load_config in *.
    destruct config_file as [| |[| | | | |m]]; try reflexivity;
      exfalso; eapply Hno; reflexivity.
Qed.

(** X18 at a file with two keys, one of which is saved anew. *)
Lemma save_config_then_load_config_witness :
  exists after : list (string * Json.value),
    Config.save_config [ ("logo_path", Json.JString "assets/swift_logo.png") ] Sample2.config
    = (Json.Returns tt, Json.Holds (Json.JObject after))
    /\ Json.get "logo_path" after = Some (Json.JString "assets/swift_logo.png")
    /\ Json.get "theme" after = Some (Json.JString "dark").
Proof.
  assert (Hnd : NoDup (map fst [ ("logo_path", Json.JString "assets/swift_logo.png") ])).
  { repeat constructor. intros []. }
  destruct (proj1 (save_config_then_load_config
                     [ ("logo_path", Json.JString "assets/swift_logo.png") ]
                     Sample2.config Hnd) _ eq_refl)
    as (after & Hrun & _ & Hget).
  exists after. split; [exact Hrun |].
  split; [exact (Hget "logo_path") | exact (Hget "theme")].
Defined.

(** X19.  fetch_logo.py writes the logo into the configuration as the
    page would: on a file that is missing, cannot be read or holds a
    dict, [update_config_with_logo] leaves the file that [save_config]
    of the Streamlit page leaves for the one key [logo_path], so
    [load_config] of the page then finds the path under [logo_path]
    and every other key as before.  On a file that holds anything else
    both raise and leave the file, the script TypeError, the page
    AttributeError. *)
Theorem fetch_logo_writes_what_the_page_reads :
  forall (path : string) (config_file : Json.file),
    (forall before : list (string * Json.value),
        Config.load_config config_file = Json.JObject before ->
        FetchLogo.update_config_with_logo path config_file
        = Config.save_config [ ("logo_path", Json.JString path) ] config_file
        /\ exists after : list (string * Json.value),
             Config.load_config (snd (FetchLogo.update_config_with_logo path config_file))
             = Json.JObject after
             /\ Json.get "logo_path" after = Some (Json.JString path)
             /\ forall k : string,
                  k <> "logo_path" -> Json.get k after = Json.get k before)
    /\ ((forall before, Config.load_config config_file <> Json.JObject before) ->
        FetchLogo.update_config_with_logo path config_file
        = (Json.Raises Json.NotSupported, config_file)
        /\ Config.save_config [ ("logo_path", Json.JString path) ] config_file
           = (Json.Raises Json.NoAttribute, config_file)).
Proof.
  intros path config_file. split.
  - intros before Hload.
    assert (E : FetchLogo.update_config_with_logo path config_file
                = (Json.Returns tt,
                   Json.Holds (Json.JObject
                                 (Json.set "logo_path" (Json.JString path) before)))).
    { unfold FetchLogo.update_config_with_logo, Config.load_config in *.
      destruct config_file as [| |v]; cbn in *;
        [injection Hload as <- | injection Hload as <- | subst v]; reflexivity. }
    split.
    + rewrite E. unfold Config.save_config, Config.load_config in *.
      destruct config_file as [| |v]; cbn in *;
        [injection Hload as <- | injection Hload as <- | subst v]; reflexivity.
    + rewrite E. cbn [snd Config.load_config]. eexists. split; [reflexivity |].
      split.
      * now rewrite JsonFacts.get_set, String.eqb_refl.
      * intros k Hk. rewrite JsonFacts.get_set.
        destruct (String.eqb_spec "logo_path" k) as [E'|_]; [congruence | reflexivity].
  - intros Hno.
    unfold FetchLogo.update_config_with_logo, Config.save_config, Config.load_config in *.
    destruct config_file as [| |[| | | | |m]]; try (split; reflexivity);
      exfalso; eapply Hno; reflexivity.
Qed.

(** X19 at the sample file. *)
Lemma fetch_logo_writes_what_the_page_reads_witness :
  FetchLogo.update_config_with_logo "assets/swift_logo.png" Sample2.config
  = Config.save_config [ ("logo_path", Json.JString "assets/swift_logo.png") ]
      Sample2.config.
Proof.
  exact (proj1 (proj1 (fetch_logo_writes_what_the_page_reads "assets/swift_logo.png"
                         Sample2.config) _ eq_refl)).
Defined.

(** X20.  config_manager.py.  [load_config] always hands back a dict
    with exactly the keys [schema_path] and [logo_path], in this order,
    whatever the file holds: the values of the file for a file that
    holds a dict, null otherwise.  [save_config] does not merge: the
    file it writes holds these two keys only, with the values of the
    data and null for a key the data leaves out, so [load_config] after
    [save_config] gives the data cut down to the two keys, and loading
    and saving again changes nothing. *)
Theorem config_manager_keeps_two_keys :
  (forall config_file : Json.file,
      exists schema_path logo_path : Json.value,
        ConfigManager.load_config config_file
        = Json.JObject [ ("schema_path", schema_path); ("logo_path", logo_path) ]
        /\ forall data : list (string * Json.value),
             config_file = Json.Holds (Json.JObject data) ->
             schema_path = Json.get_default "schema_path" data Json.JNull
             /\ logo_path = Json.get_default "logo_path" data Json.JNull)
  /\ (forall data : list (string * Json.value),
        ConfigManager.save_config data
        = Json.Holds
            (Json.JObject
               [ ("schema_path", Json.get_default "schema_path" data Json.JNull);
                 ("logo_path", Json.get_default "logo_path" data Json.JNull) ])
        /\ ConfigManager.load_config (ConfigManager.save_config data)
           = Json.JObject
               [ ("schema_path", Json.get_default "schema_path" data Json.JNull);
                 ("logo_path", Json.get_default "logo_path" data Json.JNull) ])
  /\ (forall (config_file : Json.file) (loaded : list (string * Json.value)),
        ConfigManager.load_config config_file = Json.JObject loaded ->
        ConfigManager.load_config (ConfigManager.save_config loaded)
        = Json.JObject loaded).
Proof.
  assert (Hsave : forall data : list (string * Json.value),
             ConfigManager.save_config data
             = Json.Holds
                 (Json.JObject
                    [ ("schema_path", Json.get_default "schema_path" data Json.JNull);
                      ("logo_path", Json.get_default "logo_path" data Json.JNull) ]))
    by reflexivity.
  assert (Hload : forall v1 v2 : Json.value,
             ConfigManager.load_config
               (Json.Holds (Json.JObject [ ("schema_path", v1); ("logo_path", v2) ]))
             = Json.JObject [ ("schema_path", v1); ("logo_path", v2) ])
    by reflexivity.
  assert (Hshape : forall config_file : Json.file,
             exists schema_path logo_path : Json.value,
               ConfigManager.load_config config_file
               = Json.JObject [ ("schema_path", schema_path); ("logo_path", logo_path) ]
               /\ forall data : list (string * Json.value),
                    config_file = Json.Holds (Json.JObject data) ->
                    schema_path = Json.get_default "schema_path" data Json.JNull
                    /\ logo_path = Json.get_default "logo_path" data Json.JNull).
  { intros config_file.
    destruct config_file as [| |[| | | | |m]];
      try (exists Json.JNull, Json.JNull; split; [reflexivity | intros data; discriminate]).
    exists (Json.get_default "schema_path" m Json.JNull),
           (Json.get_default "logo_path" m Json.JNull).
    split; [reflexivity |]. intros data [= <-]. split; reflexivity. }
  split; [exact Hshape |]. split.
  - intros data. split; [apply Hsave |]. rewrite Hsave. apply Hload.
  - intros config_file loaded H.
    destruct (Hshape config_file) as (v1 & v2 & E & _).
    rewrite E in H. injection H as <-. reflexivity.
Qed.

(** X20 at a file with a key of another program: the key is not handed
    on. *)
Lemma config_manager_keeps_two_keys_witness :
  ConfigManager.load_config Sample2.config
  = Json.JObject [ ("schema_path", Json.JString "assets/schemas/pain.001.xsd");
                   ("logo_path", Json.JNull) ].
Proof.
  destruct (proj1 config_manager_keeps_two_keys Sample2.config)
    as (v1 & v2 & E & Hv).
  destruct (Hv _ eq_refl) as [-> ->]. exact E.
Defined.

(** ** The desktop form *)

Module GuiFacts.

Lemma truthy_or_none (text : string) :
  truthy (Gui.or_none text) = negb (is_empty text).
Proof. destruct text; reflexivity. Qed.

Lemma get_or_or_none (text : string) : get_or (Gui.or_none text) "" = text.
Proof. destruct text; reflexivity. Qed.

Lemma or_else_or_none (text : string) : or_else (Gui.or_none text) "" = text.
Proof. destruct text; reflexivity. Qed.

End GuiFacts.

Section DesktopForm.
Variable fromisoformat : string -> option date.

(** What [_collect_payment] hands on for an amount that [Decimal]
    accepts. *)
Lemma collect_payment_run (ui : Gui.Form) (a : Decimal) (w : World) :
  of_string (strip (Gui.amount_edit ui)) = Ok a ->
  exists (value_date : string) (w1 : World),
    Gui._collect_payment ui w
    = (Gui.Got
         {| ordering_account := Some (strip (Gui.ordering_account ui));
            ordering_name := Some (strip (Gui.ordering_name ui));
            beneficiary_account := Some (strip (Gui.beneficiary_account ui));
            beneficiary_name := Some (strip (Gui.beneficiary_name ui));
            amount := Some (AmountDecimal a);
            currency := Some (or_else (Some (strip (Gui.currency_edit ui))) "USD");
            value_date := Some value_date;
            remittance_info := Some (strip (Gui.remittance ui));
            beneficiary_bic := Gui.or_none (strip (Gui.beneficiary_bic ui));
            reference :=
              Some (if is_empty (strip (Gui.reference_edit ui))
                    then take 12 (upper (uuid_at w (uuid_draws w)))
                    else strip (Gui.reference_edit ui)) |},
       w1).
Proof.
  intros Hamt. unfold Gui._collect_payment. rewrite Hamt.
  unfold payment_from_transaction. RunFacts.run_monad.
  rewrite !GuiFacts.truthy_or_none, !GuiFacts.get_or_or_none,
          GuiFacts.or_else_or_none.
  destruct (is_empty (strip (Gui.value_date ui)));
    destruct (is_empty (strip (Gui.reference_edit ui)));
    cbn [negb]; eexists _, _; reflexivity.
Qed.

(** X21.  The MT103 preview of the desktop form.  The fields are taken
    without the blanks around them.  An amount field that [Decimal] does
    not accept ends [_collect_payment] with ValueError before anything
    is read from the environment.  Otherwise, when the amount formats,
    the preview is the MT103 text in which the currency is USD for an
    empty currency field, the reference is the text of the reference
    field or, for an empty one, twelve characters in capitals of the
    UUID drawn first, and the [:70:] line is there exactly when the
    remittance field holds more than blanks; when the amount does not
    format, the exception of the formatter is what the message box
    reports. *)
Theorem desktop_mt103_preview :
  (forall (ui : Gui.Form) (e : exn) (w : World),
      of_string (strip (Gui.amount_edit ui)) = Err e ->
      Gui._collect_payment ui w = (Gui.Failed (Gui.ValueError "Invalid amount"), w)
      /\ Gui.on_generate_mt103 fromisoformat ui w
         = (Gui.Failed (Gui.ValueError "Invalid amount"), w))
  /\ (forall (ui : Gui.Form) (a : Decimal) (w : World),
        of_string (strip (Gui.amount_edit ui)) = Ok a ->
        let currency := or_else (Some (strip (Gui.currency_edit ui))) "USD" in
        let reference :=
          if is_empty (strip (Gui.reference_edit ui))
          then take 12 (upper (uuid_at w (uuid_draws w)))
          else strip (Gui.reference_edit ui) in
        let remittance := strip (Gui.remittance ui) in
        match format_amount a currency with
        | Ok text =>
            exists (yymmdd : string) (w' : World),
              Gui.on_generate_mt103 fromisoformat ui w
              = (Gui.Got
                   (join nl
                      (app [ "{1:F01SWIFTSIMULATORXXXX0000000000}";
                             "{2:O1031200SWIFTSIMULATORXXXX0000000000}";
                             "{4:";
                             ":20:" ++ reference;
                             ":23B:CRED";
                             ":32A:" ++ yymmdd ++ currency ++ text;
                             ":50K:" ++ strip (Gui.ordering_name ui) ++ " /"
                               ++ strip (Gui.ordering_account ui);
                             ":59:" ++ strip (Gui.beneficiary_name ui) ++ " /"
                               ++ strip (Gui.beneficiary_account ui) ]
                         (app (if is_empty remittance then []
                               else [ ":70:" ++ replace_char (ascii_of_nat 10) " "
                                                  remittance ])
                              [ ":71A:SHA"; "-}" ]))),
                 w')
        | Err e =>
            fst (Gui.on_generate_mt103 fromisoformat ui w) = Gui.Failed (Gui.Raised e)
        end).
Proof.
  split.
  - intros ui e w Hamt.
    unfold Gui.on_generate_mt103, Gui._collect_payment. rewrite Hamt.
    split; reflexivity.
  - intros ui a w Hamt currency reference remittance.
    unfold Gui.on_generate_mt103.
    destruct (collect_payment_run ui a w Hamt) as (value_date & w1 & Hrun).
    fold currency reference remittance in Hrun. rewrite Hrun.
    set (payment := {| ordering_account := Some (strip (Gui.ordering_account ui));
                       ordering_name := Some (strip (Gui.ordering_name ui));
                       beneficiary_account := Some (strip (Gui.beneficiary_account ui));
                       beneficiary_name := Some (strip (Gui.beneficiary_name ui));
                       amount := Some (AmountDecimal a);
                       currency := Some currency;
                       value_date := Some value_date;
                       remittance_info := Some remittance;
                       beneficiary_bic :=
                         Gui.or_none (strip (Gui.beneficiary_bic ui));
                       reference := Some reference |}).
    pose proof (RunFacts.generate_mt103_run fromisoformat payment w1) as Hgen.
    rewrite RunFacts.mt103_lines_run in Hgen.
    change (amount_text_of payment) with (format_amount a currency) in Hgen.
    unfold run in Hgen.
    destruct (format_amount a currency) as [text|e]; cbn [rbind] in Hgen.
    + exists (PyTime.strftime_yymmdd (Readings.mt103_date fromisoformat payment w1)).
      destruct (generate_mt103 fromisoformat payment w1) as [[mt|e] w2];
        cbn [fst] in Hgen; [| discriminate].
      exists w2. injection Hgen as ->.
      unfold MtSpec.mt103_default_tags. cbn [get_or remittance_info payment].
      destruct (is_empty remittance); reflexivity.
    + destruct (generate_mt103 fromisoformat payment w1) as [[mt|e'] w2];
        cbn [fst] in Hgen; [discriminate |].
      injection Hgen as ->. reflexivity.
Qed.

End DesktopForm.

(** X21 at the sample form with a remittance of blanks and no
    reference. *)
Lemma desktop_mt103_preview_witness :
  exists (yymmdd : string) (w' : World),
    Gui.on_generate_mt103 PyTime.fromisoformat_ymd (Sample2.gui_form "   " "") Sample.world
    = (Gui.Got
         (join nl
            [ "{1:F01SWIFTSIMULATORXXXX0000000000}";
              "{2:O1031200SWIFTSIMULATORXXXX0000000000}";
              "{4:";
              ":20:3F2B8C1E-9A4";
              ":23B:CRED";
              ":32A:" ++ yymmdd ++ "USD" ++ "1500.50";
              ":50K:ANDRO AG /CH970020620625170160K";
              ":59:ACME CORP /DE89370400440532013000";
              ":71A:SHA";
              "-}" ]),
       w').
Proof.
  exact (proj2 (desktop_mt103_preview PyTime.fromisoformat_ymd)
           (Sample2.gui_form "   " "") (Finite false 15005 (-1)) Sample.world eq_refl).
Defined.

(** ** Reading the message body back from the formal text *)

Module FormalFacts.
Import PyStr PyTime MtSpec PyStrFacts LineFacts.

Lemma split_nl_join_any (parts : list string) :
  parts <> [] -> split_nl (join nl parts) = flat_map split_nl parts.
Proof.
  intros Hne. induction parts as [|x parts IH]; [congruence |].
  destruct parts as [|y parts].
  - cbn [flat_map]. unfold join. cbn [String.concat]. now rewrite app_nil_r.
  - change (join nl (x :: y :: parts)) with (x ++ nl ++ join nl (y :: parts)).
    rewrite split_nl_app, IH by discriminate. reflexivity.
Qed.

Lemma flat_map_single (parts : list string) :
  forallb single_line parts = true -> flat_map split_nl parts = parts.
Proof.
  induction parts as [|x parts IH]; [reflexivity |].
  cbn [forallb flat_map]. intros H. apply andb_true_iff in H as [Hx H].
  now rewrite (split_nl_single x Hx), (IH H).
Qed.

Lemma join_cons_char (c : ascii) (l : string) (ls : list string) :
  join nl (String c l :: ls) = String c (join nl (l :: ls)).
Proof. destruct ls; reflexivity. Qed.

(** Splitting at the line feeds and joining again gives the text back. *)
Lemma join_split_nl (s : string) : join nl (split_nl s) = s.
Proof.
  induction s as [|c r IH]; [reflexivity |].
  cbn [split_nl].
  destruct (Ascii.eqb_spec c (ascii_of_nat 10)) as [->|_].
  - pose proof (split_nl_nonempty r) as Hr.
    destruct (split_nl r) as [|l ls]; [congruence |].
    change (join nl ("" :: l :: ls)) with (nl ++ join nl (l :: ls)).
    now rewrite IH.
  - pose proof (split_nl_nonempty r) as Hr.
    destruct (split_nl r) as [|l ls]; [congruence |].
    now rewrite join_cons_char, IH.
Qed.

Lemma strftime_compact_single_line (t : datetime) :
  single_line (strftime_compact t) = true.
Proof.
  unfold strftime_compact.
  now rewrite !single_line_append, !zfill_single_line.
Qed.

(** The middle of a list of thirteen, some and six lines. *)
Lemma middle_lines (before body after : list string) :
  List.length before = 13 -> List.length after = 6 ->
  let lines := app before (app body after) in
  firstn (List.length lines - 19) (skipn 13 lines) = body.
Proof.
  intros Hb Ha lines. unfold lines.
  rewrite <- Hb at 2. rewrite skipn_app, skipn_all, Nat.sub_diag. cbn [skipn app].
  rewrite !length_app, Hb, Ha.
  replace (13 + (List.length body + 6) - 19) with (List.length body + 0) by lia.
  rewrite firstn_app_2. cbn [firstn]. apply app_nil_r.
Qed.

End FormalFacts.

(** X22.  The formal text can be taken apart again.  When the message
    type, the five sender fields, the account and the two time stamps
    hold no line feed, the lines of the text [build_formal_output] and
    [build_formal_text] hand back are thirteen lines, then the lines of
    the message body, then six lines; so the message body, of however
    many lines, is the text between the first thirteen and the last six
    lines, and two bodies that give the same formal text are the same
    body. *)
Theorem formal_text_gives_the_body_back :
  forall (message_type message_body : string) (sender_info : SenderInfo)
         (start_ts end_ts account_number : string) (w : World),
    FormalText.one_line_fields message_type sender_info start_ts end_ts account_number
    = true ->
    (forall formal_text : string,
        run (build_formal_output message_type message_body sender_info
               start_ts end_ts account_number) w = Ok formal_text
        \/ run (build_formal_text message_type message_body sender_info
                  start_ts end_ts account_number) w = Ok formal_text ->
        List.length (split_nl formal_text) = 19 + List.length (split_nl message_body)
        /\ FormalText.message_body_of formal_text = message_body)
    /\ (forall other_body : string,
          run (build_formal_output message_type message_body sender_info
                 start_ts end_ts account_number) w
          = run (build_formal_output message_type other_body sender_info
                   start_ts end_ts account_number) w ->
          message_body = other_body).
Proof.
  intros message_type message_body sender_info start_ts end_ts account_number w Hone.
  unfold FormalText.one_line_fields in Hone. cbn [forallb] in Hone.
  repeat match type of Hone with
         | (_ && _ = true) => apply andb_true_iff in Hone as [? Hone]
         end.
  assert (Hshape : forall (label body : string),
             MtSpec.single_line label = true ->
             let formal_text :=
               join nl
                 [ "INSTANT TYPE AND TRANSMISSION: INSTANT";
                   "";
                   "MESSAGE HEADER";
                   "Message Type: " ++ message_type;
                   "Reference: " ++ PyTime.strftime_compact (utc_at w (clock_reads w));
                   "Sender BIC: " ++ get_or (bic sender_info) "";
                   "Sender Bank: " ++ get_or (bank_name sender_info) "";
                   "Sender Address: " ++ get_or (bank_address sender_info) "";
                   "Account Name: " ++ get_or (account_name sender_info) "";
                   "Account IBAN: " ++ get_or (account_iban sender_info) "";
                   label ++ account_number;
                   "";
                   "MESSAGE TEXT";
                   body;
                   "";
                   "MESSAGE HAS BEEN TRANSMITTED SUCCESSFULLY";
                   "CONFIRMED & RECEIVED";
                   "";
                   "Start Time: " ++ start_ts;
                   "End Time:   " ++ end_ts ] in
             List.length (split_nl formal_text) = 19 + List.length (split_nl body)
             /\ FormalText.message_body_of formal_text = body).
  { intros label body Hlabel formal_text.
    set (before := [ "INSTANT TYPE AND TRANSMISSION: INSTANT";
                     "";
                     "MESSAGE HEADER";
                     "Message Type: " ++ message_type;
                     "Reference: " ++ PyTime.strftime_compact (utc_at w (clock_reads w));
                     "Sender BIC: " ++ get_or (bic sender_info) "";
                     "Sender Bank: " ++ get_or (bank_name sender_info) "";
                     "Sender Address: " ++ get_or (bank_address sender_info) "";
                     "Account Name: " ++ get_or (account_name sender_info) "";
                     "Account IBAN: " ++ get_or (account_iban sender_info) "";
                     label ++ account_number;
                     "";
                     "MESSAGE TEXT" ]).
    set (after := [ "";
                    "MESSAGE HAS BEEN TRANSMITTED SUCCESSFULLY";
                    "CONFIRMED & RECEIVED";
                    "";
                    "Start Time: " ++ start_ts;
                    "End Time:   " ++ end_ts ]).
    assert (Hb : forallb MtSpec.single_line before = true).
    { unfold before. cbn [forallb].
      rewrite !LineFacts.single_line_append, FormalFacts.strftime_compact_single_line.
      repeat match goal with
             | E : MtSpec.single_line _ = true |- _ => rewrite E; clear E
             end.
      reflexivity. }
    assert (Ha : forallb MtSpec.single_line after = true).
    { unfold after. cbn [forallb].
      rewrite !LineFacts.single_line_append.
      repeat match goal with
             | E : MtSpec.single_line _ = true |- _ => rewrite E; clear E
             end.
      reflexivity. }
    assert (Hlines : split_nl formal_text = app before (app (split_nl body) after)).
    { unfold formal_text.
      change (split_nl (join nl (app before (app [body] after)))
              = app before (app (split_nl body) after)).
      rewrite FormalFacts.split_nl_join_any by (unfold before; discriminate).
      rewrite !flat_map_app. cbn [flat_map].
      rewrite (FormalFacts.flat_map_single before Hb),
              (FormalFacts.flat_map_single after Ha), app_nil_r.
      reflexivity. }
    split.
    - rewrite Hlines, !length_app.
      change (List.length before) with 13. change (List.length after) with 6. lia.
    - unfold FormalText.message_body_of. cbv zeta. rewrite Hlines.
      rewrite (FormalFacts.middle_lines before (split_nl body) after eq_refl eq_refl).
      apply FormalFacts.join_split_nl. }
  split.
  - intros formal_text [Hrun|Hrun];
      unfold run, build_formal_output, build_formal_text, bind, ret, utcnow in Hrun;
      cbn [fst] in Hrun; injection Hrun as <-.
    + apply (Hshape "Selected Account (from system): " message_body). reflexivity.
    + apply (Hshape "Selected Account: " message_body). reflexivity.
  - intros other_body Heq.
    unfold run, build_formal_output, bind, ret, utcnow in Heq.
    cbn [fst] in Heq.
    pose proof (f_equal (fun r : result string =>
                           match r with
                           | Ok text => FormalText.message_body_of text
                           | Err _ => ""
                           end) Heq) as Hm.
    cbv beta iota in Hm.
    destruct (Hshape "Selected Account (from system): " message_body eq_refl)
      as [_ Hbody].
    destruct (Hshape "Selected Account (from system): " other_body eq_refl)
      as [_ Hother].
    cbv zeta in Hbody, Hother. rewrite Hbody, Hother in Hm. exact Hm.
Qed.

(** X22 at a body of two lines. *)
Lemma formal_text_gives_the_body_back_witness :
  exists formal_text : string,
    run (build_formal_output "MT199" (":20:REF001" ++ nl ++ ":79:NOTE") Sample.sender
           "2025-03-07T11:59:58" "2025-03-07T12:00:05" "-- none --") Sample.world
    = Ok formal_text
    /\ List.length (split_nl formal_text) = 21
    /\ FormalText.message_body_of formal_text = ":20:REF001" ++ nl ++ ":79:NOTE".
Proof.
  eexists. split; [reflexivity |].
  apply (proj1 (formal_text_gives_the_body_back "MT199" (":20:REF001" ++ nl ++ ":79:NOTE")
                  Sample.sender "2025-03-07T11:59:58" "2025-03-07T12:00:05" "-- none --"
                  Sample.world eq_refl)).
  left. reflexivity.
Defined.

(** ** The record built from a transaction *)

(** X23.  [payment_from_transaction] always returns, and reads from the
    environment only what the caller left out: today's date for a value
    date that is missing or empty, a UUID for a reference that is
    missing or empty, of which the record keeps twelve characters in
    capitals; with both given it leaves the environment as it is.  The
    record carries the amount, the currency, a value date, a reference
    and a remittance text (empty when none was given), so that the
    generators applied to it fail, if at all, with the exception of the
    amount formatter and never with KeyError. *)
Theorem payment_from_transaction_fills_the_record :
  forall (account_number account_name to_account to_name : string)
         (amount_given : Decimal) (currency_given : string)
         (date_given remittance_given bic_given reference_given : option string)
         (w : World),
    exists (payment : Payment) (w' : World),
      payment_from_transaction account_number account_name to_account to_name
        amount_given currency_given date_given remittance_given bic_given
        reference_given w
      = (Ok payment, w')
      /\ value_date payment
         = Some (if truthy date_given then get_or date_given ""
                 else PyTime.date_isoformat (today_at w (clock_reads w)))
      /\ reference payment
         = Some (if truthy reference_given then get_or reference_given ""
                 else take 12 (upper (uuid_at w (uuid_draws w))))
      /\ remittance_info payment = Some (or_else remittance_given "")
      /\ clock_reads w' = (if truthy date_given then 0 else 1) + clock_reads w
      /\ uuid_draws w' = (if truthy reference_given then 0 else 1) + uuid_draws w
      /\ (truthy date_given = true -> truthy reference_given = true -> w' = w)
      /\ amount_text_of payment = format_amount amount_given currency_given
      /\ amount_text_xml payment = format_amount amount_given currency_given.
Proof.
  intros account_number account_name to_account to_name amount_given currency_given
         date_given remittance_given bic_given reference_given w.
  unfold payment_from_transaction. RunFacts.run_monad.
  destruct (truthy date_given), (truthy reference_given);
    cbn [fst snd tick draw today_at clock_reads uuid_at uuid_draws];
    eexists _, _; (split; [reflexivity |]);
    repeat split; try reflexivity; try discriminate.
Qed.

(** X23 with a value date and a reference: nothing is read. *)
Lemma payment_from_transaction_fills_the_record_witness :
  snd (payment_from_transaction "CH970020620625170160K" "ANDRO AG"
         "DE89370400440532013000" "ACME CORP" (Finite false 15005 (-1)) "USD"
         (Some "2025-03-10") None None (Some "REF001") Sample.world)
  = Sample.world.
Proof.
  destruct (payment_from_transaction_fills_the_record "CH970020620625170160K" "ANDRO AG"
              "DE89370400440532013000" "ACME CORP" (Finite false 15005 (-1)) "USD"
              (Some "2025-03-10") None None (Some "REF001") Sample.world)
    as (payment & w' & Hrun & _ & _ & _ & _ & _ & Hsame & _).
  rewrite Hrun. exact (Hsame eq_refl eq_refl).
Defined.
